(** * gpu.h: tensor pool, shader templating, kernel construction and the
    asynchronous bridge, as a shallow embedding.

    Conventions of the embedding.
    - [size_t] is a 64-bit unsigned integer: a [Z] in [0, 2^64) whose
      arithmetic wraps ([wrap]).
    - Opaque WebGPU handles ([WGPUBuffer], [WGPUDevice], ...) are [Z]; the
      null handle is [0].
    - Calls into the wrapped GPU API are recorded, in program order, in the
      trace of a [World]; the handles the API gives back are read from the
      world's [w_handles] list, so that every answer of the API (null
      included) is covered.
    - [NDEBUG] is the boolean [kDebug] (true when NDEBUG is not defined); it
      gates both [check] and the C [assert] macro. *)

From Stdlib Require Import ZArith List Ascii String Lia Bool.
From Stdlib Require Import Numbers.DecimalString.
From stdpp Require Import base gmap list.

Local Open Scope Z_scope.

(** ** Machine integers *)

Definition SIZE_BITS : Z := 64.
Definition SIZE_MOD : Z := 2 ^ SIZE_BITS.
(** Reduction of an exact result to [size_t]. *)
Definition wrap (z : Z) : Z := z mod SIZE_MOD.

Definition in_size_t (z : Z) : Prop := 0 <= z < SIZE_MOD.

(** [static_cast<uint32_t>] *)
Definition to_uint32 (z : Z) : Z := z mod 2 ^ 32.

Definition nullptr : Z := 0.

(** ** Shape *)

Definition kMaxRank : nat := 8.

Record Shape := mkShape {
  Shape_data : list Z;  (* std::array<size_t, kMaxRank> *)
  Shape_rank : nat
}.

(** [Shape() = default]: data = {0}, rank = 0. *)
Definition Shape_default : Shape :=
  {| Shape_data := replicate kMaxRank 0; Shape_rank := 0 |}.

(** [Shape(std::initializer_list<size_t> dims)]; the constructor asserts
    [dims.size() <= kMaxRank]. *)
Definition Shape_init (dims : list Z) : Shape :=
  {| Shape_data := dims ++ replicate (kMaxRank - length dims) 0;
     Shape_rank := length dims |}.

(** [shape.data[i]]; the array has [kMaxRank] cells, a read past it is
    undefined in the source and gives 0 here. *)
Definition Shape_get (s : Shape) (i : nat) : Z := nth i (Shape_data s) 0.

(** The dimensions of a shape: the cells [data[0]], ..., [data[rank - 1]]. *)
Definition dims (s : Shape) : list Z := map (Shape_get s) (seq 0 (Shape_rank s)).

Definition Shape_wf (s : Shape) : Prop :=
  length (Shape_data s) = kMaxRank /\ (Shape_rank s <= kMaxRank)%nat /\
  Forall in_size_t (Shape_data s).

(** The loop [for (i = 0; i < rank; i++) numels *= shape.data[i]] shared by
    [size] and [CreateTensor], as a fold over the indices. *)
Definition numels_loop (s : Shape) : Z :=
  fold_left (fun numels i => wrap (numels * Shape_get s i))
            (seq 0 (Shape_rank s)) 1.

Definition size (shape : Shape) : Z := numels_loop shape.

(** Exact product of a list of integers. *)
Definition product (l : list Z) : Z := fold_right Z.mul 1 l.

(** ** Array, Tensor, NumType *)

Record Array := mkArray {
  Array_buffer : Z;  (* WGPUBuffer *)
  Array_usage : Z;   (* WGPUBufferUsageFlags *)
  Array_size : Z     (* in bytes *)
}.

Record Tensor := mkTensor {
  Tensor_data : Array;
  Tensor_shape : Shape
}.

(** A value-initialised Tensor, as [unordered_map::operator[]] inserts. *)
Definition Tensor_default : Tensor :=
  {| Tensor_data := mkArray nullptr 0 0; Tensor_shape := Shape_default |}.

(** [enum NumType { kf32 }]: an enumeration is an integer, and a value other
    than the single enumerator is an unrecognised kind. *)
Definition NumType := Z.
Definition kf32 : NumType := 0.

Definition sizeof_float : Z := 4.

(** Usage flags of webgpu.h. *)
Definition WGPUBufferUsage_MapRead : Z := 1.
Definition WGPUBufferUsage_CopySrc : Z := 4.
Definition WGPUBufferUsage_CopyDst : Z := 8.
Definition WGPUBufferUsage_Uniform : Z := 64.
Definition WGPUBufferUsage_Storage : Z := 128.

(** ** The wrapped API: events, worlds and the execution monad *)

Inductive LogLevel := kError | kWarn | kInfo | kTrace.

(** [WGPUBufferBindingType] *)
Inductive BindingType :=
| BindingType_Undefined | BindingType_Uniform | BindingType_Storage.

(** [WGPUBindGroupLayoutEntry], the fields the code sets; a value-initialised
    entry has every field zero. *)
Record LayoutEntry := mkLayoutEntry {
  le_binding : Z;
  le_visibility : Z;
  le_type : BindingType;
  le_minBindingSize : Z
}.

Definition LayoutEntry_zero : LayoutEntry :=
  mkLayoutEntry 0 0 BindingType_Undefined 0.

(** [WGPUBindGroupEntry] *)
Record GroupEntry := mkGroupEntry {
  ge_binding : Z;
  ge_buffer : Z;
  ge_offset : Z;
  ge_size : Z
}.

Definition GroupEntry_zero : GroupEntry := mkGroupEntry 0 0 0 0.

Definition WGPUShaderStage_Compute : Z := 4.

(** One entry per call into the wrapped API (with the handle it returned),
    per log line, and per callback the API delivers. *)
Inductive Event :=
| EvLog (level : LogLevel) (msg : string)
| EvCreateBuffer (usage sz result : Z)
| EvBufferRelease (buffer : Z)
| EvQueueWriteBuffer (queue buffer offset sz : Z)
| EvCreateBindGroupLayout (entries : list LayoutEntry) (result : Z)
| EvCreateBindGroup (layout entryCount : Z) (entries : list GroupEntry)
    (result : Z)
| EvCreatePipelineLayout (layout result : Z)
| EvCreateShaderModule (code : list ascii) (result : Z)
| EvCreateComputePipeline (layout module : Z) (entryPoint : string)
    (result : Z)
| EvCreateCommandEncoder (result : Z)
| EvBeginComputePass (encoder result : Z)
| EvSetPipeline (pass pipeline : Z)
| EvSetBindGroup (pass group : Z)
| EvDispatchWorkgroups (pass x y z : Z)
| EvPassEnd (pass : Z)
| EvCopyBufferToBuffer (encoder src dst sz : Z)
| EvEncoderFinish (encoder result : Z)
| EvQueueSubmit (queue commandBuffer : Z)
| EvOnSubmittedWorkDone (queue : Z)
| EvProcessEvents (instance : Z)
| EvWorkDoneCallback (status : Z)
| EvBufferMapAsync (buffer sz : Z)
| EvMapCallback (status : Z)
| EvGetConstMappedRange (buffer result : Z)
| EvMemcpy (dst src sz : Z)
| EvBufferUnmap (buffer : Z)
| EvPromiseSetValue
| EvCreateInstance (result : Z)
| EvRequestAdapter (instance : Z)
| EvAdapterCallback (status adapter : Z)
| EvRequestDevice (adapter : Z)
| EvDeviceCallback (status device : Z)
| EvSetUncapturedErrorCallback (device : Z)
| EvGetQueue (device result : Z)
| EvExit (code : Z).

(** [CallbackDataDyn], without the future (the promise is the world's). *)
Record CallbackDataDyn := mkCallbackData {
  cb_buffer : Z;
  cb_bufferSize : Z;
  cb_output : Z  (* float *output, an address *)
}.

(** The callbacks the code hands to the API: the two lambdas of [ToCPU]
    with their user data, and the two of [CreateContext], whose user data
    is a local of [CreateContext]. *)
Inductive Callback :=
| OnWorkDone (data : CallbackDataDyn)
| OnMapped (data : CallbackDataDyn)
| OnAdapterRequestEnded (adapter : Z)
| OnDeviceRequestEnded (device : Z).

(** A callback the API holds: it is delivered by the [p_delay + 1]-th
    following call of [wgpuInstanceProcessEvents], with [p_status]. *)
Record Pending := mkPending {
  p_delay : nat;
  p_status : Z;
  p_callback : Callback
}.

Record World := mkWorld {
  w_trace : list Event;      (* oldest first *)
  w_handles : list Z;        (* handles the API will hand out, in order *)
  w_pending : list Pending;  (* callbacks registered, not yet delivered *)
  w_promise : bool           (* the promise of the running ToCPU has a value *)
}.

Definition World_init (handles : list Z) : World := mkWorld [] handles [] false.

Inductive Outcome (A : Type) :=
| Done (a : A)
| Exited (code : Z)     (* exit(code) *)
| AssertFailed          (* a failed assert: abort() *)
| Undefined             (* undefined behaviour: division by zero *)
| OutOfFuel.            (* the loop did not end within the fuel given *)
Arguments Done {A} a.
Arguments Exited {A} code.
Arguments AssertFailed {A}.
Arguments Undefined {A}.
Arguments OutOfFuel {A}.

Definition M (A : Type) : Type := World -> Outcome A * World.

#[global] Instance M_ret : MRet M := fun A a w => (Done a, w).

#[global] Instance M_bind : MBind M := fun A B f m w =>
  match m w with
  | (Done a, w') => f a w'
  | (Exited c, w') => (Exited c, w')
  | (AssertFailed, w') => (AssertFailed, w')
  | (Undefined, w') => (Undefined, w')
  | (OutOfFuel, w') => (OutOfFuel, w')
  end.

Definition emit (e : Event) : M unit := fun w =>
  (Done tt, mkWorld (w_trace w ++ [e]) (w_handles w) (w_pending w) (w_promise w)).

(** The API hands out the next handle; when the list is exhausted it hands
    out null. *)
Definition fresh : M Z := fun w =>
  (Done (hd nullptr (w_handles w)),
   mkWorld (w_trace w) (tl (w_handles w)) (w_pending w) (w_promise w)).

Definition register (p : Pending) : M unit := fun w =>
  (Done tt, mkWorld (w_trace w) (w_handles w) (w_pending w ++ [p]) (w_promise w)).

Definition set_promise : M unit := fun w =>
  (Done tt, mkWorld (w_trace w) (w_handles w) (w_pending w) true).

Definition fail {A} (o : Outcome A) : M A := fun w => (o, w).

Definition log (level : LogLevel) (msg : string) : M unit := emit (EvLog level msg).

(** [exit(1)] *)
Definition exit {A} (code : Z) : M A :=
  fun w => (Exited code, snd (emit (EvExit code) w)).

(** [assert(c)]: compiled out when NDEBUG is defined. *)
Definition assert (kDebug : bool) (c : bool) : M unit :=
  if kDebug then (if c then mret tt else fail AssertFailed) else mret tt.

Definition wgpuDeviceCreateBuffer (device usage sz : Z) : M Z :=
  h ← fresh; emit (EvCreateBuffer usage sz h);; mret h.

Definition wgpuBufferRelease (buffer : Z) : M unit := emit (EvBufferRelease buffer).

Definition wgpuQueueWriteBuffer (queue buffer offset sz : Z) : M unit :=
  emit (EvQueueWriteBuffer queue buffer offset sz).

(** ** TensorPool *)

Record TensorPool := mkPool { TensorPool_data : gmap Z Tensor }.

(** [pool.data[key]] as an rvalue: inserts a default Tensor when absent. *)
Definition pool_index (pool : TensorPool) (key : Z) : Tensor * TensorPool :=
  match TensorPool_data pool !! key with
  | Some t => (t, pool)
  | None => (Tensor_default, mkPool (<[key := Tensor_default]> (TensorPool_data pool)))
  end.

Definition default_usage : Z :=
  Z.lor WGPUBufferUsage_Storage (Z.lor WGPUBufferUsage_CopyDst WGPUBufferUsage_CopySrc).

Definition CreateTensor (pool : TensorPool) (device : Z) (shape : Shape)
    (dtype : NumType) (usage : Z) : M (Tensor * TensorPool) :=
  log kTrace "Creating tensor";;
  let numElements := numels_loop shape in
  let size := if dtype =? kf32 then wrap (sizeof_float * numElements) else 0 in
  buffer ← wgpuDeviceCreateBuffer device usage size;
  let pool1 := mkPool (<[buffer := mkTensor (mkArray buffer usage size) shape]>
                         (TensorPool_data pool)) in
  _ ← wgpuDeviceCreateBuffer device usage size;
  mret (pool_index pool1 buffer).

Definition FreeTensor (pool : TensorPool) (tensor : Tensor) : M TensorPool :=
  (if negb (Array_buffer (Tensor_data tensor) =? nullptr)
   then wgpuBufferRelease (Array_buffer (Tensor_data tensor))
   else log kWarn "Tried to free tensor with null buffer");;
  match TensorPool_data pool !! Array_buffer (Tensor_data tensor) with
  | Some _ => mret (mkPool (delete (Array_buffer (Tensor_data tensor)) (TensorPool_data pool)))
  | None => log kWarn "Tried to free tensor that was not in pool";; mret pool
  end.

(** ** Strings: ToString, ReplaceAll, CreateShader *)

(** [std::to_string] of a [size_t]: the decimal digits, "0" for zero. *)
Definition to_string (n : Z) : list ascii :=
  list_ascii_of_string (NilZero.string_of_uint (N.to_uint (Z.to_N n))).

(** [ToString(NumType)] *)
Definition ToString_NumType (type : NumType) : M (list ascii) :=
  if type =? kf32 then mret (list_ascii_of_string "f32")
  else log kError "Invalid NumType in string conversion.";;
       mret (list_ascii_of_string "unknown").

(** The text [ToString(NumType)] returns, without its log line. *)
Definition NumType_text (type : NumType) : list ascii :=
  if type =? kf32 then list_ascii_of_string "f32" else list_ascii_of_string "unknown".

(** [ToString(const Shape &)]: the loop over [i < rank], appending ", "
    when [i < rank - 1] (no iteration runs when the rank is 0, where
    [rank - 1] would wrap). *)
Definition ToString_Shape (shape : Shape) : list ascii :=
  fold_left (fun str i =>
               let str := str ++ to_string (Shape_get shape i) in
               if (i <? Shape_rank shape - 1)%nat
               then str ++ list_ascii_of_string ", " else str)
            (seq 0 (Shape_rank shape)) [].

Fixpoint is_prefix (p s : list ascii) : bool :=
  match p, s with
  | [], _ => true
  | _ :: _, [] => false
  | a :: p', b :: s' => Ascii.eqb a b && is_prefix p' s'
  end.

(** Search of [from] in [s], the part of the string that starts at [pos]. *)
Fixpoint find_aux (from s : list ascii) (pos : nat) : option nat :=
  if is_prefix from s then Some pos
  else match s with
       | [] => None
       | _ :: s' => find_aux from s' (S pos)
       end.

(** [str.find(from, start_pos)]; [None] is [std::string::npos]. *)
Definition find (str from : list ascii) (start_pos : nat) : option nat :=
  if (length str <? start_pos)%nat then None
  else find_aux from (drop start_pos str) start_pos.

(** [str.replace(pos, len, to)] *)
Definition replace (str : list ascii) (pos len : nat) (to : list ascii) : list ascii :=
  take pos str ++ to ++ drop (pos + len) str.

(** The [while] loop of [ReplaceAll]; [None] when the fuel runs out. The
    text is a list without a bound on its length: where the source makes a
    [std::string] grow at each iteration (an empty [from] with a non-empty
    [to]), [replace] ends up throwing, which is not part of this
    definition. *)
Fixpoint ReplaceAll_loop (fuel : nat) (str from to : list ascii) (start_pos : nat)
    : option (list ascii) :=
  match fuel with
  | O => None
  | S fuel' =>
      match find str from start_pos with
      | None => Some str
      | Some p =>
          ReplaceAll_loop fuel' (replace str p (length from) to) from to
                          (p + length to)
      end
  end.

(** One iteration per occurrence found: [length str + 1] iterations are
    enough for every non-empty [from]. *)
Definition ReplaceAll (str from to : list ascii) : option (list ascii) :=
  ReplaceAll_loop (S (length str)) str from to 0.

Definition lift_loop {A} (o : option A) : M A :=
  match o with Some a => mret a | None => fail OutOfFuel end.

Record ShaderCode := mkShaderCode {
  ShaderCode_data : list ascii;
  ShaderCode_workgroupSize : Shape;
  ShaderCode_precision : NumType
}.

Definition tok_workgroupSize : list ascii := list_ascii_of_string "{{workgroupSize}}".
Definition tok_precision : list ascii := list_ascii_of_string "{{precision}}".

(** [CreateShader(const char *, const Shape &, NumType)]. The ShaderCode is
    built from the text and the workgroup size only, so its precision is the
    constructor's default. *)
Definition CreateShader (shaderTemplate : list ascii) (workgroupSize : Shape)
    (precision : NumType) : M ShaderCode :=
  let codeString := shaderTemplate in
  codeString ← lift_loop (ReplaceAll codeString tok_workgroupSize
                                     (ToString_Shape workgroupSize));
  p ← ToString_NumType precision;
  codeString ← lift_loop (ReplaceAll codeString tok_precision p);
  log kInfo "Shader code:";;
  mret (mkShaderCode codeString workgroupSize kf32).

(** [CreateShader(const char *, size_t, NumType)] *)
Definition CreateShader_scalar (shaderTemplate : list ascii) (workgroupSize : Z)
    (precision : NumType) : M ShaderCode :=
  CreateShader shaderTemplate (Shape_init [workgroupSize; 1; 1]) precision.

(** ** check *)

Definition check (kDebug : bool) (condition : bool) (message : string) : M unit :=
  if kDebug then
    if negb condition
    then log kError message;; exit 1
    else log kTrace message
  else mret tt.

(** ** Context, Kernel *)

Record Context := mkContext {
  Context_instance : Z;
  Context_adapter : Z;
  Context_device : Z;
  Context_queue : Z;
  Context_pool : TensorPool;
  Context_kernelPool : gset Z  (* std::set<Kernel *>: addresses *)
}.

Record Kernel := mkKernel {
  Kernel_buffers : list Z;
  Kernel_bufferSizes : list Z;
  Kernel_numBindings : Z;
  Kernel_nWorkgroups : Shape;
  Kernel_bindGroup : Z;
  Kernel_computePipeline : Z;
  Kernel_commandBuffer : Z
}.

(** [Shape::operator[]]: asserts [index < rank], then reads the cell. *)
Definition Shape_index (kDebug : bool) (s : Shape) (index : nat) : M Z :=
  assert kDebug (index <? Shape_rank s)%nat;;
  mret (Shape_get s index).

(** Unsigned division; dividing by zero is undefined. *)
Definition size_div (a b : Z) : M Z :=
  if b =? 0 then fail Undefined else mret (a / b).

(** [(nThreads[axis] + (workgroupSize[axis] - 1)) / workgroupSize[axis]] *)
Definition nWorkgroups_axis (kDebug : bool) (nThreads workgroupSize : Shape)
    (axis : nat) : M Z :=
  n ← Shape_index kDebug nThreads axis;
  w ← Shape_index kDebug workgroupSize axis;
  w' ← Shape_index kDebug workgroupSize axis;
  size_div (wrap (n + wrap (w - 1))) w'.

Definition wgpuDeviceCreateCommandEncoder (device : Z) : M Z :=
  h ← fresh; emit (EvCreateCommandEncoder h);; mret h.

Definition wgpuCommandEncoderFinish (encoder : Z) : M Z :=
  h ← fresh; emit (EvEncoderFinish encoder h);; mret h.

Definition is_set (handle : Z) : bool := negb (handle =? nullptr).

(** [ResetCommandBuffer]; returns the new [op.commandBuffer]. The counts
    [op.nWorkgroups[i]] are [size_t] values passed to the [uint32_t]
    parameters of [wgpuComputePassEncoderDispatchWorkgroups]: the API
    receives them modulo 2^32. *)
Definition ResetCommandBuffer (kDebug : bool) (device : Z) (nThreads : Shape)
    (op : Kernel) : M Kernel :=
  log kTrace "Create command buffer";;
  commandEncoder ← wgpuDeviceCreateCommandEncoder device;
  computePassEncoder ← (h ← fresh; emit (EvBeginComputePass commandEncoder h);; mret h);
  log kTrace "Set pipeline";;
  emit (EvSetPipeline computePassEncoder (Kernel_computePipeline op));;
  emit (EvSetBindGroup computePassEncoder (Kernel_bindGroup op));;
  log kTrace "Dispatching workgroups for number of threads";;
  x ← Shape_index kDebug (Kernel_nWorkgroups op) 0;
  y ← Shape_index kDebug (Kernel_nWorkgroups op) 1;
  z ← Shape_index kDebug (Kernel_nWorkgroups op) 2;
  emit (EvDispatchWorkgroups computePassEncoder (to_uint32 x) (to_uint32 y)
                             (to_uint32 z));;
  emit (EvPassEnd computePassEncoder);;
  commandBuffer ← wgpuCommandEncoderFinish commandEncoder;
  check kDebug (is_set commandBuffer) "Create command buffer";;
  mret (mkKernel (Kernel_buffers op) (Kernel_bufferSizes op) (Kernel_numBindings op)
                 (Kernel_nWorkgroups op) (Kernel_bindGroup op)
                 (Kernel_computePipeline op) commandBuffer).

(** [inputs[i]]: a read past the array is undefined in the source. *)
Definition input_at (inputs : list Tensor) (i : nat) : Tensor :=
  nth i inputs Tensor_default.

(** The three loops [for (i = 0; i < numTensors; ++i)] of [CreateKernel];
    a write past the end of a vector is undefined in the source and writes
    nothing here. *)
Definition fill_layout (inputs : list Tensor) (numTensors : Z)
    (entries : list LayoutEntry) : list LayoutEntry :=
  fold_left (fun es i =>
               <[i := mkLayoutEntry (to_uint32 (Z.of_nat i)) WGPUShaderStage_Compute
                        BindingType_Storage
                        (Array_size (Tensor_data (input_at inputs i)))]> es)
            (seq 0 (Z.to_nat numTensors)) entries.

Definition fill_buffers (inputs : list Tensor) (numTensors : Z)
    (bs : list Z * list Z) : list Z * list Z :=
  fold_left (fun bs i =>
               (<[i := Array_buffer (Tensor_data (input_at inputs i))]> (fst bs),
                <[i := Array_size (Tensor_data (input_at inputs i))]> (snd bs)))
            (seq 0 (Z.to_nat numTensors)) bs.

Definition fill_group (buffers bufferSizes : list Z) (numTensors : Z)
    (entries : list GroupEntry) : list GroupEntry :=
  fold_left (fun es i =>
               <[i := mkGroupEntry (to_uint32 (Z.of_nat i)) (nth i buffers 0) 0
                        (nth i bufferSizes 0)]> es)
            (seq 0 (Z.to_nat numTensors)) entries.

(** What [CreateKernel] hands back: the Kernel, the context with the kernel
    registered, and the binding layout it passed to the API. *)
Record KernelResult := mkKernelResult {
  kr_kernel : Kernel;
  kr_ctx : Context;
  kr_layout : list LayoutEntry
}.

(** [CreateKernel(ctx, shader, inputs, numTensors, nThreads, params,
    paramsSize)]; [op_addr] is the address of the local [op]. *)
Definition CreateKernel (kDebug : bool) (ctx : Context) (shader : ShaderCode)
    (inputs : list Tensor) (numTensors : Z) (nThreads : Shape)
    (params paramsSize : Z) (op_addr : Z) : M KernelResult :=
  assert kDebug (Shape_rank nThreads =? 3)%nat;;
  let device := Context_device ctx in
  let queue := Context_queue ctx in
  let paramIndex := wrap (-1) in
  let numBindings := numTensors in
  let numBindings := if paramsSize >? 0 then wrap (numBindings + 1) else numBindings in
  let paramIndex := if paramsSize >? 0 then wrap (numBindings - 1) else paramIndex in
  let buffers := replicate (Z.to_nat numBindings) nullptr in
  let bufferSizes := replicate (Z.to_nat numBindings) 0 in
  log kInfo "Create the bind group layout";;
  let bgLayoutEntries := replicate (Z.to_nat numBindings) LayoutEntry_zero in
  let bgLayoutEntries := fill_layout inputs numTensors bgLayoutEntries in
  bgLayoutEntries ←
    (if paramsSize >? 0 then
       log kInfo "Create layout entry for the params buffer";;
       mret (<[Z.to_nat paramIndex :=
                 mkLayoutEntry (to_uint32 paramIndex) WGPUShaderStage_Compute
                               BindingType_Uniform paramsSize]> bgLayoutEntries)
     else mret bgLayoutEntries);
  log kInfo "Create the bind group layout descriptor";;
  bgLayout ← (h ← fresh; emit (EvCreateBindGroupLayout bgLayoutEntries h);; mret h);
  let filled := fill_buffers inputs numTensors (buffers, bufferSizes) in
  let buffers := fst filled in
  let bufferSizes := snd filled in
  log kInfo "Create the params buffer";;
  withParams ←
    (if paramsSize >? 0 then
       b ← wgpuDeviceCreateBuffer device
             (Z.lor WGPUBufferUsage_Uniform WGPUBufferUsage_CopyDst) paramsSize;
       wgpuQueueWriteBuffer queue b 0 paramsSize;;
       log kInfo "Params buffer written";;
       mret (<[Z.to_nat paramIndex := b]> buffers,
             <[Z.to_nat paramIndex := paramsSize]> bufferSizes)
     else log kInfo "No params buffer needed";; mret (buffers, bufferSizes));
  let buffers := fst withParams in
  let bufferSizes := snd withParams in
  log kInfo "Create the bind group";;
  let bindGroupEntries := replicate (Z.to_nat numBindings) GroupEntry_zero in
  let bindGroupEntries := fill_group buffers bufferSizes numTensors bindGroupEntries in
  bindGroupEntries ←
    (if paramsSize >? 0 then
       log kInfo "Create bind group entry for the params buffer";;
       log kInfo "paramIndex";;
       mret (<[Z.to_nat paramIndex :=
                 mkGroupEntry (to_uint32 paramIndex)
                              (nth (Z.to_nat paramIndex) buffers 0) 0 paramsSize]>
               bindGroupEntries)
     else mret bindGroupEntries);
  log kInfo "BG Entries Size";;
  bindGroup ← (h ← fresh;
               emit (EvCreateBindGroup bgLayout (to_uint32 numBindings)
                                       bindGroupEntries h);; mret h);
  pipelineLayout ← (h ← fresh; emit (EvCreatePipelineLayout bgLayout h);; mret h);
  module ← (h ← fresh; emit (EvCreateShaderModule (ShaderCode_data shader) h);; mret h);
  computePipeline ← (h ← fresh;
                     emit (EvCreateComputePipeline pipelineLayout module "main" h);;
                     mret h);
  nx ← nWorkgroups_axis kDebug nThreads (ShaderCode_workgroupSize shader) 0;
  ny ← nWorkgroups_axis kDebug nThreads (ShaderCode_workgroupSize shader) 1;
  nz ← nWorkgroups_axis kDebug nThreads (ShaderCode_workgroupSize shader) 2;
  let op := mkKernel buffers bufferSizes numBindings (Shape_init [nx; ny; nz])
                     bindGroup computePipeline nullptr in
  op ← ResetCommandBuffer kDebug device nThreads op;
  let ctx := mkContext (Context_instance ctx) (Context_adapter ctx)
                       (Context_device ctx) (Context_queue ctx) (Context_pool ctx)
                       ({[op_addr]} ∪ Context_kernelPool ctx) in
  log kInfo "Exiting CreateKernel";;
  mret (mkKernelResult op ctx bgLayoutEntries).

(** ** The asynchronous side of the wrapped API *)

(** What the API answers in one run: whether a request callback is invoked
    inside the request call or held back, with which status and handle, and
    after how many calls of [wgpuInstanceProcessEvents] the queue and map
    callbacks, and a request callback that is held back, are delivered. *)
Record Backend := mkBackend {
  be_adapter_sync : bool;
  be_adapter_status : Z;
  be_adapter : Z;
  be_device_sync : bool;
  be_device_status : Z;
  be_device : Z;
  be_workdone_delay : nat;
  be_workdone_status : Z;
  be_map_delay : nat;
  be_map_status : Z;
  be_adapter_delay : nat;
  be_device_delay : nat
}.

(** Every [..._Success] status of webgpu.h is 0. *)
Definition Status_Success : Z := 0.

Definition wgpuBufferMapAsync (be : Backend) (buffer sz : Z) (cb : Callback) : M unit :=
  emit (EvBufferMapAsync buffer sz);;
  register (mkPending (be_map_delay be) (be_map_status be) cb).

Definition wgpuQueueOnSubmittedWorkDone (be : Backend) (queue : Z) (cb : Callback)
    : M unit :=
  emit (EvOnSubmittedWorkDone queue);;
  register (mkPending (be_workdone_delay be) (be_workdone_status be) cb).

(** [memcpy]; copying from a null source is undefined. *)
Definition memcpy (dst src sz : Z) : M unit :=
  emit (EvMemcpy dst src sz);;
  if (src =? nullptr) && (0 <? sz) then fail Undefined else mret tt.

(** The body of a callback, run by the API with [status]. A request callback
    of [CreateContext] delivered late writes through a pointer to a local
    that is gone. *)
Definition run_callback (kDebug : bool) (be : Backend) (status : Z) (cb : Callback)
    : M unit :=
  match cb with
  | OnWorkDone data =>
      emit (EvWorkDoneCallback status);;
      check kDebug (status =? Status_Success) "Queue work done";;
      wgpuBufferMapAsync be (cb_buffer data) (cb_bufferSize data) (OnMapped data)
  | OnMapped data =>
      emit (EvMapCallback status);;
      check kDebug (status =? Status_Success) "Map readbackBuffer";;
      mappedData ← (h ← fresh; emit (EvGetConstMappedRange (cb_buffer data) h);; mret h);
      check kDebug (is_set mappedData) "Get mapped range";;
      memcpy (cb_output data) mappedData (cb_bufferSize data);;
      emit (EvBufferUnmap (cb_buffer data));;
      emit EvPromiseSetValue;;
      set_promise
  | OnAdapterRequestEnded _ => fail Undefined
  | OnDeviceRequestEnded _ => fail Undefined
  end.

Fixpoint deliver (kDebug : bool) (be : Backend) (ps : list Pending) : M unit :=
  match ps with
  | [] => mret tt
  | p :: ps' =>
      match p_delay p with
      | O => run_callback kDebug be (p_status p) (p_callback p)
      | S d => register (mkPending d (p_status p) (p_callback p))
      end;;
      deliver kDebug be ps'
  end.

Definition take_pending : M (list Pending) := fun w =>
  (Done (w_pending w), mkWorld (w_trace w) (w_handles w) [] (w_promise w)).

(** [wgpuInstanceProcessEvents]: the callbacks that are due run inside the
    call, the others come one call closer. *)
Definition wgpuInstanceProcessEvents (kDebug : bool) (be : Backend) (instance : Z)
    : M unit :=
  emit (EvProcessEvents instance);;
  ps ← take_pending;
  deliver kDebug be ps.

(** [future.wait_for(0) == ready] *)
Definition future_ready : M bool := fun w => (Done (w_promise w), w).

(** [Wait]: [while (future not ready) wgpuInstanceProcessEvents(instance)]. *)
Fixpoint Wait (kDebug : bool) (be : Backend) (fuel : nat) (ctx : Context) : M unit :=
  ready ← future_ready;
  if ready : bool then mret tt
  else match fuel with
       | O => fail OutOfFuel
       | S fuel' =>
           wgpuInstanceProcessEvents kDebug be (Context_instance ctx);;
           Wait kDebug be fuel' ctx
       end.

(** A new [std::promise]: it has no value yet. *)
Definition new_promise : M unit := fun w =>
  (Done tt, mkWorld (w_trace w) (w_handles w) (w_pending w) false).

Definition ToCPU (kDebug : bool) (be : Backend) (fuel : nat) (ctx : Context)
    (tensor : Tensor) (data bufferSize : Z) : M unit :=
  let device := Context_device ctx in
  new_promise;;
  readbackBuffer ← wgpuDeviceCreateBuffer device
                     (Z.lor WGPUBufferUsage_CopyDst WGPUBufferUsage_MapRead) bufferSize;
  commandEncoder ← wgpuDeviceCreateCommandEncoder device;
  emit (EvCopyBufferToBuffer commandEncoder (Array_buffer (Tensor_data tensor))
                             readbackBuffer bufferSize);;
  commandBuffer ← wgpuCommandEncoderFinish commandEncoder;
  check kDebug (is_set commandBuffer) "Create command buffer";;
  emit (EvQueueSubmit (Context_queue ctx) commandBuffer);;
  let callbackData := mkCallbackData readbackBuffer bufferSize data in
  wgpuQueueOnSubmittedWorkDone be (Context_queue ctx) (OnWorkDone callbackData);;
  Wait kDebug be fuel ctx.

(** ** CreateContext *)

(** [AdapterData] and [DeviceData]: the handle and the flag a request
    callback fills in. *)
Record RequestData := mkRequestData {
  rd_handle : Z;
  rd_requestEnded : bool
}.

(** [wgpuInstanceRequestAdapter] with the lambda [onAdapterRequestEnded]:
    the API runs the lambda before returning, or holds it back. *)
Definition wgpuInstanceRequestAdapter (kDebug : bool) (be : Backend) (instance : Z)
    (adapterData : RequestData) : M RequestData :=
  emit (EvRequestAdapter instance);;
  if be_adapter_sync be then
    emit (EvAdapterCallback (be_adapter_status be) (be_adapter be));;
    check kDebug (be_adapter_status be =? Status_Success) "Request WebGPU adapter";;
    mret (mkRequestData (be_adapter be) true)
  else
    register (mkPending (be_adapter_delay be) (be_adapter_status be)
                        (OnAdapterRequestEnded (be_adapter be)));;
    mret adapterData.

(** [wgpuAdapterRequestDevice] with the lambda [onDeviceRequestEnded]. *)
Definition wgpuAdapterRequestDevice (kDebug : bool) (be : Backend) (adapter : Z)
    (devData : RequestData) : M RequestData :=
  emit (EvRequestDevice adapter);;
  if be_device_sync be then
    emit (EvDeviceCallback (be_device_status be) (be_device be));;
    check kDebug (be_device_status be =? Status_Success) "Could not get WebGPU device.";;
    log kInfo "Device Request succeeded";;
    mret (mkRequestData (be_device be) true)
  else
    register (mkPending (be_device_delay be) (be_device_status be)
                        (OnDeviceRequestEnded (be_device be)));;
    mret devData.

Definition CreateContext (kDebug : bool) (be : Backend) : M Context :=
  instance ← (h ← fresh; emit (EvCreateInstance h);; mret h);
  check kDebug (is_set instance) "Initialize WebGPU";;
  log kInfo "Requesting adapter";;
  adapterData ← wgpuInstanceRequestAdapter kDebug be instance (mkRequestData nullptr false);
  assert kDebug (rd_requestEnded adapterData);;
  let adapter := rd_handle adapterData in
  log kInfo "Requesting device";;
  devData ← wgpuAdapterRequestDevice kDebug be adapter (mkRequestData nullptr false);
  assert kDebug (rd_requestEnded devData);;
  let device := rd_handle devData in
  emit (EvSetUncapturedErrorCallback device);;
  queue ← (h ← fresh; emit (EvGetQueue device h);; mret h);
  mret (mkContext instance adapter device queue (mkPool ∅) ∅).

(** ** Reference definitions, following the words of the specification *)

(** [ceil(n / w)] on exact integers. *)
Definition ceil_div (n w : Z) : Z :=
  if n mod w =? 0 then n / w else n / w + 1.

(** Replacement of every occurrence of one token, in a single pass from the
    left: at an occurrence the replacement is written and the token is
    skipped, any other character is copied. [skip] counts the characters of
    the token still to be skipped. *)
Fixpoint replace_every (from to : list ascii) (skip : nat) (s : list ascii)
    : list ascii :=
  match s with
  | [] => []
  | c :: s' =>
      match skip with
      | S k => replace_every from to k s'
      | O =>
          if is_prefix from s
          then to ++ replace_every from to (length from - 1) s'
          else c :: replace_every from to 0 s'
      end
  end.

(** Substitution of both placeholders of a shader template in one pass:
    every occurrence of the workgroup-size token becomes [wg], every
    occurrence of the precision token becomes [prec], and every other
    character is copied. *)
Fixpoint substitute_go (wg prec : list ascii) (skip : nat) (s : list ascii)
    : list ascii :=
  match s with
  | [] => []
  | c :: s' =>
      match skip with
      | S k => substitute_go wg prec k s'
      | O =>
          if is_prefix tok_workgroupSize s
          then wg ++ substitute_go wg prec (length tok_workgroupSize - 1) s'
          else if is_prefix tok_precision s
          then prec ++ substitute_go wg prec (length tok_precision - 1) s'
          else c :: substitute_go wg prec 0 s'
      end
  end.

Definition substitute_spec (wg prec template : list ascii) : list ascii :=
  substitute_go wg prec 0 template.

(** ** Observations on traces *)

Definition null_buffer_warning : string := "Tried to free tensor with null buffer".
Definition not_in_pool_warning : string := "Tried to free tensor that was not in pool".

Definition created_buffers (tr : list Event) : list Z :=
  omap (fun e => match e with EvCreateBuffer _ _ h => Some h | _ => None end) tr.

Definition released_buffers (tr : list Event) : list Z :=
  omap (fun e => match e with EvBufferRelease b => Some b | _ => None end) tr.

Definition warnings (tr : list Event) : list string :=
  omap (fun e => match e with EvLog kWarn m => Some m | _ => None end) tr.

Definition is_pump (e : Event) : bool :=
  match e with EvProcessEvents _ => true | _ => false end.

(** The number of calls of [wgpuInstanceProcessEvents] in a trace. *)
Definition pumps (tr : list Event) : nat := length (List.filter is_pump tr).

Definition exited {A} (o : Outcome A) : bool :=
  match o with Exited _ => true | _ => false end.

Definition returned {A} (o : Outcome A) : bool :=
  match o with Done _ => true | _ => false end.

(** A computation that never ends in [exit]. *)
Definition never_exits {A} (m : M A) : Prop :=
  forall w, exited (fst (m w)) = false.

(** The handle the API hands out at its [n]-th next call. *)
Definition handle_at (w : World) (n : nat) : Z :=
  hd nullptr (Nat.iter n (@tl Z) (w_handles w)).

(** ** Proof support *)

(** Unfolding of the execution monad and of the API primitives. *)
Ltac exec :=
  cbv beta iota zeta delta
    [mbind mret M_bind M_ret emit log fresh register set_promise new_promise
     take_pending future_ready fail exit assert lift_loop
     wgpuDeviceCreateBuffer wgpuBufferRelease wgpuQueueWriteBuffer
     wgpuDeviceCreateCommandEncoder wgpuCommandEncoderFinish
     w_trace w_handles w_pending w_promise fst snd
     rd_handle rd_requestEnded p_delay p_status p_callback].

Ltac handles := cbv beta iota delta [handle_at Nat.iter nat_rect w_handles].

(** Symbolic execution: unfold, and split on every test met on the way. *)
Ltac run :=
  exec;
  repeat (match goal with
          | |- context [if ?b then _ else _] => destruct b eqn:?
          end; exec).


(** ** Concrete inputs used in the examples *)

(** An API that answers every request inside the call, with success. *)
Definition be_sync : Backend := mkBackend true 0 11 true 0 12 0 0 0 0 0 0.

(** An API that holds the adapter callback back. *)
Definition be_adapter_deferred : Backend := mkBackend false 0 11 true 0 12 0 0 0 0 0 0.

(** APIs that report a failure status (1) at one stage. *)
Definition be_adapter_failed : Backend := mkBackend true 1 0 true 0 12 0 0 0 0 0 0.
Definition be_device_failed : Backend := mkBackend true 0 11 true 1 0 0 0 0 0 0 0.
Definition be_workdone_failed : Backend := mkBackend true 0 11 true 0 12 0 1 0 0 0 0.
Definition be_map_failed : Backend := mkBackend true 0 11 true 0 12 0 0 0 1 0 0.

Definition ctx_example : Context := mkContext 1 11 12 2 (mkPool ∅) ∅.

Definition tensor_example : Tensor := mkTensor (mkArray 5 default_usage 16) (Shape_init [4]).

Definition shader_example : ShaderCode := mkShaderCode [] (Shape_init [256; 1; 1]) kf32.

Definition handles_example : list Z := [21; 22; 23; 24; 25; 26; 27; 28; 29; 30].

(** ** What CreateKernel computes, as plain functions *)

(** The binding count: [numTensors], plus one when there are parameters. *)
Definition numBindings_of (numTensors paramsSize : Z) : Z :=
  if paramsSize >? 0 then wrap (numTensors + 1) else numTensors.

(** The layout entry the first loop writes at index [i]: a storage buffer
    whose minimum binding size is the byte size of [inputs[i]]. *)
Definition storage_entry (inputs : list Tensor) (i : nat) : LayoutEntry :=
  mkLayoutEntry (to_uint32 (Z.of_nat i)) WGPUShaderStage_Compute BindingType_Storage
                (Array_size (Tensor_data (input_at inputs i))).

(** The layout entry of the parameter block. *)
Definition uniform_entry (index paramsSize : Z) : LayoutEntry :=
  mkLayoutEntry (to_uint32 index) WGPUShaderStage_Compute BindingType_Uniform paramsSize.

(** The binding layout handed to [wgpuDeviceCreateBindGroupLayout]. *)
Definition layout_of (inputs : list Tensor) (numTensors paramsSize : Z)
    : list LayoutEntry :=
  let numBindings := numBindings_of numTensors paramsSize in
  let entries :=
    fill_layout inputs numTensors (replicate (Z.to_nat numBindings) LayoutEntry_zero) in
  if paramsSize >? 0 then
    <[Z.to_nat (wrap (numBindings - 1)) :=
        mkLayoutEntry (to_uint32 (wrap (numBindings - 1))) WGPUShaderStage_Compute
                      BindingType_Uniform paramsSize]> entries
  else entries.

(** The workgroup count of one axis, in [size_t] arithmetic. *)
Definition workgroups_of (nThreads workgroupSize : Shape) (axis : nat) : Z :=
  wrap (Shape_get nThreads axis + wrap (Shape_get workgroupSize axis - 1))
  / Shape_get workgroupSize axis.

(** Position, among the handles the API hands out during [CreateKernel], of
    the command buffer: after the layout, the parameter buffer if any, the
    bind group, the pipeline layout, the shader module, the pipeline, the
    command encoder and the pass encoder. *)
Definition commandBuffer_pos (paramsSize : Z) : nat :=
  if paramsSize >? 0 then 8%nat else 7%nat.

(** A computation that only adds events at the end of the trace. *)
Definition appends {A} (m : M A) : Prop :=
  forall w, exists evs, w_trace (snd (m w)) = w_trace w ++ evs.

(** The first statement of [CreateKernel] after the assertion on the rank. *)
Definition first_log_of_CreateKernel : Event := EvLog kInfo "Create the bind group layout".

(** ** The trace of ToCPU, stage by stage *)

(** What a call of [check] adds to the trace. *)
Definition check_events (kDebug condition : bool) (message : string) : list Event :=
  if kDebug then
    if condition then [EvLog kTrace message] else [EvLog kError message; EvExit 1]
  else [].

(** Whether execution goes on after [check(status == Success, ...)]. *)
Definition passes (kDebug : bool) (status : Z) : bool :=
  negb kDebug || (status =? Status_Success).

Definition pump_events (instance : Z) (n : nat) : list Event :=
  replicate n (EvProcessEvents instance).

(** Stage 1, on the calling thread: the readback buffer [h0], the encoder
    [h1], the copy, the command buffer [h2], its submission, and the
    registration of the work-done callback. *)
Definition ToCPU_stage1 (kDebug : bool) (ctx : Context) (tensor : Tensor)
    (bufferSize h0 h1 h2 : Z) : list Event :=
  [EvCreateBuffer (Z.lor WGPUBufferUsage_CopyDst WGPUBufferUsage_MapRead) bufferSize h0;
   EvCreateCommandEncoder h1;
   EvCopyBufferToBuffer h1 (Array_buffer (Tensor_data tensor)) h0 bufferSize;
   EvEncoderFinish h1 h2] ++
  check_events kDebug true "Create command buffer" ++
  [EvQueueSubmit (Context_queue ctx) h2;
   EvOnSubmittedWorkDone (Context_queue ctx)].

(** Stage 2, inside the work-done callback delivered with [status]. *)
Definition ToCPU_stage2 (kDebug : bool) (status bufferSize h0 : Z) : list Event :=
  [EvWorkDoneCallback status] ++
  check_events kDebug (status =? Status_Success) "Queue work done" ++
  (if passes kDebug status then [EvBufferMapAsync h0 bufferSize] else []).

(** Stage 3, inside the map callback delivered with [status]; [h3] is the
    mapped range. *)
Definition ToCPU_stage3 (kDebug : bool) (status data bufferSize h0 h3 : Z)
    : list Event :=
  [EvMapCallback status] ++
  check_events kDebug (status =? Status_Success) "Map readbackBuffer" ++
  (if passes kDebug status then
     [EvGetConstMappedRange h0 h3] ++
     check_events kDebug true "Get mapped range" ++
     [EvMemcpy data h3 bufferSize; EvBufferUnmap h0; EvPromiseSetValue]
   else []).

(** The whole trace of a call: stage 1, then the calls of
    [wgpuInstanceProcessEvents] of [Wait], the last of which delivers the
    work-done callback, then again calls of [wgpuInstanceProcessEvents], the
    last of which delivers the map callback. *)
Definition ToCPU_trace (kDebug : bool) (be : Backend) (ctx : Context) (tensor : Tensor)
    (data bufferSize h0 h1 h2 h3 : Z) : list Event :=
  ToCPU_stage1 kDebug ctx tensor bufferSize h0 h1 h2 ++
  pump_events (Context_instance ctx) (S (be_workdone_delay be)) ++
  ToCPU_stage2 kDebug (be_workdone_status be) bufferSize h0 ++
  (if passes kDebug (be_workdone_status be) then
     pump_events (Context_instance ctx) (S (be_map_delay be)) ++
     ToCPU_stage3 kDebug (be_map_status be) data bufferSize h0 h3
   else []).

Definition ToCPU_outcome (kDebug : bool) (be : Backend) : Outcome unit :=
  if passes kDebug (be_workdone_status be) && passes kDebug (be_map_status be)
  then Done tt else Exited 1.

(** ** Order of events *)

(** [guarded p q seen tr]: every event of [tr] that satisfies [q] comes
    after an event that satisfies [p] ([seen] tells whether one has occurred
    before [tr]). *)
Fixpoint guarded (p q : Event -> bool) (seen : bool) (tr : list Event) : bool :=
  match tr with
  | [] => true
  | e :: tr' => (negb (q e) || seen) && guarded p q (seen || p e) tr'
  end.

Definition is_submit (e : Event) : bool :=
  match e with EvQueueSubmit _ _ => true | _ => false end.

(** The work-done callback is delivered / is delivered with success. *)
Definition is_workdone (e : Event) : bool :=
  match e with EvWorkDoneCallback _ => true | _ => false end.

Definition is_workdone_success (e : Event) : bool :=
  match e with EvWorkDoneCallback s => s =? Status_Success | _ => false end.

Definition is_map_request (e : Event) : bool :=
  match e with EvBufferMapAsync _ _ => true | _ => false end.

(** The map callback is delivered / is delivered with success. *)
Definition is_mapped (e : Event) : bool :=
  match e with EvMapCallback _ => true | _ => false end.

Definition is_mapped_success (e : Event) : bool :=
  match e with EvMapCallback s => s =? Status_Success | _ => false end.

(** The events of stage 3: the destination is written, the buffer is
    unmapped, the promise is resolved. *)
Definition is_completion (e : Event) : bool :=
  match e with
  | EvMemcpy _ _ _ | EvBufferUnmap _ | EvPromiseSetValue => true
  | _ => false
  end.

(** Any event of stage 2 or 3. *)
Definition is_asynchronous (e : Event) : bool :=
  is_workdone e || is_map_request e || is_mapped e || is_completion e.

(** The characters of the text of a Shape: digits, comma and space. *)
Definition shape_char (c : ascii) : bool :=
  match c with
  | "0" | "1" | "2" | "3" | "4" | "5" | "6" | "7" | "8" | "9" | "," | " " => true
  | _ => false
  end%char.

(** * Further code of gpu.h *)

(** ** Tensor pool: the overloads of CreateTensor, ToGPU and the destructor *)

Definition Context_with_pool (ctx : Context) (pool : TensorPool) : Context :=
  mkContext (Context_instance ctx) (Context_adapter ctx) (Context_device ctx)
            (Context_queue ctx) pool (Context_kernelPool ctx).

(** [CreateTensor(Context &, const Shape &, NumType)] *)
Definition CreateTensor_ctx (ctx : Context) (shape : Shape) (dtype : NumType)
    : M (Tensor * Context) :=
  r ← CreateTensor (Context_pool ctx) (Context_device ctx) shape dtype default_usage;
  mret (fst r, Context_with_pool ctx (snd r)).

(** [ToGPU(Context &, const void *, WGPUBuffer, size_t)] *)
Definition ToGPU_buffer (ctx : Context) (data buffer size : Z) : M unit :=
  wgpuQueueWriteBuffer (Context_queue ctx) buffer 0 size.

(** [ToGPU(Context &, const float *, Tensor &)] *)
Definition ToGPU (ctx : Context) (data : Z) (tensor : Tensor) : M unit :=
  wgpuQueueWriteBuffer (Context_queue ctx) (Array_buffer (Tensor_data tensor)) 0
                       (Array_size (Tensor_data tensor)).

(** [CreateTensor(Context &, const Shape &, NumType, float * data)] *)
Definition CreateTensor_data (ctx : Context) (shape : Shape) (dtype : NumType)
    (data : Z) : M (Tensor * Context) :=
  r ← CreateTensor (Context_pool ctx) (Context_device ctx) shape dtype
                   (Z.lor WGPUBufferUsage_Storage
                          (Z.lor WGPUBufferUsage_CopyDst WGPUBufferUsage_CopySrc));
  let tensor := fst r in
  wgpuQueueWriteBuffer (Context_queue ctx) (Array_buffer (Tensor_data tensor)) 0
                       (Array_size (Tensor_data tensor));;
  mret (tensor, Context_with_pool ctx (snd r)).

(** The second loop of [TensorPool::~TensorPool], over the keys collected by
    the first: [FreeTensor] of the pool itself and [data[key]], then a log line. *)
Fixpoint free_keys (keys : list Z) (pool : TensorPool) : M TensorPool :=
  match keys with
  | [] => mret pool
  | key :: keys' =>
      let indexed := pool_index pool key in
      pool' ← FreeTensor (snd indexed) (fst indexed);
      log kTrace "Freed tensor";;
      free_keys keys' pool'
  end.

(** The keys the first loop collects. An [unordered_map] is iterated in an
    order that is not specified; the order taken here is that of
    [map_to_list], and the properties proved hold for every order. *)
Definition pool_keys (pool : TensorPool) : list Z :=
  (map_to_list (TensorPool_data pool)).*1.

(** [TensorPool::~TensorPool] *)
Definition TensorPool_destroy (pool : TensorPool) : M TensorPool :=
  free_keys (pool_keys pool) pool.

(** Every entry of the pool is stored under the handle of its own buffer. *)
Definition pool_keyed (pool : TensorPool) : Prop :=
  forall k t, TensorPool_data pool !! k = Some t -> Array_buffer (Tensor_data t) = k.

Definition nonnull (k : Z) : bool := negb (k =? nullptr).

(** ** Reference definitions for the text of a Shape *)

(** The texts [l], with [sep] between consecutive ones. *)
Fixpoint join (sep : list ascii) (l : list (list ascii)) : list ascii :=
  match l with
  | [] => []
  | x :: rest =>
      match rest with
      | [] => x
      | _ :: _ => x ++ sep ++ join sep rest
      end
  end.

Definition dims_example : list Z := [2; 3; 4].

Definition invalid_NumType_error : string := "Invalid NumType in string conversion.".

(** ** What ResetCommandBuffer records *)

(** [op] with its command buffer replaced. *)
Definition with_commandBuffer (op : Kernel) (commandBuffer : Z) : Kernel :=
  mkKernel (Kernel_buffers op) (Kernel_bufferSizes op) (Kernel_numBindings op)
           (Kernel_nWorkgroups op) (Kernel_bindGroup op) (Kernel_computePipeline op)
           commandBuffer.

(** The events of a call of [ResetCommandBuffer] that returns: [h0] is the
    command encoder, [h1] the pass encoder, [h2] the command buffer. *)
Definition ResetCommandBuffer_events (kDebug : bool) (op : Kernel) (h0 h1 h2 : Z)
    : list Event :=
  [EvLog kTrace "Create command buffer";
   EvCreateCommandEncoder h0;
   EvBeginComputePass h0 h1;
   EvLog kTrace "Set pipeline";
   EvSetPipeline h1 (Kernel_computePipeline op);
   EvSetBindGroup h1 (Kernel_bindGroup op);
   EvLog kTrace "Dispatching workgroups for number of threads";
   EvDispatchWorkgroups h1 (to_uint32 (Shape_get (Kernel_nWorkgroups op) 0))
                        (to_uint32 (Shape_get (Kernel_nWorkgroups op) 1))
                        (to_uint32 (Shape_get (Kernel_nWorkgroups op) 2));
   EvPassEnd h1;
   EvEncoderFinish h0 h2] ++
  check_events kDebug true "Create command buffer".

Definition is_dispatch (e : Event) : bool :=
  match e with EvDispatchWorkgroups _ _ _ _ => true | _ => false end.

(** The command buffers handed to [wgpuQueueSubmit], in order. *)
Definition submitted (tr : list Event) : list Z :=
  omap (fun e => match e with EvQueueSubmit _ cb => Some cb | _ => None end) tr.

(** The calls of [wgpuQueueWriteBuffer], in order. *)
Definition is_write (e : Event) : bool :=
  match e with EvQueueWriteBuffer _ _ _ _ => true | _ => false end.

Definition kernel_example : Kernel :=
  mkKernel [5] [16] 1 (Shape_init [4; 1; 1]) 31 32 nullptr.

(** ** The buffers and the bind group of CreateKernel, as plain functions *)

(** [paramIndex] when there are parameters. *)
Definition paramIndex_of (numTensors : Z) : Z := wrap (wrap (numTensors + 1) - 1).

(** [op.buffers] and [op.bufferSizes] at the end of [CreateKernel]; [b] is
    the parameter buffer. *)
Definition buffers_of (inputs : list Tensor) (numTensors paramsSize b : Z)
    : list Z * list Z :=
  let numBindings := Z.to_nat (numBindings_of numTensors paramsSize) in
  let filled := fill_buffers inputs numTensors
                  (replicate numBindings nullptr, replicate numBindings 0) in
  if paramsSize >? 0 then
    (<[Z.to_nat (paramIndex_of numTensors) := b]> (fst filled),
     <[Z.to_nat (paramIndex_of numTensors) := paramsSize]> (snd filled))
  else filled.

(** The entries handed to [wgpuDeviceCreateBindGroup]. *)
Definition group_of (buffers bufferSizes : list Z) (numTensors paramsSize : Z)
    : list GroupEntry :=
  let numBindings := Z.to_nat (numBindings_of numTensors paramsSize) in
  let entries := fill_group buffers bufferSizes numTensors
                   (replicate numBindings GroupEntry_zero) in
  if paramsSize >? 0 then
    <[Z.to_nat (paramIndex_of numTensors) :=
        mkGroupEntry (to_uint32 (paramIndex_of numTensors))
                     (nth (Z.to_nat (paramIndex_of numTensors)) buffers 0) 0 paramsSize]>
      entries
  else entries.

(** The Context after [CreateKernel]: the address of the Kernel is in the
    kernel pool. *)
Definition Context_with_kernel (ctx : Context) (op_addr : Z) : Context :=
  mkContext (Context_instance ctx) (Context_adapter ctx) (Context_device ctx)
            (Context_queue ctx) (Context_pool ctx) ({[op_addr]} ∪ Context_kernelPool ctx).

Definition params_usage : Z := Z.lor WGPUBufferUsage_Uniform WGPUBufferUsage_CopyDst.

(** ** The end of a Context *)

(** The release calls of [Context::~Context]. *)
Inductive Release :=
| QueueRelease (queue : Z)
| DeviceRelease (device : Z)
| AdapterRelease (adapter : Z)
| InstanceRelease (instance : Z).

(** A step of the destructor: a release of one of the four handles, or an
    event as before. *)
Inductive Step :=
| Released (r : Release)
| Api (e : Event).

(** The state of the destructor: its steps so far, oldest first, and the
    world of the API, whose own trace is kept empty. *)
Record Teardown := mkTeardown {
  td_steps : list Step;
  td_world : World
}.

Definition TM (A : Type) : Type := Teardown -> Outcome A * Teardown.

#[global] Instance TM_ret : MRet TM := fun A a s => (Done a, s).

#[global] Instance TM_bind : MBind TM := fun A B f m s =>
  match m s with
  | (Done a, s') => f a s'
  | (Exited c, s') => (Exited c, s')
  | (AssertFailed, s') => (AssertFailed, s')
  | (Undefined, s') => (Undefined, s')
  | (OutOfFuel, s') => (OutOfFuel, s')
  end.

Definition release (r : Release) : TM unit := fun s =>
  (Done tt, mkTeardown (td_steps s ++ [Released r]) (td_world s)).

(** A computation of the earlier sections, run inside the destructor: its
    events become steps. *)
Definition api {A} (m : M A) : TM A := fun s =>
  let w := td_world s in
  let r := m (mkWorld [] (w_handles w) (w_pending w) (w_promise w)) in
  (fst r,
   mkTeardown (td_steps s ++ map Api (w_trace (snd r)))
              (mkWorld [] (w_handles (snd r)) (w_pending (snd r)) (w_promise (snd r)))).

(** [Context::~Context]: the body, then the destructors of the members in
    the reverse order of their declaration, [kernelPool] (which clears its
    set) and then [pool]. Returns what is left of the Context. *)
Definition Context_destroy (kDebug : bool) (be : Backend) (ctx : Context) : TM Context :=
  api (log kInfo "Destroying context");;
  (if is_set (Context_queue ctx) then
     release (QueueRelease (Context_queue ctx));;
     api (wgpuInstanceProcessEvents kDebug be (Context_instance ctx))
   else api (log kWarn "Queue is null"));;
  (if is_set (Context_device ctx) then
     release (DeviceRelease (Context_device ctx));;
     api (wgpuInstanceProcessEvents kDebug be (Context_instance ctx))
   else api (log kWarn "Device is null"));;
  (if is_set (Context_adapter ctx) then
     release (AdapterRelease (Context_adapter ctx));;
     api (wgpuInstanceProcessEvents kDebug be (Context_instance ctx))
   else api (log kWarn "Adapter is null"));;
  (if is_set (Context_instance ctx) then
     release (InstanceRelease (Context_instance ctx))
   else api (log kWarn "Instance is null"));;
  api (log kInfo "Destroyed context");;
  let kernelPool : gset Z := ∅ in
  pool ← api (TensorPool_destroy (Context_pool ctx));
  mret (mkContext (Context_instance ctx) (Context_adapter ctx) (Context_device ctx)
                  (Context_queue ctx) pool kernelPool).

(** The handle releases among the steps, and the events among them. *)
Definition releases (steps : list Step) : list Release :=
  omap (fun s => match s with Released r => Some r | Api _ => None end) steps.

Definition events (steps : list Step) : list Event :=
  omap (fun s => match s with Api e => Some e | Released _ => None end) steps.

(** The release of [handle] by [mk], when the handle is set. *)
Definition release_if_set (mk : Z -> Release) (handle : Z) : list Release :=
  if is_set handle then [mk handle] else [].

Definition warning_if_null (handle : Z) (msg : string) : list string :=
  if is_set handle then [] else [msg].

Definition count_set (handles : list Z) : nat := length (List.filter is_set handles).

Definition Teardown_init (handles : list Z) : Teardown :=
  mkTeardown [] (World_init handles).

(** The steps of the destructor's body for one handle: the release, followed
    by a call of [wgpuInstanceProcessEvents] when [pump] is set, or the
    warning when the handle is null. *)
Definition teardown_part (mk : Z -> Release) (handle instance : Z) (pump : bool)
    (msg : string) : list Step :=
  if is_set handle then
    Released (mk handle) :: (if pump then [Api (EvProcessEvents instance)] else [])
  else [Api (EvLog kWarn msg)].

Definition teardown_body (ctx : Context) : list Step :=
  [Api (EvLog kInfo "Destroying context")] ++
  teardown_part QueueRelease (Context_queue ctx) (Context_instance ctx) true
                "Queue is null" ++
  teardown_part DeviceRelease (Context_device ctx) (Context_instance ctx) true
                "Device is null" ++
  teardown_part AdapterRelease (Context_adapter ctx) (Context_instance ctx) true
                "Adapter is null" ++
  teardown_part InstanceRelease (Context_instance ctx) (Context_instance ctx) false
                "Instance is null" ++
  [Api (EvLog kInfo "Destroyed context")].

(** ** What ToCPU copies *)

(** The calls of [memcpy] in a trace. *)
Definition is_memcpy (e : Event) : bool :=
  match e with EvMemcpy _ _ _ => true | _ => false end.

(** ** DispatchKernel *)

(** The callback of [DispatchKernel] while the API holds it: it is delivered
    by the [dp_delay + 1]-th following call of [wgpuInstanceProcessEvents],
    with [dp_status]; [dp_promise] is the promise it was given. *)
Record DispatchPending := mkDispatchPending {
  dp_delay : nat;
  dp_status : Z;
  dp_promise : Z
}.

(** The world of the earlier sections, the callbacks of [DispatchKernel]
    the API holds, and the promises that have a value. A promise is named by
    its address, and so is the future obtained from it. *)
Record Dispatch := mkDispatch {
  ds_world : World;
  ds_pending : list DispatchPending;
  ds_resolved : gset Z
}.

(** An outcome as before, or the exception [std::future_error] thrown by
    [std::promise::set_value] on a promise that already has a value. *)
Inductive DOutcome (A : Type) :=
| Normal (o : Outcome A)
| FutureError.
Arguments Normal {A} o.
Arguments FutureError {A}.

Definition DM (A : Type) : Type := Dispatch -> DOutcome A * Dispatch.

#[global] Instance DM_ret : MRet DM := fun A a s => (Normal (Done a), s).

#[global] Instance DM_bind : MBind DM := fun A B f m s =>
  match m s with
  | (Normal (Done a), s') => f a s'
  | (Normal (Exited c), s') => (Normal (Exited c), s')
  | (Normal AssertFailed, s') => (Normal AssertFailed, s')
  | (Normal Undefined, s') => (Normal Undefined, s')
  | (Normal OutOfFuel, s') => (Normal OutOfFuel, s')
  | (FutureError, s') => (FutureError, s')
  end.

(** A computation of the earlier sections, on the world. *)
Definition base {A} (m : M A) : DM A := fun s =>
  let r := m (ds_world s) in
  (Normal (fst r), mkDispatch (snd r) (ds_pending s) (ds_resolved s)).

Definition register_dispatch (p : DispatchPending) : DM unit := fun s =>
  (Normal (Done tt), mkDispatch (ds_world s) (ds_pending s ++ [p]) (ds_resolved s)).

Definition take_dispatch_pending : DM (list DispatchPending) := fun s =>
  (Normal (Done (ds_pending s)), mkDispatch (ds_world s) [] (ds_resolved s)).

(** [promise->set_value()] *)
Definition set_value (promise : Z) : DM unit := fun s =>
  if decide (promise ∈ ds_resolved s) then (FutureError, s)
  else (Normal (Done tt),
        mkDispatch (snd (emit EvPromiseSetValue (ds_world s))) (ds_pending s)
                   ({[promise]} ∪ ds_resolved s)).

(** The lambda [DispatchKernel] hands to [wgpuQueueOnSubmittedWorkDone], run
    by the API with [status]. *)
Definition on_dispatch_done (kDebug : bool) (status promise : Z) : DM unit :=
  base (emit (EvWorkDoneCallback status));;
  base (check kDebug (status =? Status_Success) "Queue work done");;
  set_value promise.

(** [DispatchKernel(ctx, kernel, promise)] *)
Definition DispatchKernel (be : Backend) (ctx : Context) (kernel : Kernel)
    (promise : Z) : DM unit :=
  base (emit (EvQueueSubmit (Context_queue ctx) (Kernel_commandBuffer kernel)));;
  base (emit (EvOnSubmittedWorkDone (Context_queue ctx)));;
  register_dispatch
    (mkDispatchPending (be_workdone_delay be) (be_workdone_status be) promise).

Fixpoint deliver_dispatch (kDebug : bool) (ps : list DispatchPending) : DM unit :=
  match ps with
  | [] => mret tt
  | p :: ps' =>
      match dp_delay p with
      | O => on_dispatch_done kDebug (dp_status p) (dp_promise p)
      | S d => register_dispatch (mkDispatchPending d (dp_status p) (dp_promise p))
      end;;
      deliver_dispatch kDebug ps'
  end.

(** [wgpuInstanceProcessEvents] when callbacks of [DispatchKernel] may be
    held: the callbacks of the earlier sections that are due run as before,
    then those of [DispatchKernel]. (The order between the two kinds is the
    API's; the properties proved are about runs where only one kind is
    held.) *)
Definition wgpuInstanceProcessEvents_all (kDebug : bool) (be : Backend) (instance : Z)
    : DM unit :=
  base (wgpuInstanceProcessEvents kDebug be instance);;
  ps ← take_dispatch_pending;
  deliver_dispatch kDebug ps.

(** [Wait(ctx, future)] on the future of [promise]. *)
Fixpoint Wait_future (kDebug : bool) (be : Backend) (fuel : nat) (ctx : Context)
    (future : Z) : DM unit := fun s =>
  if decide (future ∈ ds_resolved s) then (Normal (Done tt), s)
  else match fuel with
       | O => (Normal OutOfFuel, s)
       | S fuel' =>
           (wgpuInstanceProcessEvents_all kDebug be (Context_instance ctx);;
            Wait_future kDebug be fuel' ctx future) s
       end.

Definition Dispatch_init (w : World) : Dispatch := mkDispatch w [] ∅.

(** What the callback of [DispatchKernel] adds to the trace. *)
Definition dispatch_done_events (kDebug : bool) (status : Z) : list Event :=
  [EvWorkDoneCallback status] ++
  check_events kDebug (status =? Status_Success) "Queue work done" ++
  (if passes kDebug status then [EvPromiseSetValue] else []).

Ltac dexec :=
  cbv beta iota zeta delta
    [mbind mret DM_bind DM_ret M_bind M_ret base register_dispatch
     take_dispatch_pending emit log take_pending fst snd
     ds_world ds_pending ds_resolved dp_delay dp_status dp_promise
     w_trace w_handles w_pending w_promise].

(** ** Request callbacks the API still holds *)

Definition is_request (p : Pending) : bool :=
  match p_callback p with
  | OnAdapterRequestEnded _ | OnDeviceRequestEnded _ => true
  | _ => false
  end.

(** A callback the API holds, one call of [wgpuInstanceProcessEvents]
    later. *)
Definition tick (p : Pending) : Pending :=
  mkPending (pred (p_delay p)) (p_status p) (p_callback p).

(** The number of calls of [wgpuInstanceProcessEvents] that go by before the
    first of the request callbacks held back in [CreateContext] is
    delivered. *)
Definition held_soonest (be : Backend) : nat :=
  if be_adapter_sync be then be_device_delay be
  else if be_device_sync be then be_adapter_delay be
  else Nat.min (be_adapter_delay be) (be_device_delay be).

(** An API that holds the adapter callback back for two calls of
    [wgpuInstanceProcessEvents]. *)
Definition be_adapter_late : Backend := mkBackend false 0 11 true 0 12 0 0 0 0 2 0.

(** A Kernel whose stored count on the first axis does not fit 32 bits. *)
Definition kernel_wide_example : Kernel :=
  mkKernel [5] [16] 1 (Shape_init [2 ^ 32 + 5; 1; 1]) 31 32 nullptr.
(** * Properties *)

(** ** Element counts and byte sizes *)

Lemma wrap_range z : 0 <= wrap z < SIZE_MOD.
Proof. unfold wrap, SIZE_MOD, SIZE_BITS. apply Z.mod_pos_bound. lia. Qed.

Lemma wrap_small z : 0 <= z < SIZE_MOD -> wrap z = z.
Proof. intros H. unfold wrap. apply Z.mod_small. exact H. Qed.

Lemma numels_fold_mod (g : nat -> Z) (l : list nat) (a : Z) :
  fold_left (fun numels i => wrap (numels * g i)) l (wrap a)
  = wrap (a * product (map g l)).
Proof.
  revert a. induction l as [|i l IH]; intros a; simpl.
  - f_equal. lia.
  - replace (wrap (wrap a * g i)) with (wrap (a * g i)).
    + rewrite IH. f_equal. lia.
    + unfold wrap. rewrite Z.mul_mod_idemp_l; [reflexivity | discriminate].
Qed.

Lemma size_is_product_mod (S : Shape) : size S = wrap (product (dims S)).
Proof.
  unfold size, numels_loop, dims.
  change 1 with (wrap 1) at 1.
  rewrite numels_fold_mod. f_equal. lia.
Qed.

Lemma dims_Shape_init (ds : list Z) :
  (length ds <= kMaxRank)%nat -> dims (Shape_init ds) = ds.
Proof.
  intros _. unfold dims, Shape_init, Shape_get. simpl.
  apply nth_ext with (d := 0) (d' := 0).
  - rewrite length_map, length_seq. reflexivity.
  - intros n Hn. rewrite length_map, length_seq in Hn.
    rewrite (nth_indep _ 0 (nth 0 (ds ++ replicate (kMaxRank - length ds) 0) 0)).
    2:{ rewrite length_map, length_seq. exact Hn. }
    rewrite (map_nth (fun i => nth i (ds ++ replicate (kMaxRank - length ds) 0) 0)).
    rewrite seq_nth by exact Hn. simpl.
    rewrite app_nth1 by exact Hn. reflexivity.
Qed.

Lemma CreateTensor_run pool device shape dtype usage w :
  let sz := if dtype =? kf32 then wrap (sizeof_float * size shape) else 0 in
  let t := mkTensor (mkArray (handle_at w 0) usage sz) shape in
  CreateTensor pool device shape dtype usage w =
  (Done (t, mkPool (<[handle_at w 0 := t]> (TensorPool_data pool))),
   mkWorld (w_trace w ++ [EvLog kTrace "Creating tensor";
                          EvCreateBuffer usage sz (handle_at w 0);
                          EvCreateBuffer usage sz (handle_at w 1)])
           (tl (tl (w_handles w))) (w_pending w) (w_promise w)).
Proof.
  intros sz t. destruct w as [tr hs ps pr].
  unfold CreateTensor, handle_at, size. fold sz. exec. cbn [Nat.iter].
  unfold pool_index; cbn [TensorPool_data]; rewrite lookup_insert_eq;
    rewrite <- !app_assoc; reflexivity.
Qed.

(** C7, as amended: [size] is the product of the dimensions reduced modulo
    2^64 (the arithmetic of [size_t]), hence the exact product whenever that
    fits in a [size_t]; the empty shape gives 1 and {2,3,4} gives 24.
    [CreateTensor] always returns, with byte size 4 times the element count,
    again modulo 2^64, for [kf32], and 0 for any other numeric kind. *)
Theorem size_is_product_modulo_wrap :
  (forall S, size S = product (dims S) mod 2 ^ 64) /\
  (forall S, 0 <= product (dims S) < 2 ^ 64 -> size S = product (dims S)) /\
  size (Shape_init []) = 1 /\
  size (Shape_init [2; 3; 4]) = 24 /\
  (forall pool device S dtype usage w, exists t pool' w',
      CreateTensor pool device S dtype usage w = (Done (t, pool'), w') /\
      Tensor_shape t = S /\
      Array_size (Tensor_data t) =
        (if dtype =? kf32 then (4 * size S) mod 2 ^ 64 else 0)).
Proof.
  split; [|split; [|split; [|split]]].
  - intros S. apply size_is_product_mod.
  - intros S H. rewrite size_is_product_mod. apply wrap_small. exact H.
  - reflexivity.
  - reflexivity.
  - intros pool device S dtype usage w.
    eexists _, _, _. split; [apply CreateTensor_run|]. split; reflexivity.
Qed.

Lemma size_is_product_modulo_wrap_witness :
  0 <= product (dims (Shape_init [2; 3; 4])) < 2 ^ 64 /\
  size (Shape_init [2; 3; 4]) = product (dims (Shape_init [2; 3; 4])).
Proof.
  split; [vm_compute; split; congruence|].
  apply (proj1 (proj2 size_is_product_modulo_wrap) (Shape_init [2; 3; 4])).
  vm_compute; split; congruence.
Defined.

(** The claim of C7 as stated fails on the shape {2^32, 2^32}: its
    dimensions multiply to 2^64, and [size] returns 0. *)
Lemma size_not_product_on_overflow :
  Shape_wf (Shape_init [2 ^ 32; 2 ^ 32]) /\
  dims (Shape_init [2 ^ 32; 2 ^ 32]) = [2 ^ 32; 2 ^ 32] /\
  size (Shape_init [2 ^ 32; 2 ^ 32]) = 0 /\
  size (Shape_init [2 ^ 32; 2 ^ 32]) <> product (dims (Shape_init [2 ^ 32; 2 ^ 32])).
Proof.
  split; [|split; [|split]].
  - split; [reflexivity|]. split; [vm_compute; lia|].
    repeat constructor; vm_compute; congruence.
  - reflexivity.
  - reflexivity.
  - vm_compute. congruence.
Qed.

(** ** The tensor pool *)

Lemma created_buffers_app tr1 tr2 :
  created_buffers (tr1 ++ tr2) = created_buffers tr1 ++ created_buffers tr2.
Proof. apply omap_app. Qed.

(** Every call of [CreateTensor] creates two device buffers of the same
    usage and size: the first is registered and returned, the second is
    dropped. With a handle that is not yet a key, the pool grows by one
    entry, and the Tensor returned is the entry stored. *)
Lemma CreateTensor_allocations pool device shape dtype usage w :
  exists t pool' w',
    CreateTensor pool device shape dtype usage w = (Done (t, pool'), w') /\
    created_buffers (w_trace w') =
      created_buffers (w_trace w) ++ [handle_at w 0; handle_at w 1] /\
    Array_buffer (Tensor_data t) = handle_at w 0 /\
    Array_usage (Tensor_data t) = usage /\
    TensorPool_data pool' !! handle_at w 0 = Some t /\
    (forall k, k <> handle_at w 0 ->
               TensorPool_data pool' !! k = TensorPool_data pool !! k) /\
    (TensorPool_data pool !! handle_at w 0 = None ->
     base.size (TensorPool_data pool') = Datatypes.S (base.size (TensorPool_data pool))).
Proof.
  eexists _, _, _. split; [apply CreateTensor_run|].
  cbn [w_trace Tensor_data Array_buffer Array_usage TensorPool_data].
  split; [rewrite created_buffers_app; reflexivity|].
  split; [reflexivity|]. split; [reflexivity|].
  split; [apply lookup_insert_eq|].
  split.
  - intros k Hk. apply lookup_insert_ne. congruence.
  - intros Hnone. apply map_size_insert_None. exact Hnone.
Qed.

(** C4, the code at a concrete call: on an empty pool, with the API handing
    out the buffers 101 and 102, [CreateTensor] creates both buffers,
    registers and returns the first and leaves the second unreferenced. *)
Theorem CreateTensor_creates_two_buffers :
  exists t pool' w',
    CreateTensor (mkPool ∅) 1 (Shape_init [2; 3]) kf32 default_usage
                 (World_init [101; 102]) = (Done (t, pool'), w') /\
    created_buffers (w_trace w') = [101; 102] /\
    Array_buffer (Tensor_data t) = 101 /\
    Array_size (Tensor_data t) = 24 /\
    TensorPool_data pool' !! 101 = Some t /\
    TensorPool_data pool' !! 102 = None /\
    base.size (TensorPool_data pool') = 1%nat.
Proof.
  eexists _, _, _. split; [apply CreateTensor_run|].
  cbn [w_trace Tensor_data Array_buffer Array_size TensorPool_data World_init].
  split; [reflexivity|]. split; [reflexivity|]. split; [reflexivity|].
  split; [apply lookup_insert_eq|].
  split; [rewrite lookup_insert_ne by (vm_compute; congruence); apply lookup_empty|].
  rewrite map_size_insert_None by apply lookup_empty. rewrite map_size_empty. reflexivity.
Qed.

Lemma FreeTensor_run pool tensor w :
  let b := Array_buffer (Tensor_data tensor) in
  FreeTensor pool tensor w =
  (Done (mkPool (delete b (TensorPool_data pool))),
   mkWorld (w_trace w ++
              [if b =? nullptr then EvLog kWarn null_buffer_warning
               else EvBufferRelease b] ++
              match TensorPool_data pool !! b with
              | Some _ => []
              | None => [EvLog kWarn not_in_pool_warning]
              end)
           (w_handles w) (w_pending w) (w_promise w)).
Proof.
  intros b. destruct w as [tr hs ps pr]. unfold FreeTensor. fold b.
  destruct pool as [m]. cbn [TensorPool_data].
  destruct (m !! b) eqn:Hm; destruct (b =? nullptr) eqn:Hb; exec; cbn [negb];
    rewrite <- ?app_assoc; cbn [app];
    rewrite ?(delete_id m b Hm); reflexivity.
Qed.

(** C5, as amended: [FreeTensor] always returns. The buffer is released
    exactly once whenever its handle is non-null, whether or not the handle
    is registered; a null handle is not released and a warning is logged.
    Independently, the entry under the handle is erased when there is one,
    and a warning is logged when there is none; every other entry of the
    pool is left as it was. *)
Theorem FreeTensor_releases_and_erases_independently pool tensor w :
  let b := Array_buffer (Tensor_data tensor) in
  exists pool' evs,
    FreeTensor pool tensor w =
      (Done pool', mkWorld (w_trace w ++ evs) (w_handles w) (w_pending w) (w_promise w)) /\
    released_buffers evs = (if b =? nullptr then [] else [b]) /\
    warnings evs =
      (if b =? nullptr then [null_buffer_warning] else []) ++
      (if decide (is_Some (TensorPool_data pool !! b)) then [] else [not_in_pool_warning]) /\
    TensorPool_data pool' = delete b (TensorPool_data pool) /\
    TensorPool_data pool' !! b = None /\
    (forall k, k <> b -> TensorPool_data pool' !! k = TensorPool_data pool !! k) /\
    (TensorPool_data pool !! b = None -> pool' = pool).
Proof.
  intros b. eexists _, _. split; [apply FreeTensor_run|]. fold b.
  cbn [TensorPool_data].
  split; [|split; [|split; [|split; [|split]]]].
  - destruct (b =? nullptr); destruct (TensorPool_data pool !! b); reflexivity.
  - destruct (b =? nullptr); destruct (TensorPool_data pool !! b) eqn:E;
      case_decide as Hd; try reflexivity;
      solve [ exfalso; apply Hd; eauto | destruct Hd as [? Hd]; discriminate ].
  - reflexivity.
  - apply lookup_delete_eq.
  - intros k Hk. apply lookup_delete_ne. congruence.
  - intros Hnone. destruct pool as [m]. cbn [TensorPool_data] in *.
    rewrite (delete_id m b Hnone). reflexivity.
Qed.

Lemma FreeTensor_releases_and_erases_independently_witness :
  TensorPool_data (mkPool {[5 := Tensor_default]}) !! 7 = None /\
  exists pool' evs,
    FreeTensor (mkPool {[5 := Tensor_default]})
               (mkTensor (mkArray 7 0 0) Shape_default) (World_init [])
      = (Done pool', mkWorld evs [] [] false) /\
    released_buffers evs = [7] /\ pool' = mkPool {[5 := Tensor_default]}.
Proof.
  assert (Hnone : TensorPool_data (mkPool {[5 := Tensor_default]}) !! 7 = None)
    by reflexivity.
  split; [exact Hnone|].
  destruct (FreeTensor_releases_and_erases_independently
              (mkPool {[5 := Tensor_default]})
              (mkTensor (mkArray 7 0 0) Shape_default) (World_init []))
    as (pool' & evs & Hrun & Hrel & _ & _ & _ & _ & Hsame).
  exists pool', evs. split; [exact Hrun|]. split; [exact Hrel|].
  apply Hsame. exact Hnone.
Defined.

(** The claim of C5 as stated fails on a non-null handle that is not
    registered: the pool is left as it was, and the buffer is released all
    the same. *)
Lemma FreeTensor_releases_unregistered_buffer :
  TensorPool_data (mkPool {[5 := Tensor_default]}) !! 7 = None /\
  exists w',
    FreeTensor (mkPool {[5 := Tensor_default]})
               (mkTensor (mkArray 7 0 0) Shape_default) (World_init [])
      = (Done (mkPool {[5 := Tensor_default]}), w') /\
    released_buffers (w_trace w') = [7] /\
    released_buffers (w_trace w') <> [].
Proof.
  split; [reflexivity|].
  eexists. split; [|split].
  - rewrite FreeTensor_run. cbn [Tensor_data Array_buffer TensorPool_data].
    rewrite delete_id by reflexivity. reflexivity.
  - reflexivity.
  - discriminate.
Qed.

(** ** check, and the paths routed through it *)

Lemma pumps_app tr1 tr2 : pumps (tr1 ++ tr2) = (pumps tr1 + pumps tr2)%nat.
Proof. unfold pumps. rewrite List.filter_app, length_app. reflexivity. Qed.

Lemma never_exits_ret {A} (a : A) : never_exits (mret a).
Proof. intros w. reflexivity. Qed.

Lemma never_exits_bind {A B} (m : M A) (f : A -> M B) :
  never_exits m -> (forall a, never_exits (f a)) -> never_exits (m ≫= f).
Proof.
  intros Hm Hf w. unfold mbind, M_bind. specialize (Hm w).
  destruct (m w) as [[a| | | |] w']; try reflexivity; try discriminate.
  apply Hf.
Qed.

Lemma never_exits_emit e : never_exits (emit e).
Proof. intros w. reflexivity. Qed.

Lemma never_exits_fresh : never_exits fresh.
Proof. intros w. reflexivity. Qed.

Lemma never_exits_register p : never_exits (register p).
Proof. intros w. reflexivity. Qed.

Lemma never_exits_check_release c m : never_exits (check false c m).
Proof. intros w. reflexivity. Qed.

Lemma never_exits_assert kDebug c : never_exits (assert kDebug c).
Proof. intros w. destruct kDebug, c; reflexivity. Qed.

Lemma never_exits_if {A} (b : bool) (m1 m2 : M A) :
  never_exits m1 -> never_exits m2 -> never_exits (if b then m1 else m2).
Proof. destruct b; auto. Qed.

Create HintDb noexit.
#[local] Hint Resolve never_exits_ret never_exits_emit never_exits_fresh
  never_exits_register never_exits_check_release never_exits_assert : noexit.

Ltac noexit :=
  repeat first
    [ apply never_exits_bind; [|intros ?]
    | apply never_exits_if
    | solve [auto with noexit]
    | match goal with |- never_exits (let '(_, _) := ?p in _) => destruct p end
    | match goal with |- never_exits (match ?x with _ => _ end) => destruct x end ].

Lemma never_exits_run_callback be status cb : never_exits (run_callback false be status cb).
Proof.
  destruct cb; cbn [run_callback];
    unfold wgpuBufferMapAsync, memcpy, set_promise, fail, log; noexit;
    intros w; reflexivity.
Qed.

Lemma never_exits_deliver be ps : never_exits (deliver false be ps).
Proof.
  induction ps as [|p ps IH]; cbn [deliver]; noexit;
    auto using never_exits_run_callback.
Qed.

Lemma never_exits_ProcessEvents be instance :
  never_exits (wgpuInstanceProcessEvents false be instance).
Proof.
  unfold wgpuInstanceProcessEvents. noexit;
    try (intros w; reflexivity); auto using never_exits_deliver.
Qed.

Lemma never_exits_Wait be fuel ctx : never_exits (Wait false be fuel ctx).
Proof.
  induction fuel as [|fuel IH]; cbn [Wait]; noexit;
    try (intros w; reflexivity);
    auto using never_exits_ProcessEvents, never_exits_deliver.
Qed.

Lemma never_exits_ToCPU be fuel ctx tensor data bufferSize :
  never_exits (ToCPU false be fuel ctx tensor data bufferSize).
Proof.
  unfold ToCPU, wgpuQueueOnSubmittedWorkDone, wgpuDeviceCreateBuffer,
    wgpuDeviceCreateCommandEncoder, wgpuCommandEncoderFinish.
  noexit; try (intros w; reflexivity);
    auto using never_exits_Wait, never_exits_deliver.
Qed.

Lemma never_exits_ResetCommandBuffer device nThreads op :
  never_exits (ResetCommandBuffer false device nThreads op).
Proof.
  unfold ResetCommandBuffer, Shape_index, wgpuDeviceCreateCommandEncoder,
    wgpuCommandEncoderFinish, log.
  noexit.
Qed.

Lemma never_exits_CreateKernel ctx shader inputs numTensors nThreads params paramsSize addr :
  never_exits (CreateKernel false ctx shader inputs numTensors nThreads params
                            paramsSize addr).
Proof.
  unfold CreateKernel, nWorkgroups_axis, Shape_index, size_div,
    wgpuDeviceCreateBuffer, wgpuQueueWriteBuffer, log, fail.
  noexit; try (intros w; reflexivity);
    auto using never_exits_ResetCommandBuffer.
Qed.

(** ** CreateContext *)

Lemma CreateContext_no_pump kDebug be w :
  pumps (w_trace (snd (CreateContext kDebug be w))) = pumps (w_trace w).
Proof.
  destruct w as [tr hs ps pr].
  unfold CreateContext, wgpuInstanceRequestAdapter, wgpuAdapterRequestDevice, check.
  run; cbn [w_trace snd]; rewrite <- ?app_assoc; rewrite ?pumps_app;
    cbn; lia.
Qed.

Lemma CreateContext_release be w :
  exists w',
    CreateContext false be w =
    (Done (mkContext (handle_at w 0)
                     (if be_adapter_sync be then be_adapter be else nullptr)
                     (if be_device_sync be then be_device be else nullptr)
                     (handle_at w 1) (mkPool ∅) ∅), w').
Proof.
  destruct w as [tr hs ps pr].
  unfold CreateContext, wgpuInstanceRequestAdapter, wgpuAdapterRequestDevice, check.
  handles. run; eexists; reflexivity.
Qed.

Lemma CreateContext_debug_inv be w ctx w' :
  CreateContext true be w = (Done ctx, w') ->
  be_adapter_sync be = true /\ be_device_sync be = true /\
  Context_adapter ctx = be_adapter be /\ Context_device ctx = be_device be.
Proof.
  destruct w as [tr hs ps pr].
  unfold CreateContext, wgpuInstanceRequestAdapter, wgpuAdapterRequestDevice, check.
  run; cbn [rd_requestEnded rd_handle]; exec; intros H; try discriminate H.
  inversion H; subst; cbn. auto.
Qed.

Lemma CreateContext_debug_adapter_deferred be w :
  is_set (handle_at w 0) = true -> be_adapter_sync be = false ->
  fst (CreateContext true be w) = AssertFailed.
Proof.
  destruct w as [tr hs ps pr]. handles.
  intros Hi Hs.
  unfold CreateContext, wgpuInstanceRequestAdapter, wgpuAdapterRequestDevice, check.
  exec. rewrite Hi. exec. rewrite Hs. exec. reflexivity.
Qed.

Lemma CreateContext_debug_device_deferred be w :
  is_set (handle_at w 0) = true -> be_adapter_sync be = true ->
  be_adapter_status be = Status_Success -> be_device_sync be = false ->
  fst (CreateContext true be w) = AssertFailed.
Proof.
  destruct w as [tr hs ps pr]. handles.
  intros Hi Hs Hst Hd.
  unfold CreateContext, wgpuInstanceRequestAdapter, wgpuAdapterRequestDevice, check.
  exec. rewrite Hi. exec. rewrite Hs. exec. rewrite Hst. exec.
  rewrite Hd. exec. reflexivity.
Qed.

Lemma CreateContext_sync_returns kDebug be w :
  is_set (handle_at w 0) = true ->
  be_adapter_sync be = true -> be_adapter_status be = Status_Success ->
  be_device_sync be = true -> be_device_status be = Status_Success ->
  exists w',
    CreateContext kDebug be w =
    (Done (mkContext (handle_at w 0) (be_adapter be) (be_device be) (handle_at w 1)
                     (mkPool ∅) ∅), w').
Proof.
  destruct w as [tr hs ps pr]. handles.
  intros Hi Hs Hst Hd Hdst.
  unfold CreateContext, wgpuInstanceRequestAdapter, wgpuAdapterRequestDevice, check.
  exec. rewrite Hi, Hs, Hst, Hd, Hdst.
  destruct kDebug; exec; eexists; reflexivity.
Qed.

(** C6, as amended: [CreateContext] never calls the event-processing
    function. After each request call it asserts that the stage's "request
    ended" flag is set: with assertions enabled it returns only when both
    callbacks have run inside their request calls, the handles in the
    Context are then the ones the callbacks received, and a callback held
    back by the API makes it abort at the assertion; with NDEBUG the
    assertions are absent, and it returns in every case, with a null handle
    for a stage whose callback has not run. *)
Theorem CreateContext_asserts_and_never_pumps :
  (forall kDebug be w,
      pumps (w_trace (snd (CreateContext kDebug be w))) = pumps (w_trace w)) /\
  (forall be w ctx w',
      CreateContext true be w = (Done ctx, w') ->
      be_adapter_sync be = true /\ be_device_sync be = true /\
      Context_adapter ctx = be_adapter be /\ Context_device ctx = be_device be) /\
  (forall be w,
      is_set (handle_at w 0) = true -> be_adapter_sync be = false ->
      fst (CreateContext true be w) = AssertFailed) /\
  (forall be w,
      is_set (handle_at w 0) = true -> be_adapter_sync be = true ->
      be_adapter_status be = Status_Success -> be_device_sync be = false ->
      fst (CreateContext true be w) = AssertFailed) /\
  (forall kDebug be w,
      is_set (handle_at w 0) = true ->
      be_adapter_sync be = true -> be_adapter_status be = Status_Success ->
      be_device_sync be = true -> be_device_status be = Status_Success ->
      exists w',
        CreateContext kDebug be w =
        (Done (mkContext (handle_at w 0) (be_adapter be) (be_device be)
                         (handle_at w 1) (mkPool ∅) ∅), w')) /\
  (forall be w,
      exists w',
        CreateContext false be w =
        (Done (mkContext (handle_at w 0)
                         (if be_adapter_sync be then be_adapter be else nullptr)
                         (if be_device_sync be then be_device be else nullptr)
                         (handle_at w 1) (mkPool ∅) ∅), w')).
Proof.
  split; [exact CreateContext_no_pump|].
  split; [exact CreateContext_debug_inv|].
  split; [exact CreateContext_debug_adapter_deferred|].
  split; [exact CreateContext_debug_device_deferred|].
  split; [exact CreateContext_sync_returns|].
  exact CreateContext_release.
Qed.

Lemma CreateContext_asserts_and_never_pumps_witness :
  is_set (handle_at (World_init [1; 2]) 0) = true /\
  be_adapter_sync be_sync = true /\ be_adapter_status be_sync = Status_Success /\
  be_device_sync be_sync = true /\ be_device_status be_sync = Status_Success /\
  (exists w', CreateContext true be_sync (World_init [1; 2]) =
              (Done (mkContext 1 11 12 2 (mkPool ∅) ∅), w')) /\
  be_adapter_sync be_adapter_deferred = false /\
  fst (CreateContext true be_adapter_deferred (World_init [1; 2])) = AssertFailed.
Proof.
  repeat (split; [reflexivity|]).
  split.
  - apply (proj1 (proj2 (proj2 (proj2 (proj2 CreateContext_asserts_and_never_pumps))))
             true be_sync (World_init [1; 2])); reflexivity.
  - split; [reflexivity|].
    apply (proj1 (proj2 (proj2 CreateContext_asserts_and_never_pumps))
             be_adapter_deferred (World_init [1; 2])); reflexivity.
Defined.

(** The claim of C6 as stated fails when the API holds the adapter callback
    back: the release build returns a Context whose adapter is null, while
    the callback is still waiting and no event has been pumped; the debug
    build aborts at the assertion, again without pumping. *)
Lemma CreateContext_proceeds_with_flag_unset :
  (exists ctx w',
      CreateContext false be_adapter_deferred (World_init [1; 2]) = (Done ctx, w') /\
      Context_adapter ctx = nullptr /\
      w_pending w' = [mkPending 0 0 (OnAdapterRequestEnded 11)] /\
      pumps (w_trace w') = 0%nat) /\
  (exists w',
      CreateContext true be_adapter_deferred (World_init [1; 2]) = (AssertFailed, w') /\
      pumps (w_trace w') = 0%nat).
Proof.
  split.
  - eexists _, _. split; [vm_compute; reflexivity|].
    split; [reflexivity|]. split; reflexivity.
  - eexists. split; [vm_compute; reflexivity|]. reflexivity.
Qed.

(** C10: [check] logs an error and ends the process exactly when the build
    is a debug build and the condition is false; in a release build it does
    nothing at all, whatever the condition. Hence, in a release build,
    [CreateContext] always returns and neither [ToCPU] nor [CreateKernel]
    ever ends in [exit]; on the six failures listed (null instance, failed
    adapter status, failed device status, null command buffer, failed
    work-done status, failed map status) the debug build exits with code 1
    and the release build goes on. *)
Theorem check_is_fatal_only_in_debug :
  (forall condition message w, check false condition message w = (Done tt, w)) /\
  (forall message w,
      check true false message w =
      (Exited 1, mkWorld (w_trace w ++ [EvLog kError message; EvExit 1])
                         (w_handles w) (w_pending w) (w_promise w))) /\
  (forall message w,
      check true true message w =
      (Done tt, mkWorld (w_trace w ++ [EvLog kTrace message])
                        (w_handles w) (w_pending w) (w_promise w))) /\
  (forall kDebug condition message w,
      exited (fst (check kDebug condition message w)) = kDebug && negb condition) /\
  (forall be w, returned (fst (CreateContext false be w)) = true) /\
  (forall be fuel ctx tensor data bufferSize w,
      exited (fst (ToCPU false be fuel ctx tensor data bufferSize w)) = false) /\
  (forall ctx shader inputs numTensors nThreads params paramsSize addr w,
      exited (fst (CreateKernel false ctx shader inputs numTensors nThreads params
                                paramsSize addr w)) = false) /\
  (* instance creation *)
  fst (CreateContext true be_sync (World_init [0; 2])) = Exited 1 /\
  returned (fst (CreateContext false be_sync (World_init [0; 2]))) = true /\
  (* adapter request status *)
  fst (CreateContext true be_adapter_failed (World_init [1; 2])) = Exited 1 /\
  returned (fst (CreateContext false be_adapter_failed (World_init [1; 2]))) = true /\
  (* device request status *)
  fst (CreateContext true be_device_failed (World_init [1; 2])) = Exited 1 /\
  returned (fst (CreateContext false be_device_failed (World_init [1; 2]))) = true /\
  (* command-buffer creation *)
  fst (ToCPU true be_sync 2 ctx_example tensor_example 1000 16
             (World_init [21; 22; 0; 24])) = Exited 1 /\
  fst (ToCPU false be_sync 2 ctx_example tensor_example 1000 16
             (World_init [21; 22; 0; 24])) = Done tt /\
  (* queue work-done status *)
  fst (ToCPU true be_workdone_failed 2 ctx_example tensor_example 1000 16
             (World_init [21; 22; 23; 24])) = Exited 1 /\
  fst (ToCPU false be_workdone_failed 2 ctx_example tensor_example 1000 16
             (World_init [21; 22; 23; 24])) = Done tt /\
  (* buffer-map status *)
  fst (ToCPU true be_map_failed 2 ctx_example tensor_example 1000 16
             (World_init [21; 22; 23; 24])) = Exited 1 /\
  fst (ToCPU false be_map_failed 2 ctx_example tensor_example 1000 16
             (World_init [21; 22; 23; 24])) = Done tt.
Proof.
  split; [reflexivity|].
  split.
  { intros message [tr hs ps pr]. unfold check. exec.
    cbn [negb w_trace w_handles w_pending w_promise]. exec.
    rewrite <- app_assoc. reflexivity. }
  split; [reflexivity|].
  split; [intros [] [] message w; reflexivity|].
  split.
  { intros be w. destruct (CreateContext_release be w) as [w' ->]. reflexivity. }
  split; [intros; apply never_exits_ToCPU|].
  split; [intros; apply never_exits_CreateKernel|].
  repeat split; vm_compute; reflexivity.
Qed.

(** ** CreateKernel *)

Lemma nWorkgroups_axis_run kDebug nThreads workgroupSize axis w :
  (axis < Shape_rank nThreads)%nat -> (axis < Shape_rank workgroupSize)%nat ->
  Shape_get workgroupSize axis <> 0 ->
  nWorkgroups_axis kDebug nThreads workgroupSize axis w
  = (Done (workgroups_of nThreads workgroupSize axis), w).
Proof.
  intros Hn Hw H0. apply Nat.ltb_lt in Hn, Hw. apply Z.eqb_neq in H0.
  unfold nWorkgroups_axis, Shape_index, size_div, workgroups_of.
  destruct kDebug;
    repeat (exec; progress rewrite ?Hn, ?Hw, ?H0); reflexivity.
Qed.

Lemma ResetCommandBuffer_run kDebug device nThreads op w :
  Shape_rank (Kernel_nWorkgroups op) = 3%nat ->
  (kDebug = true -> handle_at w 2 <> nullptr) ->
  exists evs,
    ResetCommandBuffer kDebug device nThreads op w =
    (Done (mkKernel (Kernel_buffers op) (Kernel_bufferSizes op) (Kernel_numBindings op)
                    (Kernel_nWorkgroups op) (Kernel_bindGroup op)
                    (Kernel_computePipeline op) (handle_at w 2)),
     mkWorld (w_trace w ++ evs) (tl (tl (tl (w_handles w)))) (w_pending w) (w_promise w)).
Proof.
  intros Hr Hcb. destruct w as [tr hs ps pr]. revert Hcb. handles. intros Hcb.
  unfold ResetCommandBuffer, Shape_index, check. exec. rewrite Hr.
  cbn [Nat.ltb Nat.leb]. exec.
  destruct kDebug.
  - assert (His : is_set (hd nullptr (tl (tl hs))) = true).
    { unfold is_set. apply negb_true_iff, Z.eqb_neq. auto. }
    exec. rewrite His. cbn [negb]. exec.
    rewrite <- !app_assoc. eexists. reflexivity.
  - exec. rewrite <- !app_assoc. eexists. reflexivity.
Qed.

Lemma CreateKernel_returns kDebug ctx shader inputs numTensors nThreads params
      paramsSize addr w :
  Shape_rank nThreads = 3%nat ->
  Shape_rank (ShaderCode_workgroupSize shader) = 3%nat ->
  Shape_get (ShaderCode_workgroupSize shader) 0 <> 0 ->
  Shape_get (ShaderCode_workgroupSize shader) 1 <> 0 ->
  Shape_get (ShaderCode_workgroupSize shader) 2 <> 0 ->
  (kDebug = true -> handle_at w (commandBuffer_pos paramsSize) <> nullptr) ->
  exists r w',
    CreateKernel kDebug ctx shader inputs numTensors nThreads params paramsSize addr w
      = (Done r, w') /\
    Kernel_numBindings (kr_kernel r) = numBindings_of numTensors paramsSize /\
    kr_layout r = layout_of inputs numTensors paramsSize /\
    Kernel_nWorkgroups (kr_kernel r) =
      Shape_init [workgroups_of nThreads (ShaderCode_workgroupSize shader) 0;
                  workgroups_of nThreads (ShaderCode_workgroupSize shader) 1;
                  workgroups_of nThreads (ShaderCode_workgroupSize shader) 2] /\
    In (EvCreateBindGroupLayout (kr_layout r) (handle_at w 0)) (w_trace w').
Proof.
  intros Hn Hwg H0 H1 H2 Hcb.
  destruct w as [tr hs ps pr].
  unfold CreateKernel, layout_of, numBindings_of.
  unfold commandBuffer_pos in Hcb. revert Hcb. handles. intros Hcb.
  destruct (paramsSize >? 0) eqn:Hp; exec; rewrite Hn; cbn [Nat.eqb];
    destruct kDebug; exec;
    rewrite !nWorkgroups_axis_run by (rewrite ?Hn, ?Hwg; auto; lia);
    exec;
    match goal with
    | |- context [ResetCommandBuffer ?k ?d ?n ?op ?w] =>
        destruct (ResetCommandBuffer_run k d n op w) as [evs Hrun];
        [reflexivity | handles; first [exact Hcb | discriminate] | rewrite Hrun]
    end;
    exec; eexists _, _; (split; [reflexivity|]);
    cbn [kr_kernel kr_layout Kernel_numBindings Kernel_nWorkgroups w_trace];
    (split; [reflexivity|]); (split; [reflexivity|]); (split; [reflexivity|]);
    rewrite <- !app_assoc; apply in_or_app; right; cbn; auto 10.
Qed.

Lemma nWorkgroups_axis_inv kDebug nThreads workgroupSize axis w v w' :
  nWorkgroups_axis kDebug nThreads workgroupSize axis w = (Done v, w') ->
  v = workgroups_of nThreads workgroupSize axis /\ w' = w.
Proof.
  unfold nWorkgroups_axis, Shape_index, size_div, workgroups_of.
  run; intros H; try discriminate H; inversion H; auto.
Qed.

Lemma ResetCommandBuffer_inv kDebug device nThreads op w op' w' :
  ResetCommandBuffer kDebug device nThreads op w = (Done op', w') ->
  Kernel_numBindings op' = Kernel_numBindings op /\
  Kernel_nWorkgroups op' = Kernel_nWorkgroups op /\
  exists evs, w_trace w' = w_trace w ++ evs.
Proof.
  destruct w as [tr hs ps pr].
  unfold ResetCommandBuffer, Shape_index, check.
  run; cbn [negb]; exec; intros H; try discriminate H; inversion H; subst; clear H;
    cbn [Kernel_numBindings Kernel_nWorkgroups w_trace];
    (split; [reflexivity|]); (split; [reflexivity|]);
    rewrite <- !app_assoc; eexists; reflexivity.
Qed.

(** Whatever the build and the inputs, a call of [CreateKernel] that returns
    has computed the binding count, the layout and the workgroup counts by
    the plain functions, and has handed that layout to the API. *)
Lemma CreateKernel_inv kDebug ctx shader inputs numTensors nThreads params
      paramsSize addr w r w' :
  CreateKernel kDebug ctx shader inputs numTensors nThreads params paramsSize addr w
    = (Done r, w') ->
  Kernel_numBindings (kr_kernel r) = numBindings_of numTensors paramsSize /\
  kr_layout r = layout_of inputs numTensors paramsSize /\
  Kernel_nWorkgroups (kr_kernel r) =
    Shape_init [workgroups_of nThreads (ShaderCode_workgroupSize shader) 0;
                workgroups_of nThreads (ShaderCode_workgroupSize shader) 1;
                workgroups_of nThreads (ShaderCode_workgroupSize shader) 2] /\
  (kDebug = true -> Shape_rank nThreads = 3%nat) /\
  (exists h, In (EvCreateBindGroupLayout (kr_layout r) h) (w_trace w')).
Proof.
  destruct w as [tr hs ps pr].
  unfold CreateKernel, layout_of, numBindings_of.
  assert (Hrank : forall m : M KernelResult,
             (assert kDebug (Shape_rank nThreads =? 3)%nat;; m)
               (mkWorld tr hs ps pr) = (Done r, w') ->
             (kDebug = true -> Shape_rank nThreads = 3%nat) /\
             m (mkWorld tr hs ps pr) = (Done r, w')).
  { intros m. exec. destruct kDebug.
    - destruct (Shape_rank nThreads =? 3)%nat eqn:E; [|discriminate].
      intros H. split; [intros _; apply Nat.eqb_eq; exact E|exact H].
    - intros H. split; [discriminate|exact H]. }
  intros H. apply Hrank in H. destruct H as [Hr H]. clear Hrank.
  revert H.
  destruct (paramsSize >? 0) eqn:Hp; exec;
    repeat match goal with
      | |- context [nWorkgroups_axis ?k ?n ?wg ?a ?w] =>
          let E := fresh "E" in
          destruct (nWorkgroups_axis k n wg a w) as [[v| | | |] w1] eqn:E;
          try discriminate;
          apply nWorkgroups_axis_inv in E; destruct E as [-> ->]; exec
      end;
    match goal with
    | |- context [ResetCommandBuffer ?k ?d ?n ?op ?w] =>
        let E := fresh "E" in
        set (op0 := op); set (w0 := w);
        destruct (ResetCommandBuffer k d n op0 w0) as [[op'| | | |] w1] eqn:E;
        try discriminate;
        apply ResetCommandBuffer_inv in E; destruct E as (E1 & E2 & evs & E3);
        destruct w1 as [tr1 hs1 ps1 pr1]; cbn [w_trace] in E3; subst tr1;
        subst op0 w0
    end;
    exec; intros H; injection H as <- <-;
    cbn [kr_kernel kr_layout w_trace Kernel_numBindings Kernel_nWorkgroups] in *;
    rewrite E1, E2;
    (split; [reflexivity|]); (split; [reflexivity|]); (split; [reflexivity|]);
    (split; [exact Hr|]);
    eexists; rewrite <- !app_assoc; apply in_or_app; right; cbn [app In];
    repeat first [left; reflexivity | right].
Qed.

(** *** The binding layout *)

Lemma fill_layout_nat inputs (k : nat) entries :
  fill_layout inputs (Z.of_nat k) entries =
  fold_left (fun es i => <[i := storage_entry inputs i]> es) (seq 0 k) entries.
Proof. unfold fill_layout. rewrite Nat2Z.id. reflexivity. Qed.

Lemma fill_fold_length {A} (g : nat -> A) (l : list nat) (entries : list A) :
  length (fold_left (fun es i => <[i := g i]> es) l entries) = length entries.
Proof.
  revert entries. induction l as [|i l IH]; intros entries; cbn [fold_left].
  - reflexivity.
  - rewrite IH. apply length_insert.
Qed.

Lemma fill_fold_lookup_lt {A} (g : nat -> A) (k : nat) (entries : list A) (i : nat) :
  (i < k)%nat -> (i < length entries)%nat ->
  fold_left (fun es i => <[i := g i]> es) (seq 0 k) entries !! i = Some (g i).
Proof.
  induction k as [|k IH]; intros Hik Hlen; [lia|].
  rewrite seq_S, fold_left_app. cbn [fold_left Nat.add].
  destruct (decide (i = k)) as [->|Hne].
  - apply list_lookup_insert_eq. rewrite fill_fold_length. exact Hlen.
  - rewrite list_lookup_insert_ne by congruence. apply IH; [lia | exact Hlen].
Qed.

Lemma fill_fold_lookup_ge {A} (g : nat -> A) (k : nat) (entries : list A) (i : nat) :
  (k <= i)%nat ->
  fold_left (fun es i => <[i := g i]> es) (seq 0 k) entries !! i = entries !! i.
Proof.
  induction k as [|k IH]; intros Hik; [reflexivity|].
  rewrite seq_S, fold_left_app. cbn [fold_left Nat.add].
  rewrite list_lookup_insert_ne by lia. apply IH. lia.
Qed.

Lemma layout_of_no_params inputs paramsSize :
  (paramsSize >? 0) = false ->
  layout_of inputs (Z.of_nat (length inputs)) paramsSize =
  fold_left (fun es i => <[i := storage_entry inputs i]> es) (seq 0 (length inputs))
            (replicate (length inputs) LayoutEntry_zero).
Proof.
  intros Hp. unfold layout_of, numBindings_of. rewrite Hp.
  rewrite fill_layout_nat, Nat2Z.id. reflexivity.
Qed.

Lemma wrap_succ_length {A} (l : list A) :
  Z.of_nat (length l) + 1 < 2 ^ 64 -> wrap (Z.of_nat (length l) + 1) = Z.of_nat (S (length l)).
Proof. intros H. rewrite wrap_small; unfold SIZE_MOD, SIZE_BITS; lia. Qed.

Lemma layout_of_params inputs paramsSize :
  (paramsSize >? 0) = true -> Z.of_nat (length inputs) + 1 < 2 ^ 64 ->
  layout_of inputs (Z.of_nat (length inputs)) paramsSize =
  <[length inputs := uniform_entry (Z.of_nat (length inputs)) paramsSize]>
    (fold_left (fun es i => <[i := storage_entry inputs i]> es) (seq 0 (length inputs))
               (replicate (S (length inputs)) LayoutEntry_zero)).
Proof.
  intros Hp Hfit. unfold layout_of, numBindings_of. rewrite Hp.
  rewrite fill_layout_nat, wrap_succ_length by exact Hfit.
  replace (wrap (Z.of_nat (S (length inputs)) - 1)) with (Z.of_nat (length inputs)).
  - rewrite !Nat2Z.id. reflexivity.
  - rewrite wrap_small; unfold SIZE_MOD, SIZE_BITS; lia.
Qed.

(** C1: for every call of [CreateKernel] that returns, on an array of N
    input tensors (an array that exists in memory, so that N + 1 is a
    [size_t]), the Kernel has N bindings when the parameter block is absent
    ([paramsSize = 0]) and N + 1 when it is present; the layout handed to the
    API has that many entries; each of the first N is a storage entry whose
    minimum binding size is the byte size of the tensor of the same index;
    the parameter entry, when present, is at the last index N, is of uniform
    type with minimum size [paramsSize], and no other entry is of uniform
    type. *)
Theorem CreateKernel_binding_layout kDebug ctx shader inputs numTensors nThreads
    params paramsSize addr w r w' :
  CreateKernel kDebug ctx shader inputs numTensors nThreads params paramsSize addr w
    = (Done r, w') ->
  numTensors = Z.of_nat (length inputs) ->
  numTensors + 1 < 2 ^ 64 ->
  0 <= paramsSize ->
  Kernel_numBindings (kr_kernel r)
    = (if paramsSize =? 0 then numTensors else numTensors + 1) /\
  Z.of_nat (length (kr_layout r)) = Kernel_numBindings (kr_kernel r) /\
  (forall i, (i < length inputs)%nat ->
     kr_layout r !! i =
       Some (mkLayoutEntry (to_uint32 (Z.of_nat i)) WGPUShaderStage_Compute
               BindingType_Storage (Array_size (Tensor_data (input_at inputs i))))) /\
  (0 < paramsSize ->
     kr_layout r !! length inputs =
       Some (mkLayoutEntry (to_uint32 numTensors) WGPUShaderStage_Compute
               BindingType_Uniform paramsSize)) /\
  (forall i e, kr_layout r !! i = Some e -> le_type e = BindingType_Uniform ->
     0 < paramsSize /\ i = length inputs) /\
  (exists h, In (EvCreateBindGroupLayout (kr_layout r) h) (w_trace w')).
Proof.
  intros Hrun -> Hfit Hps.
  apply CreateKernel_inv in Hrun.
  destruct Hrun as (Hnb & Hlay & _ & _ & Hin).
  rewrite Hnb, Hlay. unfold numBindings_of.
  destruct (paramsSize >? 0) eqn:Hp.
  - assert (Hpos : 0 < paramsSize) by lia.
    assert (Hz : (paramsSize =? 0) = false) by (apply Z.eqb_neq; lia).
    rewrite Hz, layout_of_params, wrap_succ_length by assumption.
    split; [lia|]. split; [rewrite length_insert, fill_fold_length, length_replicate; reflexivity|].
    split; [|split; [|split]].
    + intros i Hi. rewrite list_lookup_insert_ne by lia.
      apply (fill_fold_lookup_lt (storage_entry inputs)); [exact Hi|].
      rewrite length_replicate. lia.
    + intros _. apply list_lookup_insert_eq.
      rewrite fill_fold_length, length_replicate. lia.
    + intros i e Hi Hty. split; [exact Hpos|].
      destruct (decide (i = length inputs)) as [|Hne]; [assumption|exfalso].
      rewrite list_lookup_insert_ne in Hi by congruence.
      destruct (Nat.lt_ge_cases i (length inputs)) as [Hlt|Hge].
      * rewrite (fill_fold_lookup_lt (storage_entry inputs)) in Hi;
          [|exact Hlt|rewrite length_replicate; lia].
        injection Hi as <-. discriminate Hty.
      * rewrite fill_fold_lookup_ge in Hi by exact Hge.
        apply lookup_replicate in Hi. destruct Hi as [-> _]. discriminate Hty.
    + rewrite <- layout_of_params, <- Hlay by assumption. exact Hin.
  - assert (Hz : paramsSize = 0) by lia. subst paramsSize.
    rewrite layout_of_no_params by reflexivity. cbn [Z.eqb].
    split; [reflexivity|]. split; [rewrite fill_fold_length, length_replicate; reflexivity|].
    split; [|split; [|split]].
    + intros i Hi.
      apply (fill_fold_lookup_lt (storage_entry inputs)); [exact Hi|].
      rewrite length_replicate. lia.
    + intros H. lia.
    + intros i e Hi Hty. exfalso.
      destruct (Nat.lt_ge_cases i (length inputs)) as [Hlt|Hge].
      * rewrite (fill_fold_lookup_lt (storage_entry inputs)) in Hi;
          [|exact Hlt|rewrite length_replicate; lia].
        injection Hi as <-. discriminate Hty.
      * rewrite fill_fold_lookup_ge in Hi by exact Hge.
        apply lookup_replicate in Hi. destruct Hi as [-> _]. discriminate Hty.
    + rewrite <- (layout_of_no_params inputs 0), <- Hlay by reflexivity. exact Hin.
Qed.

(** *** The assertion on the rank *)

Lemma appends_ret {A} (a : A) : appends (mret a).
Proof. intros w. exists []. cbn. rewrite app_nil_r. reflexivity. Qed.

Lemma appends_bind {A B} (m : M A) (f : A -> M B) :
  appends m -> (forall a, appends (f a)) -> appends (m ≫= f).
Proof.
  intros Hm Hf w. unfold mbind, M_bind. destruct (Hm w) as [evs Hevs].
  destruct (m w) as [[a| | | |] w1]; cbn [snd] in *; try (exists evs; exact Hevs).
  destruct (Hf a w1) as [evs' Hevs']. exists (evs ++ evs').
  rewrite Hevs', Hevs, app_assoc. reflexivity.
Qed.

Lemma appends_emit e : appends (emit e).
Proof. intros w. exists [e]. reflexivity. Qed.

Lemma appends_fresh : appends fresh.
Proof. intros w. exists []. cbn. rewrite app_nil_r. reflexivity. Qed.

Lemma appends_fail {A} (o : Outcome A) : appends (fail o).
Proof. intros w. exists []. cbn. rewrite app_nil_r. reflexivity. Qed.

Lemma appends_exit {A} c : appends (@exit A c).
Proof. intros w. exists [EvExit c]. reflexivity. Qed.

Lemma appends_if {A} (b : bool) (m1 m2 : M A) :
  appends m1 -> appends m2 -> appends (if b then m1 else m2).
Proof. destruct b; auto. Qed.

Ltac appends :=
  repeat first
    [ apply appends_bind; [|intros ?]
    | apply appends_if
    | apply appends_ret | apply appends_emit | apply appends_fresh
    | apply appends_fail | apply appends_exit ].

Lemma appends_assert kDebug c : appends (assert kDebug c).
Proof. unfold assert. appends. Qed.

Lemma appends_check kDebug c m : appends (check kDebug c m).
Proof. unfold check, log. appends. Qed.

Lemma appends_ResetCommandBuffer kDebug device nThreads op :
  appends (ResetCommandBuffer kDebug device nThreads op).
Proof.
  unfold ResetCommandBuffer, Shape_index, wgpuDeviceCreateCommandEncoder,
    wgpuCommandEncoderFinish, log.
  appends; first [apply appends_assert | apply appends_check].
Qed.

Lemma CreateKernel_passes_assertion kDebug ctx shader inputs numTensors nThreads
      params paramsSize addr w :
  kDebug = false \/ Shape_rank nThreads = 3%nat ->
  exists evs,
    w_trace (snd (CreateKernel kDebug ctx shader inputs numTensors nThreads params
                               paramsSize addr w))
    = w_trace w ++ first_log_of_CreateKernel :: evs.
Proof.
  intros Hpass.
  assert (Hgo : forall m : M KernelResult, appends m ->
            exists evs,
              w_trace (snd ((assert kDebug (Shape_rank nThreads =? 3)%nat;;
                             log kInfo "Create the bind group layout";; m) w))
              = w_trace w ++ first_log_of_CreateKernel :: evs).
  { intros m Hm.
    assert (Ha : assert kDebug (Shape_rank nThreads =? 3)%nat = mret tt).
    { destruct Hpass as [-> | ->]; [reflexivity | destruct kDebug; reflexivity]. }
    rewrite Ha. destruct w as [tr hs ps pr].
    replace ((mret tt;; log kInfo "Create the bind group layout";; m)
               (mkWorld tr hs ps pr))
      with (m (mkWorld (tr ++ [EvLog kInfo "Create the bind group layout"]) hs ps pr))
      by reflexivity.
    destruct (Hm (mkWorld (tr ++ [EvLog kInfo "Create the bind group layout"]) hs ps pr))
      as [evs Hevs].
    exists evs. rewrite Hevs. cbn [w_trace]. rewrite <- app_assoc. reflexivity. }
  unfold CreateKernel. cbv zeta. apply Hgo.
  unfold nWorkgroups_axis, Shape_index, size_div, wgpuDeviceCreateBuffer,
    wgpuQueueWriteBuffer, log.
  appends; first [apply appends_assert | apply appends_ResetCommandBuffer].
Qed.

Lemma CreateKernel_rank_assertion ctx shader inputs numTensors nThreads params
      paramsSize addr w :
  Shape_rank nThreads <> 3%nat ->
  CreateKernel true ctx shader inputs numTensors nThreads params paramsSize addr w
  = (AssertFailed, w).
Proof.
  intros Hr. apply Nat.eqb_neq in Hr. unfold CreateKernel. exec. rewrite Hr.
  reflexivity.
Qed.

(** C8, as amended: the requirement on the rank is an [assert]. In a build
    with assertions, a call whose [nThreads] is not of rank 3 stops at the
    assertion before anything else is done, so a call that returns had rank
    3. With rank 3, or in a build with NDEBUG whatever the rank, the
    assertion does not fire and the call goes on to its next statement; with
    rank-3 shapes, non-zero workgroup sizes and a valid command buffer it
    returns the Kernel. *)
Theorem CreateKernel_rank_is_asserted :
  (forall ctx shader inputs numTensors nThreads params paramsSize addr w,
      Shape_rank nThreads <> 3%nat ->
      CreateKernel true ctx shader inputs numTensors nThreads params paramsSize addr w
      = (AssertFailed, w)) /\
  (forall ctx shader inputs numTensors nThreads params paramsSize addr w r w',
      CreateKernel true ctx shader inputs numTensors nThreads params paramsSize addr w
      = (Done r, w') ->
      Shape_rank nThreads = 3%nat) /\
  (forall kDebug ctx shader inputs numTensors nThreads params paramsSize addr w,
      kDebug = false \/ Shape_rank nThreads = 3%nat ->
      exists evs,
        w_trace (snd (CreateKernel kDebug ctx shader inputs numTensors nThreads params
                                   paramsSize addr w))
        = w_trace w ++ first_log_of_CreateKernel :: evs) /\
  (forall kDebug ctx shader inputs numTensors nThreads params paramsSize addr w,
      Shape_rank nThreads = 3%nat ->
      Shape_rank (ShaderCode_workgroupSize shader) = 3%nat ->
      Shape_get (ShaderCode_workgroupSize shader) 0 <> 0 ->
      Shape_get (ShaderCode_workgroupSize shader) 1 <> 0 ->
      Shape_get (ShaderCode_workgroupSize shader) 2 <> 0 ->
      (kDebug = true -> handle_at w (commandBuffer_pos paramsSize) <> nullptr) ->
      returned (fst (CreateKernel kDebug ctx shader inputs numTensors nThreads params
                                  paramsSize addr w)) = true).
Proof.
  split; [exact CreateKernel_rank_assertion|].
  split.
  { intros ctx shader inputs numTensors nThreads params paramsSize addr w r w' H.
    apply CreateKernel_inv in H. destruct H as (_ & _ & _ & Hr & _). auto. }
  split; [exact CreateKernel_passes_assertion|].
  intros kDebug ctx shader inputs numTensors nThreads params paramsSize addr w
         Hn Hwg H0 H1 H2 Hcb.
  destruct (CreateKernel_returns kDebug ctx shader inputs numTensors nThreads params
              paramsSize addr w Hn Hwg H0 H1 H2 Hcb) as (r & w' & -> & _).
  reflexivity.
Qed.

Lemma CreateKernel_rank_is_asserted_witness :
  Shape_rank (Shape_init [8; 8]) <> 3%nat /\
  CreateKernel true ctx_example shader_example [tensor_example] 1 (Shape_init [8; 8])
               0 0 77 (World_init handles_example)
  = (AssertFailed, World_init handles_example) /\
  Shape_rank (Shape_init [1000; 1; 1]) = 3%nat /\
  returned (fst (CreateKernel true ctx_example shader_example [tensor_example] 1
                              (Shape_init [1000; 1; 1]) 0 0 77
                              (World_init handles_example))) = true.
Proof.
  assert (Hr : Shape_rank (Shape_init [8; 8]) <> 3%nat) by (cbn; lia).
  split; [exact Hr|].
  split; [apply (proj1 CreateKernel_rank_is_asserted); exact Hr|].
  split; [reflexivity|].
  apply (proj2 (proj2 (proj2 CreateKernel_rank_is_asserted))).
  - reflexivity.
  - reflexivity.
  - vm_compute; congruence.
  - vm_compute; congruence.
  - vm_compute; congruence.
  - intros _. vm_compute; congruence.
Defined.

(** The claim of C8 as stated fails in a build with NDEBUG: on a geometry
    of rank 2 the assertion does not fire and the Kernel is constructed. *)
Lemma CreateKernel_release_accepts_rank_2 :
  Shape_rank (Shape_init [8; 8]) = 2%nat /\
  exists r w',
    CreateKernel false ctx_example shader_example [tensor_example] 1
                 (Shape_init [8; 8]) 0 0 77 (World_init handles_example)
    = (Done r, w') /\
    Kernel_numBindings (kr_kernel r) = 1 /\
    Shape_data (Kernel_nWorkgroups (kr_kernel r)) = [1; 8; 0; 0; 0; 0; 0; 0].
Proof.
  split; [reflexivity|].
  eexists _, _. split; [vm_compute; reflexivity|]. split; reflexivity.
Qed.

(** *** Workgroup counts *)

Lemma ceil_div_formula n w :
  0 <= n -> 0 < w -> (n + (w - 1)) / w = ceil_div n w.
Proof.
  intros Hn Hw. unfold ceil_div.
  pose proof (Z.div_mod n w ltac:(lia)) as Hdm.
  pose proof (Z.mod_pos_bound n w Hw) as Hb.
  destruct (n mod w =? 0) eqn:E.
  - apply Z.eqb_eq in E. symmetry. apply (Z.div_unique _ _ _ (w - 1)); lia.
  - apply Z.eqb_neq in E. symmetry.
    apply (Z.div_unique _ _ _ (n mod w - 1)); lia.
Qed.

Lemma workgroups_of_exact nThreads workgroupSize axis :
  0 <= Shape_get nThreads axis ->
  0 < Shape_get workgroupSize axis ->
  Shape_get nThreads axis + Shape_get workgroupSize axis - 1 < 2 ^ 64 ->
  workgroups_of nThreads workgroupSize axis
  = ceil_div (Shape_get nThreads axis) (Shape_get workgroupSize axis).
Proof.
  intros Hn Hw Hfit. unfold workgroups_of.
  rewrite (wrap_small (_ - 1)) by (unfold SIZE_MOD, SIZE_BITS; lia).
  rewrite wrap_small by (unfold SIZE_MOD, SIZE_BITS; lia).
  apply ceil_div_formula; lia.
Qed.

Lemma Shape_get_init3 a b c axis :
  (axis < 3)%nat ->
  Shape_get (Shape_init [a; b; c]) axis = nth axis [a; b; c] 0.
Proof.
  intros H. destruct axis as [|[|[|axis]]]; try reflexivity. lia.
Qed.

(** C2, as amended: for every call of [CreateKernel] that returns, the
    Kernel's workgroup counts form a rank-3 shape whose entry on each axis
    is [(n + (w - 1)) / w] in the wrapping arithmetic of [size_t], where n
    and w are the thread count and the workgroup size of that axis; whenever
    [w > 0] and [n + w - 1] fits in a [size_t], that entry is
    [ceil(n / w)]. *)
Theorem CreateKernel_workgroup_counts kDebug ctx shader inputs numTensors nThreads
    params paramsSize addr w r w' axis :
  CreateKernel kDebug ctx shader inputs numTensors nThreads params paramsSize addr w
    = (Done r, w') ->
  (axis < 3)%nat ->
  Shape_rank (Kernel_nWorkgroups (kr_kernel r)) = 3%nat /\
  Shape_get (Kernel_nWorkgroups (kr_kernel r)) axis
    = ((Shape_get nThreads axis
        + (Shape_get (ShaderCode_workgroupSize shader) axis - 1) mod 2 ^ 64) mod 2 ^ 64)
      / Shape_get (ShaderCode_workgroupSize shader) axis /\
  (0 <= Shape_get nThreads axis ->
   0 < Shape_get (ShaderCode_workgroupSize shader) axis ->
   Shape_get nThreads axis + Shape_get (ShaderCode_workgroupSize shader) axis - 1
     < 2 ^ 64 ->
   Shape_get (Kernel_nWorkgroups (kr_kernel r)) axis
   = ceil_div (Shape_get nThreads axis)
              (Shape_get (ShaderCode_workgroupSize shader) axis)).
Proof.
  intros Hrun Haxis.
  apply CreateKernel_inv in Hrun. destruct Hrun as (_ & _ & Hwg & _ & _).
  rewrite Hwg. split; [reflexivity|].
  rewrite Shape_get_init3 by exact Haxis.
  assert (Hnth : nth axis
                   [workgroups_of nThreads (ShaderCode_workgroupSize shader) 0;
                    workgroups_of nThreads (ShaderCode_workgroupSize shader) 1;
                    workgroups_of nThreads (ShaderCode_workgroupSize shader) 2] 0
                 = workgroups_of nThreads (ShaderCode_workgroupSize shader) axis).
  { destruct axis as [|[|[|axis]]]; try reflexivity. lia. }
  rewrite Hnth. split; [reflexivity|].
  intros Hn Hw Hfit. apply workgroups_of_exact; assumption.
Qed.

Lemma CreateKernel_workgroup_counts_witness :
  exists r w',
    CreateKernel true ctx_example shader_example [tensor_example] 1
                 (Shape_init [1000; 1; 1]) 0 0 77 (World_init handles_example)
    = (Done r, w') /\
    (0 < 3)%nat /\
    0 <= Shape_get (Shape_init [1000; 1; 1]) 0 /\
    0 < Shape_get (ShaderCode_workgroupSize shader_example) 0 /\
    Shape_get (Shape_init [1000; 1; 1]) 0
      + Shape_get (ShaderCode_workgroupSize shader_example) 0 - 1 < 2 ^ 64 /\
    Shape_get (Kernel_nWorkgroups (kr_kernel r)) 0 = ceil_div 1000 256 /\
    ceil_div 1000 256 = 4 /\
    dims (Kernel_nWorkgroups (kr_kernel r)) = [4; 1; 1].
Proof.
  destruct (CreateKernel true ctx_example shader_example [tensor_example] 1
              (Shape_init [1000; 1; 1]) 0 0 77 (World_init handles_example))
    as [[r| | | |] w'] eqn:E;
    try (vm_compute in E; discriminate E).
  exists r, w'. split; [reflexivity|].
  assert (H1 : (0 < 3)%nat) by lia.
  assert (H2 : 0 <= Shape_get (Shape_init [1000; 1; 1]) 0) by (vm_compute; congruence).
  assert (H3 : 0 < Shape_get (ShaderCode_workgroupSize shader_example) 0)
    by (vm_compute; congruence).
  assert (H4 : Shape_get (Shape_init [1000; 1; 1]) 0
               + Shape_get (ShaderCode_workgroupSize shader_example) 0 - 1 < 2 ^ 64)
    by (vm_compute; congruence).
  split; [exact H1|]. split; [exact H2|]. split; [exact H3|]. split; [exact H4|].
  split.
  - apply (proj2 (proj2 (CreateKernel_workgroup_counts _ _ _ _ _ _ _ _ _ _ _ _ 0%nat
                           E H1)) H2 H3 H4).
  - split; [reflexivity|].
    vm_compute in E. injection E as <- _. reflexivity.
Defined.

(** The claim of C2 as stated fails when [n + w - 1] exceeds the range of
    [size_t]: with 2^64 - 1 threads and workgroups of 2 on the first axis the
    sum wraps to 0 and the count stored is 0, not ceil((2^64 - 1) / 2)
    = 2^63. *)
Lemma CreateKernel_workgroup_count_wraps :
  exists r w',
    CreateKernel true ctx_example (mkShaderCode [] (Shape_init [2; 1; 1]) kf32)
                 [tensor_example] 1 (Shape_init [2 ^ 64 - 1; 1; 1]) 0 0 77
                 (World_init handles_example)
    = (Done r, w') /\
    dims (Kernel_nWorkgroups (kr_kernel r)) = [0; 1; 1] /\
    ceil_div (2 ^ 64 - 1) 2 = 2 ^ 63 /\
    Shape_get (Kernel_nWorkgroups (kr_kernel r)) 0 <> ceil_div (2 ^ 64 - 1) 2.
Proof.
  eexists _, _. split; [vm_compute; reflexivity|].
  split; [reflexivity|]. split; [reflexivity|]. vm_compute. congruence.
Qed.

Lemma CreateKernel_binding_layout_witness :
  exists r w',
    CreateKernel true ctx_example shader_example [tensor_example; tensor_example] 2
                 (Shape_init [1000; 1; 1]) 0 16 77 (World_init handles_example)
    = (Done r, w') /\
    2 = Z.of_nat (length [tensor_example; tensor_example]) /\
    2 + 1 < 2 ^ 64 /\ 0 <= 16 /\
    Kernel_numBindings (kr_kernel r) = 3 /\
    Z.of_nat (length (kr_layout r)) = 3 /\
    kr_layout r !! 2%nat =
      Some (mkLayoutEntry 2 WGPUShaderStage_Compute BindingType_Uniform 16).
Proof.
  destruct (CreateKernel true ctx_example shader_example [tensor_example; tensor_example]
              2 (Shape_init [1000; 1; 1]) 0 16 77 (World_init handles_example))
    as [[r| | | |] w'] eqn:E;
    try (vm_compute in E; discriminate E).
  exists r, w'. split; [reflexivity|].
  assert (H1 : 2 = Z.of_nat (length [tensor_example; tensor_example])) by reflexivity.
  assert (H2 : 2 + 1 < 2 ^ 64) by (vm_compute; congruence).
  assert (H3 : 0 <= 16) by lia.
  split; [exact H1|]. split; [exact H2|]. split; [exact H3|].
  destruct (CreateKernel_binding_layout _ _ _ _ _ _ _ _ _ _ _ _ E H1 H2 H3)
    as (Hnb & Hlen & _ & Hu & _).
  split; [exact Hnb|]. split; [rewrite Hlen; exact Hnb|].
  apply Hu. lia.
Defined.

(** ** ToCPU *)

Lemma Wait_resolved kDebug be fuel ctx w :
  w_promise w = true -> Wait kDebug be fuel ctx w = (Done tt, w).
Proof.
  intros H. destruct w as [tr hs ps pr]. cbn in H. subst pr.
  destruct fuel; reflexivity.
Qed.

Lemma Wait_step kDebug be fuel ctx tr hs ps :
  Wait kDebug be (S fuel) ctx (mkWorld tr hs ps false) =
  (wgpuInstanceProcessEvents kDebug be (Context_instance ctx);;
   Wait kDebug be fuel ctx) (mkWorld tr hs ps false).
Proof. reflexivity. Qed.

Lemma Wait_countdown kDebug be ctx n : forall fuel tr hs d status cb,
  Wait kDebug be (n + fuel) ctx
       (mkWorld tr hs [mkPending (n + d) status cb] false) =
  Wait kDebug be fuel ctx
       (mkWorld (tr ++ pump_events (Context_instance ctx) n) hs
                [mkPending d status cb] false).
Proof.
  induction n as [|n IH]; intros fuel tr hs d status cb.
  - cbn [Nat.add pump_events replicate]. rewrite app_nil_r. reflexivity.
  - cbn [Nat.add]. rewrite Wait_step.
    unfold wgpuInstanceProcessEvents. exec. cbn [deliver]. exec. cbn [app].
    rewrite IH. unfold pump_events. cbn [replicate].
    rewrite <- app_assoc. reflexivity.
Qed.

Lemma Wait_countdown0 kDebug be ctx d fuel tr hs status cb :
  Wait kDebug be (d + fuel) ctx (mkWorld tr hs [mkPending d status cb] false) =
  Wait kDebug be fuel ctx
       (mkWorld (tr ++ pump_events (Context_instance ctx) d) hs
                [mkPending 0 status cb] false).
Proof.
  rewrite <- (Wait_countdown kDebug be ctx d fuel tr hs 0 status cb).
  rewrite Nat.add_0_r. reflexivity.
Qed.

Lemma Wait_delivers_workdone kDebug be ctx fuel tr hs status data :
  Wait kDebug be (S fuel) ctx
       (mkWorld tr hs [mkPending 0 status (OnWorkDone data)] false) =
  if passes kDebug status then
    Wait kDebug be fuel ctx
         (mkWorld (tr ++ [EvProcessEvents (Context_instance ctx)] ++
                   ToCPU_stage2 kDebug status (cb_bufferSize data) (cb_buffer data))
                  hs [mkPending (be_map_delay be) (be_map_status be) (OnMapped data)]
                  false)
  else
    (Exited 1,
     mkWorld (tr ++ [EvProcessEvents (Context_instance ctx)] ++
              ToCPU_stage2 kDebug status (cb_bufferSize data) (cb_buffer data))
             hs [] false).
Proof.
  rewrite Wait_step.
  unfold wgpuInstanceProcessEvents, ToCPU_stage2, passes, check_events.
  exec. cbn [deliver]. unfold run_callback, check, wgpuBufferMapAsync. exec.
  destruct kDebug; destruct (status =? Status_Success); exec;
    cbn [negb orb app]; rewrite <- ?app_assoc; reflexivity.
Qed.

Lemma Wait_delivers_mapped kDebug be ctx fuel tr hs status data :
  hd nullptr hs <> nullptr ->
  Wait kDebug be (S fuel) ctx
       (mkWorld tr hs [mkPending 0 status (OnMapped data)] false) =
  if passes kDebug status then
    (Done tt,
     mkWorld (tr ++ [EvProcessEvents (Context_instance ctx)] ++
              ToCPU_stage3 kDebug status (cb_output data) (cb_bufferSize data)
                           (cb_buffer data) (hd nullptr hs))
             (tl hs) [] true)
  else
    (Exited 1,
     mkWorld (tr ++ [EvProcessEvents (Context_instance ctx)] ++
              ToCPU_stage3 kDebug status (cb_output data) (cb_bufferSize data)
                           (cb_buffer data) (hd nullptr hs))
             hs [] false).
Proof.
  intros Hh. assert (Hz : (hd nullptr hs =? nullptr) = false) by (apply Z.eqb_neq; exact Hh).
  rewrite Wait_step.
  unfold wgpuInstanceProcessEvents, ToCPU_stage3, passes, check_events.
  exec. cbn [deliver]. unfold run_callback, check, memcpy, is_set. exec.
  destruct kDebug; destruct (status =? Status_Success); exec;
    repeat (progress (rewrite ?Hz; cbn [negb orb andb app]; exec));
    rewrite ?Wait_resolved by reflexivity;
    rewrite <- ?app_assoc; reflexivity.
Qed.

Lemma pump_events_S instance n l :
  pump_events instance n ++ [EvProcessEvents instance] ++ l
  = pump_events instance (S n) ++ l.
Proof.
  unfold pump_events. induction n as [|n IH]; [reflexivity|].
  cbn [replicate app] in *. rewrite IH. reflexivity.
Qed.

Lemma ToCPU_run kDebug be fuel ctx tensor data bufferSize w :
  w_pending w = [] ->
  (kDebug = true -> handle_at w 2 <> nullptr) ->
  handle_at w 3 <> nullptr ->
  (be_workdone_delay be + be_map_delay be + 2 <= fuel)%nat ->
  exists w',
    ToCPU kDebug be fuel ctx tensor data bufferSize w = (ToCPU_outcome kDebug be, w') /\
    w_trace w' =
      w_trace w ++
      ToCPU_trace kDebug be ctx tensor data bufferSize
                  (handle_at w 0) (handle_at w 1) (handle_at w 2) (handle_at w 3) /\
    w_promise w' = returned (ToCPU_outcome kDebug be).
Proof.
  destruct w as [tr hs ps pr]. cbn [w_pending]. intros -> H2 H3 Hfuel.
  revert H2 H3. handles. intros H2 H3.
  assert (Hf : fuel = (be_workdone_delay be
                       + S (be_map_delay be
                            + S (fuel - be_workdone_delay be - be_map_delay be - 2)))%nat)
    by lia.
  rewrite Hf. clear Hf Hfuel.
  set (k := (fuel - be_workdone_delay be - be_map_delay be - 2)%nat). clearbody k.
  unfold ToCPU, wgpuQueueOnSubmittedWorkDone, ToCPU_trace, ToCPU_outcome, ToCPU_stage1.
  exec.
  assert (Hc : forall W,
             check kDebug (is_set (hd nullptr (tl (tl hs)))) "Create command buffer" W
             = (Done tt, mkWorld (w_trace W ++ check_events kDebug true "Create command buffer")
                                 (w_handles W) (w_pending W) (w_promise W))).
  { intros [tr' hs' ps' pr']. unfold check, check_events. destruct kDebug.
    - assert (His : is_set (hd nullptr (tl (tl hs))) = true).
      { unfold is_set. apply negb_true_iff, Z.eqb_neq. auto. }
      rewrite His. reflexivity.
    - cbn [w_trace]. rewrite app_nil_r. reflexivity. }
  rewrite Hc. exec. cbn [app].
  rewrite Wait_countdown0, Wait_delivers_workdone.
  cbn [cb_buffer cb_bufferSize cb_output].
  destruct (passes kDebug (be_workdone_status be)) eqn:Hp1; cbn [andb].
  - rewrite Wait_countdown0, Wait_delivers_mapped by exact H3.
    cbn [cb_buffer cb_bufferSize cb_output].
    destruct (passes kDebug (be_map_status be)) eqn:Hp2;
      (eexists; split; [reflexivity|]; cbn [w_trace w_promise returned];
       split; [|reflexivity];
       rewrite <- !app_assoc; rewrite !pump_events_S; reflexivity).
  - eexists. split; [reflexivity|]. cbn [w_trace w_promise returned].
    split; [|reflexivity].
    rewrite <- !app_assoc. rewrite !pump_events_S. rewrite app_nil_r. reflexivity.
Qed.

Lemma guarded_app p q seen l1 l2 :
  guarded p q seen (l1 ++ l2)
  = guarded p q seen l1 && guarded p q (seen || existsb p l1) l2.
Proof.
  revert seen. induction l1 as [|e l1 IH]; intros seen; cbn [app guarded existsb].
  - rewrite orb_false_r. reflexivity.
  - rewrite IH, orb_assoc, andb_assoc. reflexivity.
Qed.

Lemma guarded_pumps p q seen instance n :
  p (EvProcessEvents instance) = false -> q (EvProcessEvents instance) = false ->
  guarded p q seen (pump_events instance n) = true.
Proof.
  intros Hp Hq. unfold pump_events.
  induction n as [|n IH]; cbn [replicate guarded]; [reflexivity|].
  rewrite Hp, Hq, orb_false_r. exact IH.
Qed.

Lemma existsb_pumps p instance n :
  p (EvProcessEvents instance) = false -> existsb p (pump_events instance n) = false.
Proof.
  intros Hp. unfold pump_events.
  induction n as [|n IH]; cbn [replicate existsb]; [reflexivity|].
  rewrite Hp. exact IH.
Qed.

(** Evaluation of [guarded] on the trace of [ToCPU]. *)
Ltac order :=
  unfold ToCPU_trace, ToCPU_stage1, ToCPU_stage2, ToCPU_stage3, check_events, passes;
  repeat match goal with
         | |- context [if ?b then _ else _] => destruct b eqn:?
         | |- context [negb ?b || _] => destruct b eqn:?
         end;
  cbn [negb orb app];
  repeat (progress
            (rewrite ?guarded_app, ?guarded_pumps, ?existsb_pumps by reflexivity;
             cbn [guarded existsb is_submit is_workdone is_workdone_success
                  is_map_request is_mapped is_mapped_success is_completion
                  is_asynchronous negb orb andb];
             repeat match goal with
                    | H : (_ =? _) = _ |- _ => rewrite H
                    end));
  try reflexivity; try discriminate.

Lemma ToCPU_trace_order be ctx tensor data bufferSize h0 h1 h2 h3 kDebug :
  let tr := ToCPU_trace kDebug be ctx tensor data bufferSize h0 h1 h2 h3 in
  guarded is_submit is_asynchronous false tr = true /\
  guarded is_workdone is_map_request false tr = true /\
  guarded is_mapped is_completion false tr = true /\
  (kDebug = true -> guarded is_workdone_success is_map_request false tr = true) /\
  (kDebug = true -> guarded is_mapped_success is_completion false tr = true).
Proof.
  cbv zeta. split; [|split; [|split; [|split]]].
  - order.
  - order.
  - order.
  - intros ->. order.
  - intros ->. order.
Qed.

(** What [guarded] means: an event that satisfies [q] has an event that
    satisfies [p] somewhere before it. *)
Lemma guarded_precedes p q tr :
  guarded p q false tr = true ->
  forall pre e post, tr = pre ++ e :: post -> q e = true ->
  exists e', In e' pre /\ p e' = true.
Proof.
  assert (Hgen : forall tr seen, guarded p q seen tr = true ->
            forall pre e post, tr = pre ++ e :: post -> q e = true ->
            seen = true \/ exists e', In e' pre /\ p e' = true).
  { clear tr. induction tr as [|x tr IH]; intros seen Hg pre e post Heq Hq.
    - destruct pre; discriminate Heq.
    - cbn [guarded] in Hg. apply andb_true_iff in Hg. destruct Hg as [Hx Hg].
      destruct pre as [|y pre]; cbn [app] in Heq; injection Heq as -> ->.
      + rewrite Hq in Hx. cbn in Hx. left. exact Hx.
      + destruct (IH _ Hg pre e post eq_refl Hq) as [Hs | (e' & Hin & Hp)].
        * apply orb_true_iff in Hs. destruct Hs as [Hs | Hs]; [left; exact Hs|].
          right. exists y. split; [left; reflexivity | exact Hs].
        * right. exists e'. split; [right; exact Hin | exact Hp]. }
  intros Hg pre e post Heq Hq.
  destruct (Hgen tr false Hg pre e post Heq Hq) as [Hs | H]; [discriminate Hs | exact H].
Qed.

(** C3, as amended: a call of [ToCPU] made when no callback is pending, on
    an API that delivers the work-done callback after finitely many calls of
    the event-processing function and then the map callback likewise. Its
    trace is stage 1 (the copy is encoded and submitted, the work-done
    callback is registered), then only calls of
    [wgpuInstanceProcessEvents], the last of which delivers the work-done
    callback, inside which the read-mapping is requested, then again only
    calls of [wgpuInstanceProcessEvents], the last of which delivers the map
    callback, inside which the destination is written, the buffer unmapped
    and the promise resolved; [Wait] stops pumping there. So the submission
    comes before every event of stages 2 and 3, the map request comes only
    after the work-done callback has been delivered, and the destination is
    written only after the map callback has been delivered. In a debug
    build the callback must moreover have reported success (on a failure
    status [check] ends the process, and nothing further happens); in a
    release build [check] does nothing, the chain goes on whatever the
    statuses, and the call returns with the promise resolved. *)
Theorem ToCPU_stages_in_order kDebug be fuel ctx tensor data bufferSize w :
  w_pending w = [] ->
  (kDebug = true -> handle_at w 2 <> nullptr) ->
  handle_at w 3 <> nullptr ->
  (be_workdone_delay be + be_map_delay be + 2 <= fuel)%nat ->
  exists w' tr,
    ToCPU kDebug be fuel ctx tensor data bufferSize w = (ToCPU_outcome kDebug be, w') /\
    w_trace w' = w_trace w ++ tr /\
    tr = ToCPU_stage1 kDebug ctx tensor bufferSize
                      (handle_at w 0) (handle_at w 1) (handle_at w 2) ++
         pump_events (Context_instance ctx) (S (be_workdone_delay be)) ++
         ToCPU_stage2 kDebug (be_workdone_status be) bufferSize (handle_at w 0) ++
         (if passes kDebug (be_workdone_status be) then
            pump_events (Context_instance ctx) (S (be_map_delay be)) ++
            ToCPU_stage3 kDebug (be_map_status be) data bufferSize
                         (handle_at w 0) (handle_at w 3)
          else []) /\
    w_promise w' = returned (ToCPU_outcome kDebug be) /\
    guarded is_submit is_asynchronous false tr = true /\
    guarded is_workdone is_map_request false tr = true /\
    guarded is_mapped is_completion false tr = true /\
    (kDebug = true ->
     guarded is_workdone_success is_map_request false tr = true /\
     guarded is_mapped_success is_completion false tr = true) /\
    (kDebug = false -> ToCPU_outcome kDebug be = Done tt).
Proof.
  intros Hp H2 H3 Hfuel.
  destruct (ToCPU_run kDebug be fuel ctx tensor data bufferSize w Hp H2 H3 Hfuel)
    as (w' & Hrun & Htr & Hpr).
  destruct (ToCPU_trace_order be ctx tensor data bufferSize
              (handle_at w 0) (handle_at w 1) (handle_at w 2) (handle_at w 3) kDebug)
    as (Ho1 & Ho2 & Ho3 & Ho4 & Ho5).
  exists w', (ToCPU_trace kDebug be ctx tensor data bufferSize
                (handle_at w 0) (handle_at w 1) (handle_at w 2) (handle_at w 3)).
  split; [exact Hrun|]. split; [exact Htr|]. split; [reflexivity|].
  split; [exact Hpr|]. split; [exact Ho1|]. split; [exact Ho2|]. split; [exact Ho3|].
  split; [intros Hd; split; auto|].
  intros ->. reflexivity.
Qed.

Lemma ToCPU_stages_in_order_witness :
  w_pending (World_init [21; 22; 23; 24]) = [] /\
  handle_at (World_init [21; 22; 23; 24]) 2 <> nullptr /\
  handle_at (World_init [21; 22; 23; 24]) 3 <> nullptr /\
  (be_workdone_delay be_sync + be_map_delay be_sync + 2 <= 2)%nat /\
  exists w',
    ToCPU true be_sync 2 ctx_example tensor_example 1000 16 (World_init [21; 22; 23; 24])
    = (Done tt, w') /\
    w_promise w' = true /\
    guarded is_workdone_success is_map_request false (w_trace w') = true /\
    guarded is_mapped_success is_completion false (w_trace w') = true.
Proof.
  assert (H2 : handle_at (World_init [21; 22; 23; 24]) 2 <> nullptr)
    by (vm_compute; congruence).
  assert (H3 : handle_at (World_init [21; 22; 23; 24]) 3 <> nullptr)
    by (vm_compute; congruence).
  assert (Hf : (be_workdone_delay be_sync + be_map_delay be_sync + 2 <= 2)%nat)
    by (vm_compute; lia).
  split; [reflexivity|]. split; [exact H2|]. split; [exact H3|]. split; [exact Hf|].
  destruct (ToCPU_stages_in_order true be_sync 2 ctx_example tensor_example 1000 16
              (World_init [21; 22; 23; 24]) eq_refl (fun _ => H2) H3 Hf)
    as (w' & tr & Hrun & Htr & _ & Hpr & _ & _ & _ & Hd & _).
  exists w'. split; [exact Hrun|]. split; [exact Hpr|].
  rewrite Htr. exact (Hd eq_refl).
Defined.

(** The claim of C3 as stated fails in a release build, where [check] does
    nothing: after a work-done callback that reports a failure (status 1)
    the read-mapping is requested all the same, and after a map callback
    that reports a failure the destination is written all the same. *)
Lemma ToCPU_release_ignores_failure_status :
  (exists w',
      ToCPU false be_workdone_failed 2 ctx_example tensor_example 1000 16
            (World_init [21; 22; 23; 24]) = (Done tt, w') /\
      List.filter (fun e => is_workdone e || is_map_request e) (w_trace w')
        = [EvWorkDoneCallback 1; EvBufferMapAsync 21 16] /\
      guarded is_workdone_success is_map_request false (w_trace w') = false) /\
  (exists w',
      ToCPU false be_map_failed 2 ctx_example tensor_example 1000 16
            (World_init [21; 22; 23; 24]) = (Done tt, w') /\
      List.filter (fun e => is_mapped e || is_completion e) (w_trace w')
        = [EvMapCallback 1; EvMemcpy 1000 24 16; EvBufferUnmap 21; EvPromiseSetValue] /\
      guarded is_mapped_success is_completion false (w_trace w') = false).
Proof.
  split; eexists; (split; [vm_compute; reflexivity|]); split; reflexivity.
Qed.

(** ** Shader templating *)

Lemma is_prefix_app p s : is_prefix p (p ++ s) = true.
Proof.
  induction p as [|a p IH]; [reflexivity|].
  cbn [app is_prefix]. rewrite Ascii.eqb_refl. exact IH.
Qed.

Lemma is_prefix_split p s : is_prefix p s = true -> s = p ++ drop (length p) s.
Proof.
  revert s. induction p as [|a p IH]; intros s H; [reflexivity|].
  destruct s as [|b s]; [discriminate H|].
  cbn [is_prefix] in H. apply andb_true_iff in H. destruct H as [Hab Hp].
  apply Ascii.eqb_eq in Hab. subst b.
  cbn [app length drop]. f_equal. apply IH. exact Hp.
Qed.

Lemma is_prefix_length p s : is_prefix p s = true -> (length p <= length s)%nat.
Proof.
  intros H. apply is_prefix_split in H.
  apply (f_equal (@length ascii)) in H. rewrite length_app in H. lia.
Qed.

Lemma replace_every_skip from to k s :
  replace_every from to k s = replace_every from to 0 (drop k s).
Proof.
  revert s. induction k as [|k IH]; intros s; [reflexivity|].
  destruct s as [|c s]; [reflexivity|].
  cbn [replace_every drop]. apply IH.
Qed.

Lemma replace_every_match from to s :
  from <> [] -> is_prefix from s = true ->
  replace_every from to 0 s = to ++ replace_every from to 0 (drop (length from) s).
Proof.
  intros Hne Hp. destruct s as [|c s].
  - destruct from; [congruence | discriminate Hp].
  - cbn [replace_every]. rewrite Hp. rewrite replace_every_skip.
    destruct from as [|a from]; [congruence|].
    replace (length (a :: from) - 1)%nat with (length from) by (cbn [length]; lia).
    reflexivity.
Qed.

Lemma replace_every_copy from to c s :
  is_prefix from (c :: s) = false ->
  replace_every from to 0 (c :: s) = c :: replace_every from to 0 s.
Proof. intros Hp. cbn [replace_every]. rewrite Hp. reflexivity. Qed.

Lemma find_aux_none from to s pos :
  find_aux from s pos = None -> replace_every from to 0 s = s.
Proof.
  revert pos. induction s as [|c s IH]; intros pos H; [reflexivity|].
  cbn [find_aux] in H. destruct (is_prefix from (c :: s)) eqn:Hp; [discriminate H|].
  rewrite replace_every_copy by exact Hp. f_equal. apply (IH (S pos)). exact H.
Qed.

Lemma find_aux_some from to s pos p :
  from <> [] -> find_aux from s pos = Some p ->
  exists k, p = (pos + k)%nat /\ (k + length from <= length s)%nat /\
            replace_every from to 0 s
            = take k s ++ to ++ replace_every from to 0 (drop (k + length from) s).
Proof.
  intros Hne. revert pos. induction s as [|c s IH]; intros pos H.
  - cbn [find_aux] in H. destruct (is_prefix from []) eqn:Hp; [|discriminate H].
    destruct from; [congruence | discriminate Hp].
  - cbn [find_aux] in H. destruct (is_prefix from (c :: s)) eqn:Hp.
    + injection H as <-. exists 0%nat. split; [lia|].
      split; [apply is_prefix_length in Hp; cbn [Nat.add]; exact Hp|].
      cbn [take app Nat.add]. apply replace_every_match; assumption.
    + destruct (IH (S pos) H) as (k & -> & Hlen & Heq).
      exists (S k). split; [lia|]. split; [cbn [length]; lia|].
      rewrite replace_every_copy by exact Hp. rewrite Heq. reflexivity.
Qed.

Lemma find_in_range str from start_pos :
  (start_pos <= length str)%nat ->
  find str from start_pos = find_aux from (drop start_pos str) start_pos.
Proof.
  intros H. unfold find.
  destruct (length str <? start_pos)%nat eqn:E; [|reflexivity].
  apply Nat.ltb_lt in E. lia.
Qed.

(** The loop of [ReplaceAll] leaves the text before [start_pos] as it is and
    replaces every occurrence after it; the fuel is enough as soon as it
    exceeds the number of characters still to be scanned. *)
Lemma ReplaceAll_loop_spec from to :
  from <> [] ->
  forall fuel str start_pos,
    (start_pos <= length str)%nat -> (length str - start_pos < fuel)%nat ->
    ReplaceAll_loop fuel str from to start_pos
    = Some (take start_pos str ++ replace_every from to 0 (drop start_pos str)).
Proof.
  intros Hne. assert (Hlen : (0 < length from)%nat) by (destruct from; [congruence | cbn; lia]).
  induction fuel as [|fuel IH]; intros str pos Hpos Hfuel; [lia|].
  cbn [ReplaceAll_loop]. rewrite find_in_range by exact Hpos.
  destruct (find_aux from (drop pos str) pos) as [p|] eqn:Hf.
  - destruct (find_aux_some from to _ _ _ Hne Hf) as (k & -> & Hk & Heq).
    rewrite length_drop in Hk.
    assert (Htake : take (pos + k + length to) (replace str (pos + k) (length from) to)
                    = take (pos + k) str ++ to).
    { unfold replace. rewrite app_assoc.
      apply take_app_length'. rewrite length_app, length_take_le by lia. reflexivity. }
    assert (Hdrop : drop (pos + k + length to) (replace str (pos + k) (length from) to)
                    = drop (pos + k + length from) str).
    { unfold replace. rewrite app_assoc.
      apply drop_app_length'. rewrite length_app, length_take_le by lia. reflexivity. }
    assert (Hl : length (replace str (pos + k) (length from) to)
                 = (pos + k + length to + (length str - (pos + k + length from)))%nat).
    { unfold replace. rewrite !length_app, length_take_le, length_drop by lia. lia. }
    rewrite IH by (rewrite Hl; lia).
    rewrite Htake, Hdrop, Heq. f_equal.
    rewrite drop_drop, <- take_take_drop, <- !app_assoc.
    f_equal. f_equal. f_equal. f_equal. f_equal. lia.
  - rewrite (find_aux_none from to _ _ Hf). rewrite take_drop. reflexivity.
Qed.

Lemma ReplaceAll_spec from to str :
  from <> [] -> ReplaceAll str from to = Some (replace_every from to 0 str).
Proof.
  intros Hne. unfold ReplaceAll.
  rewrite (ReplaceAll_loop_spec from to Hne) by lia. reflexivity.
Qed.

Lemma prefix_survives_replacement from to q :
  to <> [] -> (forall x, In x to -> ~ In x q) ->
  forall s, is_prefix q (replace_every from to 0 s) = true -> is_prefix q s = true.
Proof.
  intros Hto Hdis. revert Hdis.
  induction q as [|x q IHq]; intros Hdis s H; [reflexivity|].
  destruct s as [|c s]; [exact H|].
  cbn [replace_every] in H. destruct (is_prefix from (c :: s)) eqn:Hp.
  - exfalso. destruct to as [|t to]; [congruence|].
    cbn [app is_prefix] in H. apply andb_true_iff in H. destruct H as [Hxt _].
    apply Ascii.eqb_eq in Hxt. subst t.
    apply (Hdis x); left; reflexivity.
  - cbn [is_prefix] in *. apply andb_true_iff in H. destruct H as [Hxc Hq].
    rewrite Hxc. cbn [andb].
    clear Hp. revert s Hq.
    assert (Hdis' : forall y, In y to -> ~ In y q).
    { intros y Hy Hin. apply (Hdis y Hy). right. exact Hin. }
    specialize (IHq Hdis'). exact IHq.
Qed.

Lemma replace_every_through f from to a s :
  ~ In f a ->
  replace_every (f :: from) to 0 (a ++ s) = a ++ replace_every (f :: from) to 0 s.
Proof.
  induction a as [|c a IH]; intros Hnot; [reflexivity|].
  cbn [app]. rewrite replace_every_copy.
  - f_equal. apply IH. intros Hin. apply Hnot. right. exact Hin.
  - cbn [is_prefix]. destruct (Ascii.eqb f c) eqn:E; [|reflexivity].
    apply Ascii.eqb_eq in E. subst c. exfalso. apply Hnot. left. reflexivity.
Qed.

(** No occurrence of the workgroup-size token starts inside the precision
    token. *)
Lemma replace_every_over_precision to s :
  replace_every tok_workgroupSize to 0 (tok_precision ++ s)
  = tok_precision ++ replace_every tok_workgroupSize to 0 s.
Proof.
  unfold tok_precision. cbn [list_ascii_of_string app].
  repeat (rewrite replace_every_copy by reflexivity; f_equal).
Qed.

(** The two passes of [CreateShader], one after the other, against the
    substitution in one pass. *)
Lemma two_passes_substitute wg prec :
  wg <> [] -> (forall x, In x wg -> ~ In x tok_precision) ->
  forall s k,
    replace_every tok_precision prec 0 (replace_every tok_workgroupSize wg k s)
    = substitute_go wg prec k s.
Proof.
  intros Hne Hdis.
  assert (Hbrace : ~ In "{"%char wg).
  { intros Hin. apply (Hdis _ Hin). left. reflexivity. }
  induction s as [|c s IH]; intros k; [destruct k; reflexivity|].
  destruct k as [|k]; [|cbn [replace_every substitute_go]; apply IH].
  cbn [substitute_go].
  destruct (is_prefix tok_workgroupSize (c :: s)) eqn:Hw.
  - cbn [replace_every]. rewrite Hw.
    change tok_precision with ("{"%char :: list_ascii_of_string "{precision}}") at 1.
    rewrite replace_every_through by exact Hbrace.
    f_equal. apply IH.
  - destruct (is_prefix tok_precision (c :: s)) eqn:Hp.
    + rewrite <- IH.
      pose proof (is_prefix_split _ _ Hp) as Hs.
      rewrite Hs at 1. rewrite replace_every_over_precision.
      rewrite replace_every_match by (discriminate || apply is_prefix_app).
      rewrite drop_app_length. f_equal. f_equal.
      rewrite (replace_every_skip _ _ (length tok_precision - 1)). reflexivity.
    + rewrite replace_every_copy by exact Hw.
      rewrite replace_every_copy.
      * f_equal. apply IH.
      * destruct (is_prefix tok_precision (c :: replace_every tok_workgroupSize wg 0 s))
          eqn:E; [|reflexivity].
        rewrite <- (replace_every_copy tok_workgroupSize wg c s Hw) in E.
        apply prefix_survives_replacement in E; [congruence | exact Hne | exact Hdis].
Qed.

Lemma NilEmpty_chars d x :
  In x (list_ascii_of_string (NilEmpty.string_of_uint d)) -> shape_char x = true.
Proof.
  induction d; cbn [NilEmpty.string_of_uint list_ascii_of_string In];
    intros H; try contradiction; destruct H as [<- | H]; auto.
Qed.

Lemma to_string_chars n x : In x (to_string n) -> shape_char x = true.
Proof.
  unfold to_string, NilZero.string_of_uint.
  destruct (N.to_uint (Z.to_N n)) eqn:E; try apply NilEmpty_chars.
  cbn. intros [<- | []]. reflexivity.
Qed.

Lemma to_string_nonempty n : to_string n <> [].
Proof.
  unfold to_string, NilZero.string_of_uint.
  destruct (N.to_uint (Z.to_N n)); cbn; discriminate.
Qed.

Lemma ToString_Shape_fold_chars (get : nat -> Z) (r : nat) l acc :
  (forall x, In x acc -> shape_char x = true) ->
  forall x,
    In x (fold_left (fun str i =>
                       let str := str ++ to_string (get i) in
                       if (i <? r)%nat then str ++ list_ascii_of_string ", " else str)
                    l acc) ->
    shape_char x = true.
Proof.
  revert acc. induction l as [|i l IH]; intros acc Hacc x; cbn [fold_left]; [apply Hacc|].
  apply IH. clear x. intros x Hx.
  assert (Hbase : forall y, In y (acc ++ to_string (get i)) -> shape_char y = true).
  { intros y Hy. apply in_app_or in Hy. destruct Hy as [Hy | Hy];
      [apply Hacc; exact Hy | apply (to_string_chars _ _ Hy)]. }
  cbv zeta in Hx. destruct (i <? r)%nat; [|apply Hbase; exact Hx].
  apply in_app_or in Hx. destruct Hx as [Hx | Hx]; [apply Hbase; exact Hx|].
  cbn in Hx. destruct Hx as [<- | [<- | []]]; reflexivity.
Qed.

Lemma ToString_Shape_fold_nonempty (get : nat -> Z) (r : nat) l acc :
  acc <> [] ->
  fold_left (fun str i =>
               let str := str ++ to_string (get i) in
               if (i <? r)%nat then str ++ list_ascii_of_string ", " else str)
            l acc <> [].
Proof.
  revert acc. induction l as [|i l IH]; intros acc Hacc; cbn [fold_left]; [exact Hacc|].
  apply IH. cbv zeta. destruct acc as [|a acc]; [congruence|].
  destruct (i <? r)%nat; cbn [app]; discriminate.
Qed.

Lemma ToString_Shape_chars shape x :
  In x (ToString_Shape shape) -> shape_char x = true.
Proof.
  unfold ToString_Shape. apply ToString_Shape_fold_chars. intros y [].
Qed.

Lemma ToString_Shape_nonempty shape :
  Shape_rank shape <> 0%nat -> ToString_Shape shape <> [].
Proof.
  unfold ToString_Shape. destruct (Shape_rank shape) as [|n]; [congruence|]. intros _.
  cbn [seq fold_left]. apply ToString_Shape_fold_nonempty.
  pose proof (to_string_nonempty (Shape_get shape 0)) as Hne.
  cbv zeta. destruct (to_string (Shape_get shape 0)); [congruence|].
  destruct (0 <? S n - 1)%nat; cbn [app]; discriminate.
Qed.

Lemma shape_char_not_in_precision x :
  shape_char x = true -> ~ In x tok_precision.
Proof.
  intros Hc Hin. unfold tok_precision in Hin. cbn [list_ascii_of_string In] in Hin.
  repeat (destruct Hin as [<- | Hin]; [discriminate Hc|]). exact Hin.
Qed.

Lemma CreateShader_run template workgroupSize precision w :
  Shape_rank workgroupSize <> 0%nat ->
  exists w',
    CreateShader template workgroupSize precision w =
    (Done (mkShaderCode (substitute_spec (ToString_Shape workgroupSize)
                                         (NumType_text precision) template)
                        workgroupSize kf32), w').
Proof.
  intros Hrank. destruct w as [tr hs ps pr].
  unfold CreateShader, ToString_NumType, NumType_text, substitute_spec.
  rewrite ReplaceAll_spec by discriminate.
  exec.
  destruct (precision =? kf32); exec;
    rewrite ReplaceAll_spec by discriminate; exec;
    rewrite two_passes_substitute;
    try (eexists; reflexivity).
  all: first [ apply ToString_Shape_nonempty; exact Hrank
             | intros x Hx; apply shape_char_not_in_precision;
               apply (ToString_Shape_chars _ _ Hx) ].
Qed.

Lemma substitute_go_skip wg prec k s :
  substitute_go wg prec k s = substitute_go wg prec 0 (drop k s).
Proof.
  revert s. induction k as [|k IH]; intros s; [reflexivity|].
  destruct s as [|c s]; [reflexivity|]. cbn [substitute_go drop]. apply IH.
Qed.

Lemma substitute_go_workgroupSize wg prec s :
  is_prefix tok_workgroupSize s = true ->
  substitute_go wg prec 0 s
  = wg ++ substitute_go wg prec 0 (drop (length tok_workgroupSize) s).
Proof.
  intros H. destruct s as [|c s]; [discriminate H|].
  cbn [substitute_go]. rewrite H. rewrite substitute_go_skip. reflexivity.
Qed.

Lemma substitute_go_precision wg prec s :
  is_prefix tok_workgroupSize s = false ->
  is_prefix tok_precision s = true ->
  substitute_go wg prec 0 s
  = prec ++ substitute_go wg prec 0 (drop (length tok_precision) s).
Proof.
  intros Hw H. destruct s as [|c s]; [discriminate H|].
  cbn [substitute_go]. rewrite Hw, H. rewrite substitute_go_skip. reflexivity.
Qed.

Lemma workgroupSize_not_at_precision rest :
  is_prefix tok_workgroupSize (tok_precision ++ rest) = false.
Proof. reflexivity. Qed.

Lemma substitute_spec_workgroupSize wg prec rest :
  substitute_spec wg prec (tok_workgroupSize ++ rest) = wg ++ substitute_spec wg prec rest.
Proof.
  unfold substitute_spec.
  rewrite substitute_go_workgroupSize by apply is_prefix_app.
  rewrite drop_app_length. reflexivity.
Qed.

Lemma substitute_spec_precision wg prec rest :
  substitute_spec wg prec (tok_precision ++ rest) = prec ++ substitute_spec wg prec rest.
Proof.
  unfold substitute_spec.
  rewrite substitute_go_precision
    by (apply workgroupSize_not_at_precision || apply is_prefix_app).
  rewrite drop_app_length. reflexivity.
Qed.

Lemma substitute_spec_copy wg prec c rest :
  is_prefix tok_workgroupSize (c :: rest) = false ->
  is_prefix tok_precision (c :: rest) = false ->
  substitute_spec wg prec (c :: rest) = c :: substitute_spec wg prec rest.
Proof.
  intros Hw Hp. unfold substitute_spec. cbn [substitute_go]. rewrite Hw, Hp. reflexivity.
Qed.

(** C9, as amended: for every template and every workgroup Shape of non-zero
    rank (a workgroup Shape has rank 3), [CreateShader] returns, and its text is the
    template in which every occurrence of the workgroup-size token is
    replaced by the text of the Shape, every occurrence of the precision
    token by the text of the precision, and every other character is
    copied: the text is [substitute_spec], which is characterised by the
    four equations that follow (a token at the head is replaced by its
    text, a character at which no token starts is copied, the empty text is
    left empty). *)
Theorem CreateShader_substitutes_every_occurrence :
  (forall template workgroupSize precision w,
      Shape_rank workgroupSize <> 0%nat ->
      exists w',
        CreateShader template workgroupSize precision w =
        (Done (mkShaderCode (substitute_spec (ToString_Shape workgroupSize)
                                             (NumType_text precision) template)
                            workgroupSize kf32), w')) /\
  (forall wg prec rest,
      substitute_spec wg prec (tok_workgroupSize ++ rest)
      = wg ++ substitute_spec wg prec rest) /\
  (forall wg prec rest,
      substitute_spec wg prec (tok_precision ++ rest)
      = prec ++ substitute_spec wg prec rest) /\
  (forall wg prec c rest,
      is_prefix tok_workgroupSize (c :: rest) = false ->
      is_prefix tok_precision (c :: rest) = false ->
      substitute_spec wg prec (c :: rest) = c :: substitute_spec wg prec rest) /\
  (forall wg prec, substitute_spec wg prec [] = []).
Proof.
  split; [exact CreateShader_run|].
  split; [exact substitute_spec_workgroupSize|].
  split; [exact substitute_spec_precision|].
  split; [exact substitute_spec_copy|].
  reflexivity.
Qed.

Lemma CreateShader_substitutes_every_occurrence_witness :
  Shape_rank (Shape_init [256; 1; 1]) <> 0%nat /\
  exists w',
    CreateShader
      (list_ascii_of_string "a {{workgroupSize}} b {{precision}} c {{workgroupSize}}")
      (Shape_init [256; 1; 1]) kf32 (World_init [])
    = (Done (mkShaderCode (list_ascii_of_string "a 256, 1, 1 b f32 c 256, 1, 1")
                          (Shape_init [256; 1; 1]) kf32), w').
Proof.
  assert (Hr : Shape_rank (Shape_init [256; 1; 1]) <> 0%nat) by (cbn; lia).
  split; [exact Hr|].
  destruct (proj1 CreateShader_substitutes_every_occurrence
              (list_ascii_of_string
                 "a {{workgroupSize}} b {{precision}} c {{workgroupSize}}")
              (Shape_init [256; 1; 1]) kf32 (World_init []) Hr) as [w' Hrun].
  exists w'. rewrite Hrun. reflexivity.
Defined.

(** The claim of C9 as stated fails for a Shape of rank 0, which
    [CreateShader] accepts: its text is empty, so that removing the
    workgroup-size token brings the two halves of a precision token together,
    and the second pass replaces a token that the template does not contain.
    The substitution of the claim leaves that text alone. *)
Lemma CreateShader_rank_0_joins_text :
  exists code w',
    CreateShader (list_ascii_of_string "{{prec{{workgroupSize}}ision}}")
                 (Shape_init []) kf32 (World_init []) = (Done code, w') /\
    ToString_Shape (Shape_init []) = [] /\
    ShaderCode_data code = list_ascii_of_string "f32" /\
    substitute_spec (ToString_Shape (Shape_init [])) (NumType_text kf32)
                    (list_ascii_of_string "{{prec{{workgroupSize}}ision}}")
      = list_ascii_of_string "{{precision}}" /\
    ShaderCode_data code <>
      substitute_spec (ToString_Shape (Shape_init [])) (NumType_text kf32)
                      (list_ascii_of_string "{{prec{{workgroupSize}}ision}}").
Proof.
  eexists _, _. split; [vm_compute; reflexivity|].
  split; [reflexivity|]. split; [reflexivity|]. split; [vm_compute; reflexivity|].
  vm_compute. discriminate.
Qed.

(** * Further properties *)

(** ** The tensor pool as a whole *)

Lemma CreateTensor_keeps_keyed pool device shape dtype usage w t pool' w' :
  pool_keyed pool ->
  CreateTensor pool device shape dtype usage w = (Done (t, pool'), w') ->
  pool_keyed pool'.
Proof.
  intros Hk Hrun. rewrite CreateTensor_run in Hrun. injection Hrun as <- <- _.
  intros k t' Hl. cbn [TensorPool_data] in Hl.
  destruct (decide (k = handle_at w 0)) as [->|Hne].
  - rewrite lookup_insert_eq in Hl. injection Hl as <-. reflexivity.
  - rewrite lookup_insert_ne in Hl by congruence. apply (Hk _ _ Hl).
Qed.

Lemma FreeTensor_keeps_keyed pool tensor w pool' w' :
  pool_keyed pool ->
  FreeTensor pool tensor w = (Done pool', w') ->
  pool_keyed pool'.
Proof.
  intros Hk Hrun. rewrite FreeTensor_run in Hrun. injection Hrun as <- _.
  intros k t Hl. cbn [TensorPool_data] in Hl.
  apply lookup_delete_Some in Hl. destruct Hl as [_ Hl]. apply (Hk _ _ Hl).
Qed.

(** X1: The pool's invariant: [CreateTensor] and [FreeTensor] keep every entry
    stored under the handle of its own buffer, and the empty pool of a new
    Context has the property. *)
Theorem pool_stays_keyed :
  pool_keyed (mkPool ∅) /\
  (forall pool device shape dtype usage w t pool' w',
      pool_keyed pool ->
      CreateTensor pool device shape dtype usage w = (Done (t, pool'), w') ->
      pool_keyed pool') /\
  (forall pool tensor w pool' w',
      pool_keyed pool ->
      FreeTensor pool tensor w = (Done pool', w') ->
      pool_keyed pool').
Proof.
  split; [|split].
  - intros k t H. cbn in H. rewrite lookup_empty in H. discriminate H.
  - exact CreateTensor_keeps_keyed.
  - exact FreeTensor_keeps_keyed.
Qed.

Lemma pool_stays_keyed_witness :
  pool_keyed (mkPool ∅) /\
  exists t pool' w',
    CreateTensor (mkPool ∅) 1 (Shape_init [2; 3]) kf32 default_usage
                 (World_init [101; 102]) = (Done (t, pool'), w') /\
    pool_keyed pool' /\
    exists pool'' w'',
      FreeTensor pool' t w' = (Done pool'', w'') /\ pool_keyed pool''.
Proof.
  destruct pool_stays_keyed as (H0 & Hc & Hf).
  split; [exact H0|].
  destruct (CreateTensor (mkPool ∅) 1 (Shape_init [2; 3]) kf32 default_usage
                         (World_init [101; 102])) as [[[t pool']| | | |] w'] eqn:E;
    try (rewrite CreateTensor_run in E; discriminate E).
  exists t, pool', w'. split; [reflexivity|].
  assert (Hk : pool_keyed pool') by (eapply Hc; [exact H0 | exact E]).
  split; [exact Hk|].
  destruct (FreeTensor pool' t w') as [[pool''| | | |] w''] eqn:E2;
    try (rewrite FreeTensor_run in E2; discriminate E2).
  exists pool'', w''. split; [reflexivity|].
  eapply Hf; [exact Hk | exact E2].
Defined.

Lemma released_buffers_app tr1 tr2 :
  released_buffers (tr1 ++ tr2) = released_buffers tr1 ++ released_buffers tr2.
Proof. apply omap_app. Qed.

Lemma warnings_app tr1 tr2 : warnings (tr1 ++ tr2) = warnings tr1 ++ warnings tr2.
Proof. apply omap_app. Qed.

(** X2: Creating a tensor and freeing it at once: with a buffer handle that is
    non-null and not yet a key, the pool is back to what it was and no
    warning is logged; of the two buffers created, the one registered is
    released and the other is not. *)
Theorem CreateTensor_then_FreeTensor pool device shape dtype usage w :
  TensorPool_data pool !! handle_at w 0 = None ->
  handle_at w 0 <> nullptr ->
  exists t pool1 w1 w2 evs,
    CreateTensor pool device shape dtype usage w = (Done (t, pool1), w1) /\
    FreeTensor pool1 t w1 = (Done pool, w2) /\
    w_trace w2 = w_trace w ++ evs /\
    created_buffers evs = [handle_at w 0; handle_at w 1] /\
    released_buffers evs = [handle_at w 0] /\
    warnings evs = [].
Proof.
  intros Hnone Hnn. destruct pool as [m]. cbn [TensorPool_data] in Hnone.
  eexists _, _, _, _, _. split; [apply CreateTensor_run|].
  rewrite FreeTensor_run.
  cbn [Tensor_data Array_buffer TensorPool_data w_trace w_handles w_pending w_promise].
  rewrite lookup_insert_eq, delete_insert_eq, (delete_id m _ Hnone).
  apply Z.eqb_neq in Hnn. rewrite Hnn.
  split; [reflexivity|]. split; [rewrite <- app_assoc; reflexivity|].
  split; [reflexivity|]. split; reflexivity.
Qed.

Lemma CreateTensor_then_FreeTensor_witness :
  TensorPool_data (mkPool {[5 := Tensor_default]})
    !! handle_at (World_init [101; 102]) 0 = None /\
  handle_at (World_init [101; 102]) 0 <> nullptr /\
  exists t pool1 w1 w2,
    CreateTensor (mkPool {[5 := Tensor_default]}) 1 (Shape_init [2; 3]) kf32
                 default_usage (World_init [101; 102]) = (Done (t, pool1), w1) /\
    FreeTensor pool1 t w1 = (Done (mkPool {[5 := Tensor_default]}), w2) /\
    released_buffers (w_trace w2) = [101].
Proof.
  assert (H1 : TensorPool_data (mkPool {[5 := Tensor_default]})
                 !! handle_at (World_init [101; 102]) 0 = None) by reflexivity.
  assert (H2 : handle_at (World_init [101; 102]) 0 <> nullptr)
    by (vm_compute; congruence).
  split; [exact H1|]. split; [exact H2|].
  destruct (CreateTensor_then_FreeTensor (mkPool {[5 := Tensor_default]}) 1
              (Shape_init [2; 3]) kf32 default_usage (World_init [101; 102]) H1 H2)
    as (t & pool1 & w1 & w2 & evs & Hc & Hf & Htr & _ & Hrel & _).
  exists t, pool1, w1, w2. split; [exact Hc|]. split; [exact Hf|].
  rewrite Htr. exact Hrel.
Defined.

(** X3: Freeing the same tensor twice: the second call finds no entry and logs
    the warning, and releases the buffer a second time all the same. *)
Theorem FreeTensor_twice_releases_twice pool tensor w :
  Array_buffer (Tensor_data tensor) <> nullptr ->
  is_Some (TensorPool_data pool !! Array_buffer (Tensor_data tensor)) ->
  exists pool1 w1 w2 evs,
    FreeTensor pool tensor w = (Done pool1, w1) /\
    FreeTensor pool1 tensor w1 = (Done pool1, w2) /\
    TensorPool_data pool1
      = delete (Array_buffer (Tensor_data tensor)) (TensorPool_data pool) /\
    w_trace w2 = w_trace w ++ evs /\
    released_buffers evs
      = [Array_buffer (Tensor_data tensor); Array_buffer (Tensor_data tensor)] /\
    warnings evs = [not_in_pool_warning].
Proof.
  intros Hnn [t Ht]. apply Z.eqb_neq in Hnn.
  eexists _, _, _, _. split; [apply FreeTensor_run|].
  rewrite FreeTensor_run.
  cbn [TensorPool_data w_trace w_handles w_pending w_promise].
  rewrite Ht, Hnn, lookup_delete_eq, delete_id by apply lookup_delete_eq.
  split; [reflexivity|]. split; [reflexivity|].
  split; [rewrite <- app_assoc; reflexivity|]. split; reflexivity.
Qed.

Lemma FreeTensor_twice_releases_twice_witness :
  Array_buffer (Tensor_data (mkTensor (mkArray 7 0 0) Shape_default)) <> nullptr /\
  is_Some (TensorPool_data (mkPool {[7 := mkTensor (mkArray 7 0 0) Shape_default]})
             !! Array_buffer (Tensor_data (mkTensor (mkArray 7 0 0) Shape_default))) /\
  exists pool1 w1 w2,
    FreeTensor (mkPool {[7 := mkTensor (mkArray 7 0 0) Shape_default]})
               (mkTensor (mkArray 7 0 0) Shape_default) (World_init [])
      = (Done pool1, w1) /\
    FreeTensor pool1 (mkTensor (mkArray 7 0 0) Shape_default) w1 = (Done pool1, w2) /\
    released_buffers (w_trace w2) = [7; 7].
Proof.
  assert (H1 : Array_buffer (Tensor_data (mkTensor (mkArray 7 0 0) Shape_default))
               <> nullptr) by (vm_compute; congruence).
  assert (H2 : is_Some (TensorPool_data
                          (mkPool {[7 := mkTensor (mkArray 7 0 0) Shape_default]})
                          !! Array_buffer
                               (Tensor_data (mkTensor (mkArray 7 0 0) Shape_default))))
    by (eexists; reflexivity).
  split; [exact H1|]. split; [exact H2|].
  destruct (FreeTensor_twice_releases_twice _ _ (World_init []) H1 H2)
    as (pool1 & w1 & w2 & evs & Hf1 & Hf2 & _ & Htr & Hrel & _).
  exists pool1, w1, w2. split; [exact Hf1|]. split; [exact Hf2|].
  rewrite Htr. exact Hrel.
Defined.

Lemma free_keys_run keys : forall pool w,
  NoDup keys ->
  (forall k, k ∈ keys -> is_Some (TensorPool_data pool !! k)) ->
  pool_keyed pool ->
  exists pool' evs,
    free_keys keys pool w =
      (Done pool', mkWorld (w_trace w ++ evs) (w_handles w) (w_pending w) (w_promise w)) /\
    (forall k, TensorPool_data pool' !! k
               = if decide (k ∈ keys) then None else TensorPool_data pool !! k) /\
    (released_buffers evs = List.filter nonnull keys /\
     warnings evs = (if decide (nullptr ∈ keys) then [null_buffer_warning] else [])) /\
    created_buffers evs = [] /\ pumps evs = 0%nat.
Proof.
  induction keys as [|key keys IH]; intros pool w Hnd Hin Hkeyed.
  - exists pool, []. cbn [free_keys]. destruct w; cbn. rewrite app_nil_r.
    split; [reflexivity|]. split; [intros k; reflexivity|].
    split; [split|split]; reflexivity.
  - apply NoDup_cons in Hnd. destruct Hnd as [Hnotin Hnd].
    destruct (Hin key ltac:(left)) as [t Ht].
    assert (Hb : Array_buffer (Tensor_data t) = key) by (apply (Hkeyed _ _ Ht)).
    cbn [free_keys]. unfold pool_index. rewrite Ht. cbn [fst snd].
    unfold mbind at 1, M_bind at 1. rewrite FreeTensor_run. rewrite Hb, Ht.
    unfold mbind at 1, M_bind at 1, log, emit.
    cbn [w_trace w_handles w_pending w_promise].
    set (pool1 := mkPool (delete key (TensorPool_data pool))).
    set (w1 := mkWorld _ _ _ _).
    destruct (IH pool1 w1 Hnd)
      as (pool' & evs & Hrun & Hlook & [Hrel Hwarn] & Hcre & Hpum).
    { intros k Hk. cbn [pool1 TensorPool_data].
      rewrite lookup_delete_ne by (intros ->; contradiction). apply Hin. right. exact Hk. }
    { intros k t' Hl. cbn [pool1 TensorPool_data] in Hl.
      apply lookup_delete_Some in Hl. destruct Hl as [_ Hl]. apply (Hkeyed _ _ Hl). }
    exists pool', (([if key =? nullptr then EvLog kWarn null_buffer_warning
                     else EvBufferRelease key] ++ []) ++
                   [EvLog kTrace "Freed tensor"] ++ evs).
    split.
    { rewrite Hrun. subst w1. cbn [w_trace w_handles w_pending w_promise].
      rewrite <- !app_assoc. reflexivity. }
    split.
    { intros k. rewrite Hlook. cbn [pool1 TensorPool_data].
      destruct (decide (k = key)) as [->|Hne].
      - rewrite decide_False by exact Hnotin.
        rewrite decide_True by (left). apply lookup_delete_eq.
      - rewrite lookup_delete_ne by congruence.
        destruct (decide (k ∈ keys)) as [Hk|Hk].
        + rewrite decide_True by (right; exact Hk). reflexivity.
        + rewrite decide_False; [reflexivity|].
          intros Hk'. apply elem_of_cons in Hk'. destruct Hk'; contradiction. }
    split;
      [|rewrite !created_buffers_app, !pumps_app, Hcre, Hpum;
        destruct (key =? nullptr); split; reflexivity].
    rewrite !released_buffers_app, !warnings_app, Hrel, Hwarn.
    cbn [List.filter].
    replace (nonnull key) with (negb (key =? nullptr)) by reflexivity.
    destruct (key =? nullptr) eqn:Ez; cbn [negb].
    + apply Z.eqb_eq in Ez.
      assert (Hnot0 : nullptr ∉ keys) by (rewrite <- Ez; exact Hnotin).
      assert (Hin0 : nullptr ∈ key :: keys) by (rewrite Ez; left).
      rewrite decide_False by exact Hnot0. rewrite decide_True by exact Hin0.
      split; reflexivity.
    + apply Z.eqb_neq in Ez. split; [reflexivity|].
      cbn [app]. destruct (decide (nullptr ∈ keys)) as [Hk|Hk].
      * rewrite decide_True by (right; exact Hk). reflexivity.
      * rewrite decide_False; [reflexivity|].
        intros Hk'. apply elem_of_cons in Hk'. destruct Hk' as [Hk'|Hk']; [|contradiction].
        congruence.
Qed.

Lemma elem_of_pool_keys pool k :
  k ∈ pool_keys pool <-> is_Some (TensorPool_data pool !! k).
Proof.
  unfold pool_keys. rewrite list_elem_of_fmap. split.
  - intros ([k' t] & -> & Hin). apply elem_of_map_to_list in Hin. eauto.
  - intros [t Ht]. exists (k, t). split; [reflexivity|].
    apply elem_of_map_to_list. exact Ht.
Qed.

Lemma TensorPool_destroy_run pool w :
  pool_keyed pool ->
  exists evs,
    TensorPool_destroy pool w =
      (Done (mkPool ∅),
       mkWorld (w_trace w ++ evs) (w_handles w) (w_pending w) (w_promise w)) /\
    released_buffers evs = List.filter nonnull (pool_keys pool) /\
    NoDup (pool_keys pool) /\
    (forall k, k ∈ pool_keys pool <-> is_Some (TensorPool_data pool !! k)) /\
    warnings evs =
      (if decide (nullptr ∈ pool_keys pool) then [null_buffer_warning] else []) /\
    created_buffers evs = [] /\ pumps evs = 0%nat.
Proof.
  intros Hk. unfold TensorPool_destroy.
  assert (Hnd : NoDup (pool_keys pool)) by apply NoDup_fst_map_to_list.
  destruct (free_keys_run (pool_keys pool) pool w Hnd)
    as (pool' & evs & Hrun & Hl & [Hr Hw] & Hc).
  { intros k Hin. apply elem_of_pool_keys. exact Hin. }
  { exact Hk. }
  exists evs.
  assert (Hempty : pool' = mkPool ∅).
  { destruct pool' as [m']. f_equal. apply map_eq. intros k.
    specialize (Hl k). cbn [TensorPool_data] in Hl. rewrite Hl, lookup_empty.
    destruct (decide (k ∈ pool_keys pool)) as [|Hn]; [reflexivity|].
    destruct (TensorPool_data pool !! k) eqn:E; [|reflexivity].
    exfalso. apply Hn. apply elem_of_pool_keys. eauto. }
  rewrite Hrun, Hempty.
  split; [reflexivity|]. split; [exact Hr|]. split; [exact Hnd|].
  split; [exact (elem_of_pool_keys pool)|]. split; [exact Hw | exact Hc].
Qed.

(** X4: The destructor of the pool: when every entry is stored under the handle
    of its own buffer (as [CreateTensor] and [FreeTensor] keep it), the
    destructor returns with the pool empty, releases every registered
    non-null buffer exactly once and nothing else, creates nothing, and logs
    a warning only for an entry whose handle is null; it never logs that a
    tensor was not in the pool. *)
Theorem TensorPool_destroy_frees_every_tensor pool w :
  pool_keyed pool ->
  exists evs,
    TensorPool_destroy pool w =
      (Done (mkPool ∅),
       mkWorld (w_trace w ++ evs) (w_handles w) (w_pending w) (w_promise w)) /\
    released_buffers evs = List.filter nonnull (pool_keys pool) /\
    created_buffers evs = [] /\
    NoDup (pool_keys pool) /\
    (forall k, k ∈ pool_keys pool <-> is_Some (TensorPool_data pool !! k)) /\
    warnings evs =
      (if decide (nullptr ∈ pool_keys pool) then [null_buffer_warning] else []).
Proof.
  intros Hk. destruct (TensorPool_destroy_run pool w Hk)
    as (evs & Hrun & Hr & Hnd & Hel & Hw & Hc & _).
  exists evs. split; [exact Hrun|]. split; [exact Hr|]. split; [exact Hc|].
  split; [exact Hnd|]. split; [exact Hel | exact Hw].
Qed.

Lemma TensorPool_destroy_frees_every_tensor_witness :
  pool_keyed (mkPool {[7 := mkTensor (mkArray 7 0 0) Shape_default]}) /\
  exists w',
    TensorPool_destroy (mkPool {[7 := mkTensor (mkArray 7 0 0) Shape_default]})
                       (World_init []) = (Done (mkPool ∅), w') /\
    released_buffers (w_trace w') = [7].
Proof.
  assert (Hk : pool_keyed (mkPool {[7 := mkTensor (mkArray 7 0 0) Shape_default]})).
  { intros k t Hl. cbn [TensorPool_data] in Hl.
    apply lookup_singleton_Some in Hl. destruct Hl as [<- <-]. reflexivity. }
  split; [exact Hk|].
  destruct (TensorPool_destroy_frees_every_tensor _ (World_init []) Hk)
    as (evs & Hrun & Hrel & _).
  eexists. split; [exact Hrun|]. cbn [w_trace World_init app].
  rewrite Hrel. reflexivity.
Defined.

(** ** Shape *)

Lemma Shape_get_init ds i :
  (i < length ds)%nat -> Shape_get (Shape_init ds) i = nth i ds 0.
Proof. intros H. unfold Shape_get, Shape_init. cbn. apply app_nth1. exact H. Qed.

Lemma nth_replicate_default {A} (x : A) n i : nth i (replicate n x) x = x.
Proof.
  revert i. induction n as [|n IH]; intros [|i]; cbn [replicate nth]; auto.
Qed.

Lemma Shape_get_init_padding ds i :
  (length ds <= i)%nat -> Shape_get (Shape_init ds) i = 0.
Proof.
  intros H. unfold Shape_get, Shape_init. cbn [Shape_data].
  rewrite app_nth2 by exact H. apply nth_replicate_default.
Qed.

(** X5: A Shape built from at most [kMaxRank] dimensions has these dimensions;
    [operator[]] returns the dimension at an index below the rank; at an
    index that is not below the rank the debug build stops at the assertion,
    and the release build, as long as the index is inside the array, reads
    the zero the array was filled with. *)
Theorem Shape_index_bounds :
  (forall ds, (length ds <= kMaxRank)%nat ->
              Shape_rank (Shape_init ds) = length ds /\
              length (Shape_data (Shape_init ds)) = kMaxRank /\
              dims (Shape_init ds) = ds) /\
  (forall kDebug ds i w,
      (length ds <= kMaxRank)%nat -> (i < length ds)%nat ->
      Shape_index kDebug (Shape_init ds) i w = (Done (nth i ds 0), w)) /\
  (forall s i w,
      (Shape_rank s <= i)%nat -> Shape_index true s i w = (AssertFailed, w)) /\
  (forall ds i w,
      (length ds <= i)%nat -> (i < kMaxRank)%nat ->
      Shape_index false (Shape_init ds) i w = (Done 0, w)).
Proof.
  split; [|split; [|split]].
  - intros ds Hlen. split; [reflexivity|]. split.
    + unfold Shape_init. cbn [Shape_data]. rewrite length_app, length_replicate. lia.
    + apply dims_Shape_init. exact Hlen.
  - intros kDebug ds i w _ Hi. unfold Shape_index. exec.
    assert (Hlt : (i <? Shape_rank (Shape_init ds))%nat = true)
      by (apply Nat.ltb_lt; exact Hi).
    rewrite Hlt. destruct kDebug; exec; rewrite Shape_get_init by exact Hi; reflexivity.
  - intros s i w Hi. unfold Shape_index. exec.
    assert (Hge : (i <? Shape_rank s)%nat = false) by (apply Nat.ltb_ge; exact Hi).
    rewrite Hge. reflexivity.
  - intros ds i w Hi _. unfold Shape_index. exec.
    rewrite Shape_get_init_padding by exact Hi. reflexivity.
Qed.

Lemma Shape_index_bounds_witness :
  (length dims_example <= kMaxRank)%nat /\
  dims (Shape_init dims_example) = dims_example /\
  (1 < length dims_example)%nat /\
  Shape_index true (Shape_init dims_example) 1 (World_init []) = (Done 3, World_init []) /\
  (Shape_rank (Shape_init dims_example) <= 5)%nat /\
  (5 < kMaxRank)%nat /\
  Shape_index true (Shape_init dims_example) 5 (World_init []) = (AssertFailed, World_init []) /\
  Shape_index false (Shape_init dims_example) 5 (World_init []) = (Done 0, World_init []).
Proof.
  destruct Shape_index_bounds as (H1 & H2 & H3 & H4).
  assert (Hl : (length dims_example <= kMaxRank)%nat) by (vm_compute; lia).
  assert (Hi : (1 < length dims_example)%nat) by (vm_compute; lia).
  assert (Hr : (Shape_rank (Shape_init dims_example) <= 5)%nat) by (vm_compute; lia).
  split; [exact Hl|]. split; [apply (H1 _ Hl)|]. split; [exact Hi|].
  assert (H5 : (5 < kMaxRank)%nat) by (vm_compute; lia).
  split; [apply (H2 true dims_example 1%nat _ Hl Hi)|]. split; [exact Hr|].
  split; [exact H5|].
  split; [apply (H3 _ _ _ Hr)|]. apply H4; [vm_compute; lia | exact H5].
Defined.

Lemma product_zero l : In 0 l -> product l = 0.
Proof.
  induction l as [|x l IH]; intros H; [contradiction|].
  cbn [product fold_right]. destruct H as [-> | H]; [reflexivity|].
  fold (product l). rewrite (IH H). lia.
Qed.

(** X6: A shape with a dimension equal to 0 has no element, and [CreateTensor]
    gives it a buffer of 0 bytes, whatever the numeric kind. *)
Theorem zero_dimension_gives_empty_tensor S :
  Shape_wf S ->
  In 0 (dims S) ->
  size S = 0 /\
  forall pool device dtype usage w, exists t pool' w',
    CreateTensor pool device S dtype usage w = (Done (t, pool'), w') /\
    Array_size (Tensor_data t) = 0 /\
    In (EvCreateBuffer usage 0 (Array_buffer (Tensor_data t))) (w_trace w').
Proof.
  intros _ H0.
  assert (Hs : size S = 0).
  { rewrite size_is_product_mod, (product_zero _ H0). reflexivity. }
  split; [exact Hs|].
  intros pool device dtype usage w. eexists _, _, _.
  split; [apply CreateTensor_run|].
  cbn [Tensor_data Array_size Array_buffer w_trace]. rewrite Hs.
  assert (Hz : (if dtype =? kf32 then wrap (sizeof_float * 0) else 0) = 0)
    by (destruct (dtype =? kf32); reflexivity).
  rewrite Hz. split; [reflexivity|].
  apply in_or_app. right. right. left. reflexivity.
Qed.

Lemma zero_dimension_gives_empty_tensor_witness :
  Shape_wf (Shape_init [4; 0; 2]) /\
  In 0 (dims (Shape_init [4; 0; 2])) /\ size (Shape_init [4; 0; 2]) = 0.
Proof.
  assert (Hwf : Shape_wf (Shape_init [4; 0; 2])).
  { split; [reflexivity|]. split; [vm_compute; lia|].
    repeat constructor; vm_compute; congruence. }
  assert (H : In 0 (dims (Shape_init [4; 0; 2]))) by (right; left; reflexivity).
  split; [exact Hwf|]. split; [exact H|].
  apply (proj1 (zero_dimension_gives_empty_tensor _ Hwf H)).
Defined.

(** ** The text of a Shape *)

Lemma ToString_Shape_fold_concat (get : nat -> Z) (r : nat) l acc :
  fold_left (fun str i =>
               let str := str ++ to_string (get i) in
               if (i <? r)%nat then str ++ list_ascii_of_string ", " else str)
            l acc
  = acc ++ concat (map (fun i => to_string (get i) ++
                                 if (i <? r)%nat then list_ascii_of_string ", " else [])
                       l).
Proof.
  revert acc. induction l as [|i l IH]; intros acc; cbn [fold_left map concat].
  - rewrite app_nil_r. reflexivity.
  - rewrite IH. cbv zeta.
    destruct (i <? r)%nat; rewrite <- ?app_assoc, ?app_nil_r; reflexivity.
Qed.

Lemma pieces_join sep (xs : list (list ascii)) :
  concat (map (fun i => nth i xs [] ++ if (i <? length xs - 1)%nat then sep else [])
              (seq 0 (length xs)))
  = join sep xs.
Proof.
  induction xs as [|x xs IH]; [reflexivity|].
  cbn [length seq map concat nth]. rewrite <- seq_shift, map_map.
  rewrite (map_ext_in _ (fun i => nth i xs [] ++
                                  if (i <? length xs - 1)%nat then sep else [])).
  - rewrite IH. cbn [join]. destruct xs as [|y xs].
    + cbn. rewrite !app_nil_r. reflexivity.
    + cbn [length Nat.sub Nat.ltb Nat.leb]. rewrite <- app_assoc. reflexivity.
  - intros i Hi. apply in_seq in Hi. cbn [nth]. f_equal.
    destruct (S i <? S (length xs) - 1)%nat eqn:E1;
      destruct (i <? length xs - 1)%nat eqn:E2; try reflexivity;
      (apply Nat.ltb_lt in E1 || apply Nat.ltb_ge in E1);
      (apply Nat.ltb_lt in E2 || apply Nat.ltb_ge in E2); lia.
Qed.

(** X7: The text of a Shape built from at most [kMaxRank] dimensions is their
    decimal texts with ", " between consecutive ones, and nothing before the
    first or after the last; the text of the empty Shape is empty. *)
Theorem ToString_Shape_is_comma_separated ds :
  (length ds <= kMaxRank)%nat ->
  Forall in_size_t ds ->
  ToString_Shape (Shape_init ds) = join (list_ascii_of_string ", ") (map to_string ds).
Proof.
  intros _ _. unfold ToString_Shape. rewrite ToString_Shape_fold_concat.
  cbn [app Shape_rank Shape_init].
  rewrite <- (pieces_join _ (map to_string ds)). rewrite length_map.
  f_equal. apply map_ext_in. intros i Hi. apply in_seq in Hi.
  rewrite Shape_get_init by lia.
  rewrite (nth_indep _ [] (to_string 0)) by (rewrite length_map; lia).
  rewrite (map_nth to_string). reflexivity.
Qed.

Lemma ToString_Shape_is_comma_separated_witness :
  (length dims_example <= kMaxRank)%nat /\
  Forall in_size_t dims_example /\
  ToString_Shape (Shape_init dims_example) = list_ascii_of_string "2, 3, 4".
Proof.
  assert (H : (length dims_example <= kMaxRank)%nat) by (vm_compute; lia).
  assert (Hr : Forall in_size_t dims_example)
    by (repeat constructor; vm_compute; congruence).
  split; [exact H|]. split; [exact Hr|].
  rewrite (ToString_Shape_is_comma_separated _ H Hr). reflexivity.
Defined.

(** ** ReplaceAll and CreateShader beyond the two placeholders *)

Lemma ReplaceAll_loop_empty_from fuel : forall str to start_pos,
  (start_pos <= length str)%nat -> ReplaceAll_loop fuel str [] to start_pos = None.
Proof.
  induction fuel as [|fuel IH]; intros str to pos Hpos; [reflexivity|].
  cbn [ReplaceAll_loop]. rewrite find_in_range by exact Hpos.
  assert (Hf : find_aux [] (drop pos str) pos = Some pos)
    by (destruct (drop pos str); reflexivity).
  rewrite Hf. apply IH.
  unfold replace. rewrite !length_app, length_take_le, length_drop by exact Hpos.
  cbn [length]. lia.
Qed.

(** X8: Replacing the empty pattern by the empty text never ends: every
    search succeeds at the current position, the text and the position stay
    as they are, so the loop of [ReplaceAll] goes through any number of
    iterations without leaving; and [CreateShader] only calls [ReplaceAll]
    with its two placeholders, which are not empty, so that it always
    returns. *)
Theorem ReplaceAll_empty_for_empty_never_ends :
  (forall fuel str start_pos,
      (start_pos <= length str)%nat ->
      ReplaceAll_loop fuel str [] [] start_pos = None) /\
  (forall str start_pos,
      (start_pos <= length str)%nat ->
      find str [] start_pos = Some start_pos /\
      replace str start_pos 0 [] = str /\
      (start_pos + length (@nil ascii))%nat = start_pos) /\
  tok_workgroupSize <> [] /\ tok_precision <> [] /\
  (forall template workgroupSize precision w,
      returned (fst (CreateShader template workgroupSize precision w)) = true).
Proof.
  split; [|split; [|split; [discriminate|split; [discriminate|]]]].
  - intros fuel str start_pos Hpos. apply ReplaceAll_loop_empty_from. exact Hpos.
  - intros str start_pos Hpos. split; [|split].
    + rewrite find_in_range by exact Hpos. destruct (drop start_pos str); reflexivity.
    + unfold replace. rewrite Nat.add_0_r. cbn [app]. apply take_drop.
    + cbn [length]. lia.
  - intros template workgroupSize precision [tr hs ps pr].
    unfold CreateShader, ToString_NumType.
    rewrite ReplaceAll_spec by discriminate. exec.
    destruct (precision =? kf32); exec; rewrite ReplaceAll_spec by discriminate;
      reflexivity.
Qed.

Lemma ReplaceAll_empty_for_empty_never_ends_witness :
  (0 <= length (list_ascii_of_string "abc"))%nat /\
  ReplaceAll_loop 1000 (list_ascii_of_string "abc") [] [] 0 = None.
Proof.
  assert (H : (0 <= length (list_ascii_of_string "abc"))%nat) by (cbn; lia).
  split; [exact H|].
  apply (proj1 ReplaceAll_empty_for_empty_never_ends 1000%nat
               (list_ascii_of_string "abc") 0%nat H).
Defined.

Lemma replace_every_same from :
  from <> [] -> forall s k, replace_every from from k s = drop k s.
Proof.
  intros Hne. induction s as [|c s IH]; intros k; [destruct k; reflexivity|].
  destruct k as [|k]; [|cbn [replace_every drop]; apply IH].
  cbn [replace_every drop]. destruct (is_prefix from (c :: s)) eqn:Hp.
  - rewrite IH. destruct from as [|a from]; [congruence|].
    apply is_prefix_split in Hp. cbn [length drop app] in Hp.
    injection Hp as -> Hs.
    replace (length (a :: from) - 1)%nat with (length from) by (cbn [length]; lia).
    cbn [app]. rewrite <- Hs. reflexivity.
  - rewrite (IH 0%nat). reflexivity.
Qed.

(** X9: [ReplaceAll] with a non-empty pattern always returns, and is one pass
    from the left: an occurrence at the head is replaced and the scan goes on
    after it, without looking into the replacement; a character at which no
    occurrence starts is copied. Hence a text without occurrence is left as
    it is, and so is any text when the replacement is the pattern itself. *)
Theorem ReplaceAll_is_one_pass from to :
  from <> [] ->
  ReplaceAll [] from to = Some [] /\
  (forall rest,
      ReplaceAll (from ++ rest) from to = (app to) <$> ReplaceAll rest from to) /\
  (forall c rest,
      is_prefix from (c :: rest) = false ->
      ReplaceAll (c :: rest) from to = (cons c) <$> ReplaceAll rest from to) /\
  (forall str, is_Some (ReplaceAll str from to)) /\
  (forall str, find str from 0 = None -> ReplaceAll str from to = Some str) /\
  (forall str, ReplaceAll str from from = Some str).
Proof.
  intros Hne. split; [|split; [|split; [|split; [|split]]]].
  - rewrite ReplaceAll_spec by exact Hne. reflexivity.
  - intros rest. rewrite !ReplaceAll_spec by exact Hne. cbn [fmap option_fmap option_map].
    rewrite replace_every_match by (exact Hne || apply is_prefix_app).
    rewrite drop_app_length. reflexivity.
  - intros c rest Hp. rewrite !ReplaceAll_spec by exact Hne.
    cbn [fmap option_fmap option_map]. rewrite replace_every_copy by exact Hp. reflexivity.
  - intros str. rewrite ReplaceAll_spec by exact Hne. eauto.
  - intros str Hf. rewrite ReplaceAll_spec by exact Hne. f_equal.
    rewrite find_in_range in Hf by lia. apply (find_aux_none _ _ _ _ Hf).
  - intros str. rewrite ReplaceAll_spec by exact Hne. f_equal.
    apply (replace_every_same from Hne str 0).
Qed.

Lemma ReplaceAll_is_one_pass_witness :
  list_ascii_of_string "a" <> [] /\
  ReplaceAll (list_ascii_of_string "aXa") (list_ascii_of_string "a")
             (list_ascii_of_string "aa")
  = Some (list_ascii_of_string "aaXaa") /\
  find (list_ascii_of_string "XYZ") (list_ascii_of_string "a") 0 = None /\
  ReplaceAll (list_ascii_of_string "XYZ") (list_ascii_of_string "a")
             (list_ascii_of_string "aa")
  = Some (list_ascii_of_string "XYZ").
Proof.
  assert (Hne : list_ascii_of_string "a" <> []) by discriminate.
  assert (Hf : find (list_ascii_of_string "XYZ") (list_ascii_of_string "a") 0 = None)
    by reflexivity.
  destruct (ReplaceAll_is_one_pass (list_ascii_of_string "a")
              (list_ascii_of_string "aa") Hne) as (_ & _ & _ & _ & Hnone & _).
  split; [exact Hne|]. split; [reflexivity|]. split; [exact Hf|].
  apply Hnone. exact Hf.
Defined.

(** X10: [CreateShader] always returns. Its text is the template after the two
    passes, hence the template itself when no placeholder occurs in it; the
    workgroup size is stored as given; the precision stored is always
    [kf32], whatever precision was asked for, and a precision other than
    [kf32] is reported by one error line and written as "unknown". *)
Theorem CreateShader_stores_size_not_precision template workgroupSize precision w :
  exists code w',
    CreateShader template workgroupSize precision w = (Done code, w') /\
    ShaderCode_workgroupSize code = workgroupSize /\
    ShaderCode_precision code = kf32 /\
    ShaderCode_data code
      = replace_every tok_precision (NumType_text precision) 0
          (replace_every tok_workgroupSize (ToString_Shape workgroupSize) 0 template) /\
    (find template tok_workgroupSize 0 = None ->
     find template tok_precision 0 = None ->
     ShaderCode_data code = template) /\
    NumType_text precision
      = (if precision =? kf32 then list_ascii_of_string "f32"
         else list_ascii_of_string "unknown") /\
    w_trace w' = w_trace w ++
                 (if precision =? kf32 then [] else [EvLog kError invalid_NumType_error])
                 ++ [EvLog kInfo "Shader code:"].
Proof.
  destruct w as [tr hs ps pr].
  unfold CreateShader, ToString_NumType, NumType_text.
  rewrite ReplaceAll_spec by discriminate. exec.
  destruct (precision =? kf32); exec; rewrite ReplaceAll_spec by discriminate; exec;
    (eexists _, _; split; [reflexivity|];
     cbn [ShaderCode_workgroupSize ShaderCode_precision ShaderCode_data w_trace];
     split; [reflexivity|]; split; [reflexivity|]; split; [reflexivity|];
     split; [|split; [reflexivity|rewrite <- ?app_assoc; reflexivity]];
     intros Hw Hp; rewrite find_in_range in Hw, Hp by lia;
     rewrite (find_aux_none _ _ _ _ Hw); apply (find_aux_none _ _ _ _ Hp)).
Qed.

Lemma CreateShader_stores_size_not_precision_witness :
  find (list_ascii_of_string "fn main() {}") tok_workgroupSize 0 = None /\
  find (list_ascii_of_string "fn main() {}") tok_precision 0 = None /\
  exists code w',
    CreateShader (list_ascii_of_string "fn main() {}") (Shape_init [64; 1; 1]) 7
                 (World_init []) = (Done code, w') /\
    ShaderCode_data code = list_ascii_of_string "fn main() {}" /\
    ShaderCode_precision code = kf32.
Proof.
  assert (H1 : find (list_ascii_of_string "fn main() {}") tok_workgroupSize 0 = None)
    by reflexivity.
  assert (H2 : find (list_ascii_of_string "fn main() {}") tok_precision 0 = None)
    by reflexivity.
  split; [exact H1|]. split; [exact H2|].
  destruct (CreateShader_stores_size_not_precision
              (list_ascii_of_string "fn main() {}") (Shape_init [64; 1; 1]) 7
              (World_init [])) as (code & w' & Hrun & _ & Hprec & _ & Hsame & _).
  exists code, w'. split; [exact Hrun|]. split; [apply Hsame; assumption | exact Hprec].
Defined.

(** ** Waiting *)

Lemma Wait_nothing_pending kDebug be ctx fuel : forall tr hs,
  Wait kDebug be fuel ctx (mkWorld tr hs [] false) =
  (OutOfFuel, mkWorld (tr ++ pump_events (Context_instance ctx) fuel) hs [] false).
Proof.
  induction fuel as [|fuel IH]; intros tr hs.
  - cbn. rewrite app_nil_r. reflexivity.
  - rewrite Wait_step. unfold wgpuInstanceProcessEvents. exec. cbn [deliver]. exec.
    rewrite IH. unfold pump_events. cbn [replicate]. rewrite <- app_assoc. reflexivity.
Qed.

(** X11: [Wait] returns at once, without a call of the event-processing
    function, when the future is ready; when it is not and the API holds no
    callback, [Wait] never returns: whatever the number of iterations
    allowed, it spends them all calling the event-processing function. *)
Theorem Wait_needs_a_pending_callback kDebug be ctx :
  (forall fuel w, w_promise w = true -> Wait kDebug be fuel ctx w = (Done tt, w)) /\
  (forall fuel w,
      w_promise w = false -> w_pending w = [] ->
      Wait kDebug be fuel ctx w =
      (OutOfFuel,
       mkWorld (w_trace w ++ pump_events (Context_instance ctx) fuel)
               (w_handles w) [] false)).
Proof.
  split.
  - intros fuel w H. apply Wait_resolved. exact H.
  - intros fuel [tr hs ps pr]. cbn [w_promise w_pending w_trace w_handles].
    intros -> ->. apply Wait_nothing_pending.
Qed.

Lemma Wait_needs_a_pending_callback_witness :
  w_promise (World_init []) = false /\ w_pending (World_init []) = [] /\
  Wait true be_sync 3 ctx_example (World_init []) =
  (OutOfFuel, mkWorld [EvProcessEvents 1; EvProcessEvents 1; EvProcessEvents 1] [] [] false).
Proof.
  split; [reflexivity|]. split; [reflexivity|].
  apply (proj2 (Wait_needs_a_pending_callback true be_sync ctx_example) 3%nat
               (World_init [])); reflexivity.
Defined.

(** ** ToCPU: what it uses and what it leaves behind *)

Lemma created_buffers_pumps instance n : created_buffers (pump_events instance n) = [].
Proof. unfold pump_events. induction n; [reflexivity | exact IHn]. Qed.

Lemma released_buffers_pumps instance n : released_buffers (pump_events instance n) = [].
Proof. unfold pump_events. induction n; [reflexivity | exact IHn]. Qed.

Lemma pumps_pump_events instance n : pumps (pump_events instance n) = n.
Proof.
  unfold pumps, pump_events.
  induction n as [|n IH]; cbn [replicate List.filter is_pump length]; congruence.
Qed.

Lemma ToCPU_trace_resources kDebug be ctx tensor data bufferSize h0 h1 h2 h3 :
  let tr := ToCPU_trace kDebug be ctx tensor data bufferSize h0 h1 h2 h3 in
  created_buffers tr = [h0] /\
  released_buffers tr = [] /\
  pumps tr = (S (be_workdone_delay be)
              + (if passes kDebug (be_workdone_status be)
                 then S (be_map_delay be) else 0))%nat.
Proof.
  cbv zeta.
  unfold ToCPU_trace, ToCPU_stage1, ToCPU_stage2, ToCPU_stage3, check_events.
  rewrite !created_buffers_app, !released_buffers_app, !pumps_app.
  destruct (passes kDebug (be_workdone_status be));
    destruct (passes kDebug (be_map_status be));
    destruct kDebug;
    destruct (be_workdone_status be =? Status_Success);
    destruct (be_map_status be =? Status_Success);
    rewrite ?created_buffers_app, ?released_buffers_app, ?pumps_app,
      ?created_buffers_pumps, ?released_buffers_pumps, ?pumps_pump_events;
    cbn; (split; [reflexivity|]); (split; [reflexivity|]); lia.
Qed.

(** X12: A call of [ToCPU] creates exactly one device buffer, the readback
    buffer, and never releases it; it calls the event-processing function
    once more than the API holds the work-done callback back, and, when the
    map is requested, once more than the API holds the map callback back. *)
Theorem ToCPU_keeps_its_readback_buffer kDebug be fuel ctx tensor data bufferSize w :
  w_pending w = [] ->
  (kDebug = true -> handle_at w 2 <> nullptr) ->
  handle_at w 3 <> nullptr ->
  (be_workdone_delay be + be_map_delay be + 2 <= fuel)%nat ->
  exists w' tr,
    snd (ToCPU kDebug be fuel ctx tensor data bufferSize w) = w' /\
    w_trace w' = w_trace w ++ tr /\
    created_buffers tr = [handle_at w 0] /\
    released_buffers tr = [] /\
    pumps tr = (S (be_workdone_delay be)
                + (if passes kDebug (be_workdone_status be)
                   then S (be_map_delay be) else 0))%nat.
Proof.
  intros Hp H2 H3 Hfuel.
  destruct (ToCPU_run kDebug be fuel ctx tensor data bufferSize w Hp H2 H3 Hfuel)
    as (w' & Hrun & Htr & _).
  destruct (ToCPU_trace_resources kDebug be ctx tensor data bufferSize
              (handle_at w 0) (handle_at w 1) (handle_at w 2) (handle_at w 3))
    as (Hc & Hr & Hpu).
  exists w', (ToCPU_trace kDebug be ctx tensor data bufferSize
                (handle_at w 0) (handle_at w 1) (handle_at w 2) (handle_at w 3)).
  rewrite Hrun. split; [reflexivity|]. split; [exact Htr|].
  split; [exact Hc|]. split; [exact Hr | exact Hpu].
Qed.

Lemma ToCPU_keeps_its_readback_buffer_witness :
  w_pending (World_init [21; 22; 23; 24]) = [] /\
  handle_at (World_init [21; 22; 23; 24]) 2 <> nullptr /\
  handle_at (World_init [21; 22; 23; 24]) 3 <> nullptr /\
  (be_workdone_delay be_sync + be_map_delay be_sync + 2 <= 2)%nat /\
  created_buffers
    (w_trace (snd (ToCPU true be_sync 2 ctx_example tensor_example 1000 16
                         (World_init [21; 22; 23; 24])))) = [21] /\
  released_buffers
    (w_trace (snd (ToCPU true be_sync 2 ctx_example tensor_example 1000 16
                         (World_init [21; 22; 23; 24])))) = [].
Proof.
  assert (H2 : handle_at (World_init [21; 22; 23; 24]) 2 <> nullptr)
    by (vm_compute; congruence).
  assert (H3 : handle_at (World_init [21; 22; 23; 24]) 3 <> nullptr)
    by (vm_compute; congruence).
  assert (Hf : (be_workdone_delay be_sync + be_map_delay be_sync + 2 <= 2)%nat)
    by (vm_compute; lia).
  split; [reflexivity|]. split; [exact H2|]. split; [exact H3|]. split; [exact Hf|].
  destruct (ToCPU_keeps_its_readback_buffer true be_sync 2 ctx_example tensor_example
              1000 16 (World_init [21; 22; 23; 24]) eq_refl (fun _ => H2) H3 Hf)
    as (w' & tr & Hw & Htr & Hc & Hr & _).
  rewrite Hw, Htr. cbn [World_init w_trace app]. split; [exact Hc | exact Hr].
Defined.

(** ** ToCPU when the API hands back no mapped range *)

Lemma Wait_delivers_mapped_null kDebug be ctx fuel tr hs status data :
  hd nullptr hs = nullptr ->
  0 < cb_bufferSize data ->
  passes kDebug status = true ->
  Wait kDebug be (S fuel) ctx
       (mkWorld tr hs [mkPending 0 status (OnMapped data)] false) =
  (if kDebug then Exited 1 else Undefined,
   mkWorld (tr ++ [EvProcessEvents (Context_instance ctx); EvMapCallback status] ++
            check_events kDebug true "Map readbackBuffer" ++
            [EvGetConstMappedRange (cb_buffer data) nullptr] ++
            (if kDebug then [EvLog kError "Get mapped range"; EvExit 1]
             else [EvMemcpy (cb_output data) nullptr (cb_bufferSize data)]))
           (tl hs) [] false).
Proof.
  intros Hh Hsz Hp.
  assert (Hlt : (0 <? cb_bufferSize data) = true) by (apply Z.ltb_lt; exact Hsz).
  rewrite Wait_step.
  unfold wgpuInstanceProcessEvents, passes, check_events in *.
  destruct hs as [|h hs']; cbn [hd] in Hh; [|subst h];
    exec; cbn [deliver]; unfold run_callback, check, memcpy, is_set; exec;
    (destruct kDebug; cbn [negb orb] in Hp; [rewrite Hp|]; exec;
     repeat (progress (unfold nullptr; cbn [hd tl Z.eqb negb andb]; rewrite ?Hlt; exec));
     rewrite <- ?app_assoc; reflexivity).
Qed.

(** X13: When [wgpuBufferGetConstMappedRange] hands back null for a non-empty
    readback (both callbacks having passed their checks), a debug build logs
    the failed check and ends the process before anything is copied, while a
    release build goes on to [memcpy] from the null address, which is
    undefined; in neither build is the buffer unmapped or the promise
    resolved. *)
Theorem ToCPU_null_mapped_range kDebug be fuel ctx tensor data bufferSize w :
  w_pending w = [] ->
  (kDebug = true -> handle_at w 2 <> nullptr) ->
  handle_at w 3 = nullptr ->
  0 < bufferSize ->
  passes kDebug (be_workdone_status be) = true ->
  passes kDebug (be_map_status be) = true ->
  (be_workdone_delay be + be_map_delay be + 2 <= fuel)%nat ->
  exists w' tr,
    ToCPU kDebug be fuel ctx tensor data bufferSize w =
      (if kDebug then Exited 1 else Undefined, w') /\
    w_trace w' = w_trace w ++ tr /\
    In (EvGetConstMappedRange (handle_at w 0) nullptr) tr /\
    List.filter is_completion tr =
      (if kDebug then [] else [EvMemcpy data nullptr bufferSize]) /\
    (kDebug = true -> In (EvLog kError "Get mapped range") tr) /\
    w_promise w' = false.
Proof.
  destruct w as [tr hs ps pr]. cbn [w_pending]. intros -> H2 H3 Hsz Hp1 Hp2 Hfuel.
  revert H2 H3. handles. intros H2 H3.
  assert (Hf : fuel = (be_workdone_delay be
                       + S (be_map_delay be
                            + S (fuel - be_workdone_delay be - be_map_delay be - 2)))%nat)
    by lia.
  rewrite Hf. clear Hf Hfuel.
  set (k := (fuel - be_workdone_delay be - be_map_delay be - 2)%nat). clearbody k.
  unfold ToCPU, wgpuQueueOnSubmittedWorkDone.
  exec.
  assert (Hc : forall W,
             check kDebug (is_set (hd nullptr (tl (tl hs)))) "Create command buffer" W
             = (Done tt, mkWorld (w_trace W ++ check_events kDebug true "Create command buffer")
                                 (w_handles W) (w_pending W) (w_promise W))).
  { intros [tr' hs' ps' pr']. unfold check, check_events. destruct kDebug.
    - assert (His : is_set (hd nullptr (tl (tl hs))) = true).
      { unfold is_set. apply negb_true_iff, Z.eqb_neq. auto. }
      rewrite His. reflexivity.
    - cbn [w_trace]. rewrite app_nil_r. reflexivity. }
  rewrite Hc. exec. cbn [app].
  rewrite Wait_countdown0, Wait_delivers_workdone.
  cbn [cb_buffer cb_bufferSize cb_output]. rewrite Hp1.
  rewrite Wait_countdown0.
  rewrite Wait_delivers_mapped_null by (cbn [cb_bufferSize]; assumption).
  cbn [cb_buffer cb_bufferSize cb_output].
  eexists. eexists. split; [reflexivity|]. cbn [w_trace w_promise].
  split; [rewrite <- !app_assoc; reflexivity|].
  unfold ToCPU_stage2, check_events, pump_events. rewrite Hp1.
  split; [|split; [|split; [|reflexivity]]].
  - rewrite !in_app_iff. cbn [In]. auto 25.
  - rewrite !List.filter_app.
    assert (Hno : forall n, List.filter is_completion
                     (replicate n (EvProcessEvents (Context_instance ctx))) = []).
    { induction n as [|n IH]; [reflexivity | exact IH]. }
    rewrite !Hno.
    destruct kDebug; destruct (be_workdone_status be =? Status_Success);
      reflexivity.
  - intros ->. rewrite !in_app_iff. cbn [In]. auto 25.
Qed.

Lemma ToCPU_null_mapped_range_witness :
  fst (ToCPU false be_sync 2 ctx_example tensor_example 1000 16
             (World_init [21; 22; 23])) = Undefined /\
  fst (ToCPU true be_sync 2 ctx_example tensor_example 1000 16
             (World_init [21; 22; 23])) = Exited 1.
Proof.
  assert (H2 : handle_at (World_init [21; 22; 23]) 2 <> nullptr)
    by (vm_compute; congruence).
  assert (Hf : (be_workdone_delay be_sync + be_map_delay be_sync + 2 <= 2)%nat)
    by (vm_compute; lia).
  split.
  - destruct (ToCPU_null_mapped_range false be_sync 2 ctx_example tensor_example
                1000 16 (World_init [21; 22; 23]) eq_refl (fun _ => H2) eq_refl
                ltac:(lia) eq_refl eq_refl Hf) as (w' & tr & Hrun & _).
    rewrite Hrun. reflexivity.
  - destruct (ToCPU_null_mapped_range true be_sync 2 ctx_example tensor_example
                1000 16 (World_init [21; 22; 23]) eq_refl (fun _ => H2) eq_refl
                ltac:(lia) eq_refl eq_refl Hf) as (w' & tr & Hrun & _).
    rewrite Hrun. reflexivity.
Defined.

(** ** ResetCommandBuffer *)

Lemma ResetCommandBuffer_full kDebug device nThreads op w :
  (kDebug = true ->
   (2 < Shape_rank (Kernel_nWorkgroups op))%nat /\ handle_at w 2 <> nullptr) ->
  ResetCommandBuffer kDebug device nThreads op w =
  (Done (with_commandBuffer op (handle_at w 2)),
   mkWorld (w_trace w ++
            ResetCommandBuffer_events kDebug op (handle_at w 0) (handle_at w 1)
                                      (handle_at w 2))
           (tl (tl (tl (w_handles w)))) (w_pending w) (w_promise w)).
Proof.
  intros H. destruct w as [tr hs ps pr]. revert H. handles. intros H.
  unfold ResetCommandBuffer, ResetCommandBuffer_events, with_commandBuffer,
    Shape_index, check, check_events.
  destruct kDebug.
  - destruct (H eq_refl) as [Hr Hcb].
    assert (H0 : (0 <? Shape_rank (Kernel_nWorkgroups op))%nat = true)
      by (apply Nat.ltb_lt; lia).
    assert (H1 : (1 <? Shape_rank (Kernel_nWorkgroups op))%nat = true)
      by (apply Nat.ltb_lt; lia).
    assert (H2 : (2 <? Shape_rank (Kernel_nWorkgroups op))%nat = true)
      by (apply Nat.ltb_lt; lia).
    assert (His : is_set (hd nullptr (tl (tl hs))) = true).
    { unfold is_set. apply negb_true_iff, Z.eqb_neq. exact Hcb. }
    exec. rewrite H0. exec. rewrite H1. exec. rewrite H2. exec.
    rewrite His. cbn [negb]. exec. rewrite <- !app_assoc. reflexivity.
  - exec. rewrite <- !app_assoc. reflexivity.
Qed.

Lemma ResetCommandBuffer_inv_full kDebug device nThreads op w op' w' :
  ResetCommandBuffer kDebug device nThreads op w = (Done op', w') ->
  op' = with_commandBuffer op (handle_at w 2) /\
  w' = mkWorld (w_trace w ++
                ResetCommandBuffer_events kDebug op (handle_at w 0) (handle_at w 1)
                                          (handle_at w 2))
               (tl (tl (tl (w_handles w)))) (w_pending w) (w_promise w).
Proof.
  intros Hrun.
  assert (H : kDebug = true ->
              (2 < Shape_rank (Kernel_nWorkgroups op))%nat /\ handle_at w 2 <> nullptr).
  { intros ->. revert Hrun. destruct w as [tr hs ps pr]. handles.
    unfold ResetCommandBuffer, Shape_index, check. exec.
    destruct (0 <? Shape_rank (Kernel_nWorkgroups op))%nat eqn:H0; exec;
      [|discriminate].
    destruct (1 <? Shape_rank (Kernel_nWorkgroups op))%nat eqn:H1; exec;
      [|discriminate].
    destruct (2 <? Shape_rank (Kernel_nWorkgroups op))%nat eqn:H2; exec;
      [|discriminate].
    destruct (is_set (hd nullptr (tl (tl hs)))) eqn:His; cbn [negb]; exec;
      [|discriminate].
    intros _. split; [apply Nat.ltb_lt; exact H2|].
    unfold is_set in His. apply negb_true_iff, Z.eqb_neq in His. exact His. }
  rewrite (ResetCommandBuffer_full _ _ _ _ _ H) in Hrun.
  injection Hrun as <- <-. split; reflexivity.
Qed.

Lemma ResetCommandBuffer_events_observed kDebug op h0 h1 h2 :
  let evs := ResetCommandBuffer_events kDebug op h0 h1 h2 in
  List.filter is_dispatch evs =
    [EvDispatchWorkgroups h1 (to_uint32 (Shape_get (Kernel_nWorkgroups op) 0))
                          (to_uint32 (Shape_get (Kernel_nWorkgroups op) 1))
                          (to_uint32 (Shape_get (Kernel_nWorkgroups op) 2))] /\
  submitted evs = [] /\ created_buffers evs = [] /\ released_buffers evs = [] /\
  List.filter is_write evs = [].
Proof.
  unfold ResetCommandBuffer_events, check_events. destruct kDebug; cbn; auto.
Qed.

Lemma to_uint32_small z : 0 <= z < 2 ^ 32 -> to_uint32 z = z.
Proof. intros H. unfold to_uint32. apply Z.mod_small. exact H. Qed.

(** X14: [ResetCommandBuffer] records one dispatch, with the Kernel's pipeline
    and bind group, whose three counts are the workgroup counts stored in the
    Kernel reduced modulo 2^32, since they are [size_t] values handed to
    [uint32_t] parameters: they are the stored counts themselves when these
    are below 2^32. It replaces the command buffer of the Kernel by the one
    just recorded, leaving every other field alone; it submits nothing and
    touches no buffer. In a debug build it returns only when the stored
    counts are of rank 3 at least and the new command buffer is not null. *)
Theorem ResetCommandBuffer_dispatches_counts_as_uint32 kDebug device nThreads op w :
  (kDebug = true ->
   (2 < Shape_rank (Kernel_nWorkgroups op))%nat /\ handle_at w 2 <> nullptr) ->
  exists w' evs,
    ResetCommandBuffer kDebug device nThreads op w =
      (Done (with_commandBuffer op (handle_at w 2)), w') /\
    w_trace w' = w_trace w ++ evs /\
    List.filter is_dispatch evs =
      [EvDispatchWorkgroups (handle_at w 1)
         (Shape_get (Kernel_nWorkgroups op) 0 mod 2 ^ 32)
         (Shape_get (Kernel_nWorkgroups op) 1 mod 2 ^ 32)
         (Shape_get (Kernel_nWorkgroups op) 2 mod 2 ^ 32)] /\
    ((forall axis, (axis < 3)%nat ->
        0 <= Shape_get (Kernel_nWorkgroups op) axis < 2 ^ 32) ->
     List.filter is_dispatch evs =
       [EvDispatchWorkgroups (handle_at w 1)
          (Shape_get (Kernel_nWorkgroups op) 0)
          (Shape_get (Kernel_nWorkgroups op) 1)
          (Shape_get (Kernel_nWorkgroups op) 2)]) /\
    In (EvSetPipeline (handle_at w 1) (Kernel_computePipeline op)) evs /\
    In (EvSetBindGroup (handle_at w 1) (Kernel_bindGroup op)) evs /\
    In (EvEncoderFinish (handle_at w 0) (handle_at w 2)) evs /\
    submitted evs = [] /\ created_buffers evs = [] /\ released_buffers evs = [].
Proof.
  intros H. eexists _, _. split; [apply ResetCommandBuffer_full; exact H|].
  cbn [w_trace]. split; [reflexivity|].
  destruct (ResetCommandBuffer_events_observed kDebug op (handle_at w 0) (handle_at w 1)
              (handle_at w 2)) as (Hd & Hs & Hc & Hr & _).
  split; [exact Hd|].
  split.
  { intros Hsmall. rewrite Hd.
    rewrite !to_uint32_small by (apply Hsmall; lia). reflexivity. }
  split; [unfold ResetCommandBuffer_events; cbn; auto 10|].
  split; [unfold ResetCommandBuffer_events; cbn; auto 10|].
  split; [unfold ResetCommandBuffer_events; cbn; auto 15|].
  split; [exact Hs|]. split; [exact Hc | exact Hr].
Qed.

Lemma ResetCommandBuffer_dispatches_counts_as_uint32_witness :
  (exists w',
     ResetCommandBuffer true 12 (Shape_init [1000; 1; 1]) kernel_example
                        (World_init [41; 42; 43])
       = (Done (with_commandBuffer kernel_example 43), w') /\
     List.filter is_dispatch (w_trace w') = [EvDispatchWorkgroups 42 4 1 1]) /\
  (exists w',
     ResetCommandBuffer true 12 (Shape_init [1000; 1; 1]) kernel_wide_example
                        (World_init [41; 42; 43])
       = (Done (with_commandBuffer kernel_wide_example 43), w') /\
     Shape_get (Kernel_nWorkgroups kernel_wide_example) 0 = 2 ^ 32 + 5 /\
     List.filter is_dispatch (w_trace w') = [EvDispatchWorkgroups 42 5 1 1]).
Proof.
  assert (H : true = true ->
              (2 < Shape_rank (Kernel_nWorkgroups kernel_example))%nat /\
              handle_at (World_init [41; 42; 43]) 2 <> nullptr).
  { intros _. split; [vm_compute; lia | vm_compute; congruence]. }
  assert (H' : true = true ->
               (2 < Shape_rank (Kernel_nWorkgroups kernel_wide_example))%nat /\
               handle_at (World_init [41; 42; 43]) 2 <> nullptr).
  { intros _. split; [vm_compute; lia | vm_compute; congruence]. }
  destruct (ResetCommandBuffer_dispatches_counts_as_uint32 true 12
              (Shape_init [1000; 1; 1]) kernel_example (World_init [41; 42; 43]) H)
    as (w1 & evs1 & Hrun1 & Htr1 & Hd1 & _).
  destruct (ResetCommandBuffer_dispatches_counts_as_uint32 true 12
              (Shape_init [1000; 1; 1]) kernel_wide_example (World_init [41; 42; 43]) H')
    as (w2 & evs2 & Hrun2 & Htr2 & Hd2 & _).
  split.
  - exists w1. split; [exact Hrun1|]. rewrite Htr1. exact Hd1.
  - exists w2. split; [exact Hrun2|]. split; [reflexivity|]. rewrite Htr2. exact Hd2.
Defined.

(** X15: In a debug build, [ResetCommandBuffer] on a Kernel whose stored counts
    are of rank below 3 fails the assertion of the index operator before any
    dispatch is recorded, and on a null command buffer ends the process with
    status 1. *)
Theorem ResetCommandBuffer_debug_failures device nThreads op w :
  ((Shape_rank (Kernel_nWorkgroups op) < 3)%nat ->
   fst (ResetCommandBuffer true device nThreads op w) = AssertFailed /\
   List.filter is_dispatch
     (drop (length (w_trace w))
           (w_trace (snd (ResetCommandBuffer true device nThreads op w)))) = []) /\
  ((2 < Shape_rank (Kernel_nWorkgroups op))%nat -> handle_at w 2 = nullptr ->
   fst (ResetCommandBuffer true device nThreads op w) = Exited 1).
Proof.
  destruct w as [tr hs ps pr]. handles.
  unfold ResetCommandBuffer, Shape_index, check. split.
  - intros Hr. exec.
    destruct (0 <? Shape_rank (Kernel_nWorkgroups op))%nat eqn:H0; exec;
      [destruct (1 <? Shape_rank (Kernel_nWorkgroups op))%nat eqn:H1; exec;
       [destruct (2 <? Shape_rank (Kernel_nWorkgroups op))%nat eqn:H2; exec;
        [apply Nat.ltb_lt in H2; lia|]|]|];
      (split; [reflexivity|]);
      rewrite <- !app_assoc, drop_app_length; reflexivity.
  - intros Hr Hcb.
    assert (H0 : (0 <? Shape_rank (Kernel_nWorkgroups op))%nat = true)
      by (apply Nat.ltb_lt; lia).
    assert (H1 : (1 <? Shape_rank (Kernel_nWorkgroups op))%nat = true)
      by (apply Nat.ltb_lt; lia).
    assert (H2 : (2 <? Shape_rank (Kernel_nWorkgroups op))%nat = true)
      by (apply Nat.ltb_lt; lia).
    exec. rewrite H0. exec. rewrite H1. exec. rewrite H2. exec.
    unfold is_set. rewrite Hcb. cbn. reflexivity.
Qed.

Lemma ResetCommandBuffer_debug_failures_witness :
  fst (ResetCommandBuffer true 12 (Shape_init [8; 8])
         (mkKernel [] [] 0 (Shape_init [8; 8]) 31 32 nullptr)
         (World_init [41; 42; 43])) = AssertFailed /\
  fst (ResetCommandBuffer true 12 (Shape_init [8; 8; 1]) kernel_example
         (World_init [41; 42])) = Exited 1.
Proof.
  split.
  - apply (proj1 (ResetCommandBuffer_debug_failures 12 (Shape_init [8; 8])
                    (mkKernel [] [] 0 (Shape_init [8; 8]) 31 32 nullptr)
                    (World_init [41; 42; 43]))).
    vm_compute. lia.
  - apply (proj2 (ResetCommandBuffer_debug_failures 12 (Shape_init [8; 8; 1])
                    kernel_example (World_init [41; 42]))).
    + vm_compute. lia.
    + reflexivity.
Defined.

(** ** CreateKernel: buffers, bind group, command buffer *)

Lemma submitted_app tr1 tr2 : submitted (tr1 ++ tr2) = submitted tr1 ++ submitted tr2.
Proof. apply omap_app. Qed.

Ltac member :=
  repeat first [ eassumption
               | apply in_or_app; left; first [eassumption | left; reflexivity]
               | left; reflexivity
               | apply in_or_app; right ].

Lemma CreateKernel_inv_full kDebug ctx shader inputs numTensors nThreads params
      paramsSize addr w r w' :
  CreateKernel kDebug ctx shader inputs numTensors nThreads params paramsSize addr w
    = (Done r, w') ->
  exists b hLayout hEnc hPass evs,
    w_trace w' = w_trace w ++ evs /\
    (Kernel_buffers (kr_kernel r), Kernel_bufferSizes (kr_kernel r))
      = buffers_of inputs numTensors paramsSize b /\
    kr_ctx r = Context_with_kernel ctx addr /\
    created_buffers evs = (if paramsSize >? 0 then [b] else []) /\
    released_buffers evs = [] /\
    submitted evs = [] /\
    List.filter is_write evs =
      (if paramsSize >? 0
       then [EvQueueWriteBuffer (Context_queue ctx) b 0 paramsSize] else []) /\
    ((paramsSize >? 0) = true -> In (EvCreateBuffer params_usage paramsSize b) evs) /\
    List.filter is_dispatch evs =
      [EvDispatchWorkgroups hPass
         (to_uint32 (Shape_get (Kernel_nWorkgroups (kr_kernel r)) 0))
         (to_uint32 (Shape_get (Kernel_nWorkgroups (kr_kernel r)) 1))
         (to_uint32 (Shape_get (Kernel_nWorkgroups (kr_kernel r)) 2))] /\
    In (EvSetPipeline hPass (Kernel_computePipeline (kr_kernel r))) evs /\
    In (EvSetBindGroup hPass (Kernel_bindGroup (kr_kernel r))) evs /\
    In (EvEncoderFinish hEnc (Kernel_commandBuffer (kr_kernel r))) evs /\
    In (EvCreateBindGroupLayout (kr_layout r) hLayout) evs /\
    In (EvCreateBindGroup hLayout (to_uint32 (Kernel_numBindings (kr_kernel r)))
          (group_of (Kernel_buffers (kr_kernel r)) (Kernel_bufferSizes (kr_kernel r))
                    numTensors paramsSize)
          (Kernel_bindGroup (kr_kernel r))) evs.
Proof.
  destruct w as [tr hs ps pr].
  unfold CreateKernel, buffers_of, group_of, numBindings_of, paramIndex_of,
    Context_with_kernel, params_usage.
  assert (Hrank : forall m : M KernelResult,
             (assert kDebug (Shape_rank nThreads =? 3)%nat;; m)
               (mkWorld tr hs ps pr) = (Done r, w') ->
             m (mkWorld tr hs ps pr) = (Done r, w')).
  { intros m. exec. destruct kDebug.
    - destruct (Shape_rank nThreads =? 3)%nat eqn:E; [|discriminate].
      intros H. exact H.
    - intros H. exact H. }
  intros H. apply Hrank in H. clear Hrank.
  revert H.
  destruct (paramsSize >? 0) eqn:Hp; exec;
    repeat match goal with
      | |- context [nWorkgroups_axis ?k ?n ?wg ?a ?w] =>
          let E := fresh "E" in
          destruct (nWorkgroups_axis k n wg a w) as [[v| | | |] w1] eqn:E;
          try discriminate;
          apply nWorkgroups_axis_inv in E; destruct E as [-> ->]; exec
      end;
    match goal with
    | |- context [ResetCommandBuffer ?k ?d ?n ?op ?w] =>
        let E := fresh "E" in
        set (op0 := op); set (w0 := w);
        destruct (ResetCommandBuffer k d n op0 w0) as [[op'| | | |] w1] eqn:E;
        try discriminate;
        apply ResetCommandBuffer_inv_full in E; destruct E as [-> ->];
        destruct (ResetCommandBuffer_events_observed k op0 (handle_at w0 0)
                    (handle_at w0 1) (handle_at w0 2)) as (Od & Os & Oc & Or & Ow);
        assert (Op : In (EvSetPipeline (handle_at w0 1) (Kernel_computePipeline op0))
                        (ResetCommandBuffer_events k op0 (handle_at w0 0)
                           (handle_at w0 1) (handle_at w0 2)))
          by (unfold ResetCommandBuffer_events; cbn; auto 10);
        assert (Og : In (EvSetBindGroup (handle_at w0 1) (Kernel_bindGroup op0))
                        (ResetCommandBuffer_events k op0 (handle_at w0 0)
                           (handle_at w0 1) (handle_at w0 2)))
          by (unfold ResetCommandBuffer_events; cbn; auto 10);
        assert (Of : In (EvEncoderFinish (handle_at w0 0) (handle_at w0 2))
                        (ResetCommandBuffer_events k op0 (handle_at w0 0)
                           (handle_at w0 1) (handle_at w0 2)))
          by (unfold ResetCommandBuffer_events; cbn; auto 15);
        set (revs := ResetCommandBuffer_events k op0 (handle_at w0 0)
                       (handle_at w0 1) (handle_at w0 2)) in *;
        clearbody revs
    end.
  all: exec; intros H; injection H as <- <-.
  all: cbn [kr_kernel kr_layout kr_ctx w_trace with_commandBuffer Kernel_buffers
            Kernel_bufferSizes Kernel_numBindings Kernel_nWorkgroups Kernel_bindGroup
            Kernel_computePipeline Kernel_commandBuffer] in *.
  all: subst op0;
    cbn [Kernel_buffers Kernel_bufferSizes Kernel_numBindings Kernel_nWorkgroups
         Kernel_bindGroup Kernel_computePipeline Kernel_commandBuffer] in *.
  all: match goal with
       | Hp : _ = false |- _ => exists nullptr
       | _ => eexists
       end; eexists _, _, _, _.
  all: split; [rewrite <- !app_assoc; reflexivity|].
  all: split; [first [reflexivity | symmetry; apply surjective_pairing]|].
  all: split; [reflexivity|].
  all: split; [rewrite !created_buffers_app, Oc; reflexivity|].
  all: split; [rewrite !released_buffers_app, Or; reflexivity|].
  all: split; [rewrite !submitted_app, Os; reflexivity|].
  all: split; [rewrite !List.filter_app, Ow; reflexivity|].
  all: split; [first [discriminate | intros _; member]|].
  all: split; [rewrite !List.filter_app, Od; reflexivity|].
  all: split; [member|].
  all: split; [member|].
  all: split; [member|].
  all: split; [member|].
  all: member.
Qed.

Lemma fill_buffers_split inputs (l : list nat) : forall bs ss,
  fold_left (fun (bs : list Z * list Z) i =>
               (<[i := Array_buffer (Tensor_data (input_at inputs i))]> (fst bs),
                <[i := Array_size (Tensor_data (input_at inputs i))]> (snd bs)))
            l (bs, ss) =
  (fold_left (fun es i => <[i := Array_buffer (Tensor_data (input_at inputs i))]> es) l bs,
   fold_left (fun es i => <[i := Array_size (Tensor_data (input_at inputs i))]> es) l ss).
Proof.
  induction l as [|i l IH]; intros bs ss; cbn [fold_left fst snd]; [reflexivity|].
  apply IH.
Qed.

Lemma paramIndex_of_length {A} (l : list A) :
  Z.of_nat (length l) + 1 < 2 ^ 64 ->
  Z.to_nat (paramIndex_of (Z.of_nat (length l))) = length l /\
  paramIndex_of (Z.of_nat (length l)) = Z.of_nat (length l).
Proof.
  intros Hfit. unfold paramIndex_of.
  rewrite wrap_succ_length by exact Hfit.
  replace (wrap (Z.of_nat (S (length l)) - 1)) with (Z.of_nat (length l)).
  - rewrite Nat2Z.id. split; reflexivity.
  - rewrite wrap_small; unfold SIZE_MOD, SIZE_BITS; lia.
Qed.

Lemma nth_lookup_Z (l : list Z) i x : l !! i = Some x -> nth i l 0 = x.
Proof.
  revert i. induction l as [|y l IH]; intros [|i] H; try discriminate H.
  - injection H as ->. reflexivity.
  - cbn. apply IH. exact H.
Qed.

(** The buffers of a Kernel made from N tensors, and the bind group handed
    to the API. *)
Lemma buffers_of_lookup inputs paramsSize b :
  Z.of_nat (length inputs) + 1 < 2 ^ 64 ->
  let N := length inputs in
  let bs := fst (buffers_of inputs (Z.of_nat N) paramsSize b) in
  let ss := snd (buffers_of inputs (Z.of_nat N) paramsSize b) in
  let n := (if paramsSize >? 0 then S N else N) in
  length bs = n /\ length ss = n /\
  length (group_of bs ss (Z.of_nat N) paramsSize) = n /\
  (forall i, (i < N)%nat ->
     bs !! i = Some (Array_buffer (Tensor_data (input_at inputs i))) /\
     ss !! i = Some (Array_size (Tensor_data (input_at inputs i)))) /\
  ((paramsSize >? 0) = true -> bs !! N = Some b /\ ss !! N = Some paramsSize) /\
  (forall i, (i < n)%nat ->
     group_of bs ss (Z.of_nat N) paramsSize !! i =
       Some (mkGroupEntry (to_uint32 (Z.of_nat i)) (nth i bs 0) 0 (nth i ss 0))).
Proof.
  intros Hfit. cbv zeta.
  destruct (paramIndex_of_length inputs Hfit) as [Hpi HpiZ].
  unfold buffers_of, group_of, numBindings_of, fill_buffers, fill_group.
  rewrite fill_buffers_split, !Nat2Z.id.
  destruct (paramsSize >? 0) eqn:Hp; cbn [fst snd].
  - rewrite wrap_succ_length, Nat2Z.id, Hpi, HpiZ by exact Hfit.
    set (bs0 := fold_left _ _ (replicate (S (length inputs)) nullptr)).
    set (ss0 := fold_left _ _ (replicate (S (length inputs)) 0)).
    assert (Lb : length bs0 = S (length inputs))
      by (unfold bs0; rewrite fill_fold_length, length_replicate; reflexivity).
    assert (Ls : length ss0 = S (length inputs))
      by (unfold ss0; rewrite fill_fold_length, length_replicate; reflexivity).
    split; [rewrite length_insert; exact Lb|].
    split; [rewrite length_insert; exact Ls|].
    split; [rewrite length_insert, fill_fold_length, length_replicate; reflexivity|].
    assert (Hin : forall i, (i < length inputs)%nat ->
              <[length inputs := b]> bs0 !! i
                = Some (Array_buffer (Tensor_data (input_at inputs i))) /\
              <[length inputs := paramsSize]> ss0 !! i
                = Some (Array_size (Tensor_data (input_at inputs i)))).
    { intros i Hi. rewrite !list_lookup_insert_ne by lia. split.
      - apply (fill_fold_lookup_lt
                 (fun i => Array_buffer (Tensor_data (input_at inputs i))));
          [exact Hi | rewrite length_replicate; lia].
      - apply (fill_fold_lookup_lt
                 (fun i => Array_size (Tensor_data (input_at inputs i))));
          [exact Hi | rewrite length_replicate; lia]. }
    assert (Hpar : <[length inputs := b]> bs0 !! length inputs = Some b /\
                   <[length inputs := paramsSize]> ss0 !! length inputs
                     = Some paramsSize).
    { split; apply list_lookup_insert_eq; lia. }
    split; [exact Hin|]. split; [intros _; exact Hpar|].
    intros i Hi. destruct (decide (i = length inputs)) as [->|Hne].
    + rewrite list_lookup_insert_eq
        by (rewrite fill_fold_length, length_replicate; lia).
      rewrite (nth_lookup_Z _ _ _ (proj2 Hpar)). reflexivity.
    + rewrite list_lookup_insert_ne by congruence.
      apply (fill_fold_lookup_lt
               (fun i => mkGroupEntry (to_uint32 (Z.of_nat i))
                           (nth i (<[length inputs := b]> bs0) 0) 0
                           (nth i (<[length inputs := paramsSize]> ss0) 0)));
        [lia | rewrite length_replicate; lia].
  - rewrite Nat2Z.id.
    set (bs0 := fold_left _ _ (replicate (length inputs) nullptr)).
    set (ss0 := fold_left _ _ (replicate (length inputs) 0)).
    split; [unfold bs0; rewrite fill_fold_length, length_replicate; reflexivity|].
    split; [unfold ss0; rewrite fill_fold_length, length_replicate; reflexivity|].
    split; [rewrite fill_fold_length, length_replicate; reflexivity|].
    split; [|split; [discriminate|]].
    + intros i Hi. split.
      * apply (fill_fold_lookup_lt
                 (fun i => Array_buffer (Tensor_data (input_at inputs i))));
          [exact Hi | rewrite length_replicate; lia].
      * apply (fill_fold_lookup_lt
                 (fun i => Array_size (Tensor_data (input_at inputs i))));
          [exact Hi | rewrite length_replicate; lia].
    + intros i Hi.
      apply (fill_fold_lookup_lt
               (fun i => mkGroupEntry (to_uint32 (Z.of_nat i)) (nth i bs0 0) 0
                           (nth i ss0 0)));
        [exact Hi | rewrite length_replicate; lia].
Qed.

(** X16: The Kernel that [CreateKernel] returns holds, at index i below the
    number N of tensors, the buffer and the byte size of the i-th tensor; it
    has as many buffers as sizes and as bindings; and the bind group handed
    to the API, made for the layout created just before, has one entry per
    binding, which binds index i to the Kernel's i-th buffer at offset 0 with
    the Kernel's i-th size. *)
Theorem CreateKernel_binds_the_input_buffers kDebug ctx shader inputs numTensors
    nThreads params paramsSize addr w r w' :
  CreateKernel kDebug ctx shader inputs numTensors nThreads params paramsSize addr w
    = (Done r, w') ->
  numTensors = Z.of_nat (length inputs) ->
  numTensors + 1 < 2 ^ 64 ->
  (forall i, (i < length inputs)%nat ->
     Kernel_buffers (kr_kernel r) !! i
       = Some (Array_buffer (Tensor_data (input_at inputs i))) /\
     Kernel_bufferSizes (kr_kernel r) !! i
       = Some (Array_size (Tensor_data (input_at inputs i)))) /\
  length (Kernel_bufferSizes (kr_kernel r)) = length (Kernel_buffers (kr_kernel r)) /\
  Z.of_nat (length (Kernel_buffers (kr_kernel r))) = Kernel_numBindings (kr_kernel r) /\
  exists hLayout entries,
    In (EvCreateBindGroupLayout (kr_layout r) hLayout) (w_trace w') /\
    In (EvCreateBindGroup hLayout (to_uint32 (Kernel_numBindings (kr_kernel r)))
          entries (Kernel_bindGroup (kr_kernel r))) (w_trace w') /\
    length entries = length (Kernel_buffers (kr_kernel r)) /\
    forall i, (i < length entries)%nat ->
      entries !! i =
        Some (mkGroupEntry (to_uint32 (Z.of_nat i))
                (nth i (Kernel_buffers (kr_kernel r)) 0) 0
                (nth i (Kernel_bufferSizes (kr_kernel r)) 0)).
Proof.
  intros Hrun -> Hfit.
  destruct (CreateKernel_inv _ _ _ _ _ _ _ _ _ _ _ _ Hrun) as (Hnb & _).
  destruct (CreateKernel_inv_full _ _ _ _ _ _ _ _ _ _ _ _ Hrun)
    as (b & hLayout & hEnc & hPass & evs & Htr & Hbuf & _ & _ & _ & _ & _ & _ & _
        & _ & _ & _ & Hlay & Hgrp).
  destruct (buffers_of_lookup inputs paramsSize b Hfit)
    as (Lb & Ls & Lg & Hin & _ & Hent).
  rewrite <- Hbuf in Lb, Ls, Lg, Hin, Hent. cbn [fst snd] in Lb, Ls, Lg, Hin, Hent.
  split; [exact Hin|]. split; [congruence|].
  split.
  - rewrite Lb, Hnb. unfold numBindings_of.
    destruct (paramsSize >? 0); [rewrite wrap_succ_length by exact Hfit|]; reflexivity.
  - exists hLayout. eexists. rewrite Htr.
    split; [apply in_or_app; right; exact Hlay|].
    split; [apply in_or_app; right; exact Hgrp|].
    split; [congruence|].
    intros i Hi. apply Hent. rewrite <- Lg. exact Hi.
Qed.

Lemma CreateKernel_binds_the_input_buffers_witness :
  exists r w',
    CreateKernel true ctx_example shader_example [tensor_example] 1
                 (Shape_init [1000; 1; 1]) 900 8 77 (World_init handles_example)
      = (Done r, w') /\
    Kernel_buffers (kr_kernel r) !! 0%nat = Some 5 /\
    Kernel_bufferSizes (kr_kernel r) !! 0%nat = Some 16 /\
    Z.of_nat (length (Kernel_buffers (kr_kernel r))) = 2.
Proof.
  destruct (CreateKernel true ctx_example shader_example [tensor_example] 1
              (Shape_init [1000; 1; 1]) 900 8 77 (World_init handles_example))
    as [[r| | | |] w'] eqn:E;
    try (vm_compute in E; discriminate E).
  exists r, w'. split; [reflexivity|].
  assert (H1 : 1 = Z.of_nat (length [tensor_example])) by reflexivity.
  assert (H2 : 1 + 1 < 2 ^ 64) by (vm_compute; congruence).
  destruct (CreateKernel_binds_the_input_buffers _ _ _ _ _ _ _ _ _ _ _ _ E H1 H2)
    as (Hin & _ & Hn & _).
  destruct (Hin 0%nat ltac:(cbn; lia)) as [Hb Hs].
  split; [exact Hb|]. split; [exact Hs|].
  rewrite Hn. vm_compute in E. injection E as <- _. reflexivity.
Defined.

(** X17: The parameter buffer of [CreateKernel]: with no parameters the call
    creates no buffer and writes none; with parameters it creates exactly one
    buffer, of usage Uniform | CopyDst and of [paramsSize] bytes, writes
    [paramsSize] bytes to it once, and stores it with that size at index N of
    the Kernel. In both cases nothing is released and the tensor pool of the
    Context is left as it was: the parameter buffer is not among the tensors
    the pool frees. *)
Theorem CreateKernel_parameter_buffer kDebug ctx shader inputs numTensors
    nThreads params paramsSize addr w r w' :
  CreateKernel kDebug ctx shader inputs numTensors nThreads params paramsSize addr w
    = (Done r, w') ->
  numTensors = Z.of_nat (length inputs) ->
  numTensors + 1 < 2 ^ 64 ->
  exists evs,
    w_trace w' = w_trace w ++ evs /\
    released_buffers evs = [] /\
    Context_pool (kr_ctx r) = Context_pool ctx /\
    (paramsSize <= 0 -> created_buffers evs = [] /\ List.filter is_write evs = []) /\
    (0 < paramsSize ->
     exists b,
       created_buffers evs = [b] /\
       In (EvCreateBuffer params_usage paramsSize b) evs /\
       List.filter is_write evs = [EvQueueWriteBuffer (Context_queue ctx) b 0 paramsSize] /\
       Kernel_buffers (kr_kernel r) !! length inputs = Some b /\
       Kernel_bufferSizes (kr_kernel r) !! length inputs = Some paramsSize).
Proof.
  intros Hrun -> Hfit.
  destruct (CreateKernel_inv_full _ _ _ _ _ _ _ _ _ _ _ _ Hrun)
    as (b & hLayout & hEnc & hPass & evs & Htr & Hbuf & Hctx & Hc & Hr & _ & Hw & Hcb
        & _).
  destruct (buffers_of_lookup inputs paramsSize b Hfit)
    as (_ & _ & _ & _ & Hpar & _).
  rewrite <- Hbuf in Hpar. cbn [fst snd] in Hpar.
  exists evs. split; [exact Htr|]. split; [exact Hr|].
  split; [rewrite Hctx; reflexivity|]. split.
  - intros Hle. assert (Hp : (paramsSize >? 0) = false) by lia.
    rewrite Hp in Hc, Hw. split; [exact Hc | exact Hw].
  - intros Hlt. assert (Hp : (paramsSize >? 0) = true) by lia.
    rewrite Hp in Hc, Hw. exists b.
    split; [exact Hc|]. split; [exact (Hcb Hp)|]. split; [exact Hw|].
    exact (Hpar Hp).
Qed.

Lemma CreateKernel_parameter_buffer_witness :
  exists r w',
    CreateKernel true ctx_example shader_example [tensor_example] 1
                 (Shape_init [1000; 1; 1]) 900 8 77 (World_init handles_example)
      = (Done r, w') /\
    created_buffers (w_trace w') = [22] /\
    Kernel_buffers (kr_kernel r) !! 1%nat = Some 22 /\
    Kernel_bufferSizes (kr_kernel r) !! 1%nat = Some 8.
Proof.
  destruct (CreateKernel true ctx_example shader_example [tensor_example] 1
              (Shape_init [1000; 1; 1]) 900 8 77 (World_init handles_example))
    as [[r| | | |] w'] eqn:E;
    try (vm_compute in E; discriminate E).
  exists r, w'. split; [reflexivity|].
  assert (H1 : 1 = Z.of_nat (length [tensor_example])) by reflexivity.
  assert (H2 : 1 + 1 < 2 ^ 64) by (vm_compute; congruence).
  destruct (CreateKernel_parameter_buffer _ _ _ _ _ _ _ _ _ _ _ _ E H1 H2)
    as (evs & Htr & _ & _ & _ & Hpar).
  destruct (Hpar ltac:(lia)) as (b & Hc & _ & _ & Hb & Hs).
  assert (Hb22 : b = 22).
  { vm_compute in E. injection E as <- _. cbn in Hb. congruence. }
  subst b. rewrite Htr. split; [exact Hc|]. split; [exact Hb | exact Hs].
Defined.

(** X18: [CreateKernel] records the dispatch and does not submit it: the
    command buffer of the Kernel it returns holds one dispatch, with the
    Kernel's pipeline and bind group; its three counts are the workgroup
    counts stored in the Kernel (the quotients computed in [size_t] from
    [nThreads] and the workgroup size of the shader) reduced modulo 2^32, as
    the API takes them as [uint32_t], hence these counts themselves when they
    are below 2^32; nothing is handed to the queue; and the Context comes
    back with the address of the Kernel added to its kernel pool and nothing
    else changed. *)
Theorem CreateKernel_records_one_dispatch kDebug ctx shader inputs numTensors
    nThreads params paramsSize addr w r w' :
  CreateKernel kDebug ctx shader inputs numTensors nThreads params paramsSize addr w
    = (Done r, w') ->
  exists hEnc hPass evs,
    w_trace w' = w_trace w ++ evs /\
    List.filter is_dispatch evs =
      [EvDispatchWorkgroups hPass
         (workgroups_of nThreads (ShaderCode_workgroupSize shader) 0 mod 2 ^ 32)
         (workgroups_of nThreads (ShaderCode_workgroupSize shader) 1 mod 2 ^ 32)
         (workgroups_of nThreads (ShaderCode_workgroupSize shader) 2 mod 2 ^ 32)] /\
    ((forall axis, (axis < 3)%nat ->
        0 <= workgroups_of nThreads (ShaderCode_workgroupSize shader) axis < 2 ^ 32) ->
     List.filter is_dispatch evs =
       [EvDispatchWorkgroups hPass
          (workgroups_of nThreads (ShaderCode_workgroupSize shader) 0)
          (workgroups_of nThreads (ShaderCode_workgroupSize shader) 1)
          (workgroups_of nThreads (ShaderCode_workgroupSize shader) 2)]) /\
    dims (Kernel_nWorkgroups (kr_kernel r)) =
      [workgroups_of nThreads (ShaderCode_workgroupSize shader) 0;
       workgroups_of nThreads (ShaderCode_workgroupSize shader) 1;
       workgroups_of nThreads (ShaderCode_workgroupSize shader) 2] /\
    In (EvSetPipeline hPass (Kernel_computePipeline (kr_kernel r))) evs /\
    In (EvSetBindGroup hPass (Kernel_bindGroup (kr_kernel r))) evs /\
    In (EvEncoderFinish hEnc (Kernel_commandBuffer (kr_kernel r))) evs /\
    submitted evs = [] /\
    kr_ctx r = Context_with_kernel ctx addr.
Proof.
  intros Hrun.
  destruct (CreateKernel_inv _ _ _ _ _ _ _ _ _ _ _ _ Hrun) as (_ & _ & Hwg & _).
  destruct (CreateKernel_inv_full _ _ _ _ _ _ _ _ _ _ _ _ Hrun)
    as (b & hLayout & hEnc & hPass & evs & Htr & _ & Hctx & _ & _ & Hs & _ & _ & Hd
        & Hp & Hg & Hf & _).
  exists hEnc, hPass, evs. split; [exact Htr|].
  rewrite Hwg in Hd. rewrite !Shape_get_init3 in Hd by lia. cbn [nth] in Hd.
  split; [exact Hd|].
  split.
  { intros Hsmall. rewrite Hd.
    rewrite !to_uint32_small by (apply Hsmall; lia). reflexivity. }
  split; [rewrite Hwg; reflexivity|].
  split; [exact Hp|]. split; [exact Hg|]. split; [exact Hf|].
  split; [exact Hs | exact Hctx].
Qed.

Lemma CreateKernel_records_one_dispatch_witness :
  (exists r w',
     CreateKernel true ctx_example shader_example [tensor_example] 1
                  (Shape_init [1000; 1; 1]) 0 0 77 (World_init handles_example)
       = (Done r, w') /\
     List.filter is_dispatch (w_trace w') = [EvDispatchWorkgroups 27 4 1 1] /\
     submitted (w_trace w') = []) /\
  (exists r w',
     CreateKernel true ctx_example (mkShaderCode [] (Shape_init [1; 1; 1]) kf32)
                  [tensor_example] 1 (Shape_init [2 ^ 32 + 5; 1; 1]) 0 0 77
                  (World_init handles_example)
       = (Done r, w') /\
     dims (Kernel_nWorkgroups (kr_kernel r)) = [2 ^ 32 + 5; 1; 1] /\
     List.filter is_dispatch (w_trace w') = [EvDispatchWorkgroups 27 5 1 1]).
Proof.
  split.
  - destruct (CreateKernel true ctx_example shader_example [tensor_example] 1
                (Shape_init [1000; 1; 1]) 0 0 77 (World_init handles_example))
      as [[r| | | |] w'] eqn:E;
      try (vm_compute in E; discriminate E).
    exists r, w'. split; [reflexivity|].
    destruct (CreateKernel_records_one_dispatch _ _ _ _ _ _ _ _ _ _ _ _ E)
      as (hEnc & hPass & evs & Htr & Hd & _ & _ & _ & _ & _ & Hs & _).
    rewrite Htr. cbn [World_init w_trace app]. split; [|exact Hs].
    rewrite Hd. vm_compute in E. injection E as _ <-.
    cbn [w_trace World_init app] in Htr. subst evs.
    vm_compute in Hd. injection Hd as <-. reflexivity.
  - destruct (CreateKernel true ctx_example (mkShaderCode [] (Shape_init [1; 1; 1]) kf32)
                [tensor_example] 1 (Shape_init [2 ^ 32 + 5; 1; 1]) 0 0 77
                (World_init handles_example))
      as [[r| | | |] w'] eqn:E;
      try (vm_compute in E; discriminate E).
    exists r, w'. split; [reflexivity|].
    destruct (CreateKernel_records_one_dispatch _ _ _ _ _ _ _ _ _ _ _ _ E)
      as (hEnc & hPass & evs & Htr & Hd & _ & Hdims & _).
    split; [rewrite Hdims; reflexivity|].
    rewrite Htr. cbn [World_init w_trace app].
    rewrite Hd. vm_compute in E. injection E as _ <-.
    cbn [w_trace World_init app] in Htr. subst evs.
    vm_compute in Hd. injection Hd as <-. reflexivity.
Defined.

(** ** CreateTensor with initial data, and ToGPU *)

(** X19: [CreateTensor] with initial data is [CreateTensor] on the Context
    followed by [ToGPU] of the data to the new tensor: it always returns, the
    upload is one write at offset 0 to the buffer registered in the pool, of
    the whole byte size of the tensor, after both buffers have been created;
    for a numeric type other than kf32 that size is 0 and the write carries
    no data. *)
Theorem CreateTensor_with_data_is_create_then_ToGPU ctx shape dtype data w :
  CreateTensor_data ctx shape dtype data w =
    (r ← CreateTensor_ctx ctx shape dtype;
     ToGPU (snd r) data (fst r);;
     mret r) w /\
  exists t ctx' w',
    CreateTensor_data ctx shape dtype data w = (Done (t, ctx'), w') /\
    Array_buffer (Tensor_data t) = handle_at w 0 /\
    Array_size (Tensor_data t)
      = (if dtype =? kf32 then wrap (sizeof_float * size shape) else 0) /\
    TensorPool_data (Context_pool ctx') !! handle_at w 0 = Some t /\
    Context_queue ctx' = Context_queue ctx /\
    w_trace w' =
      w_trace w ++
      [EvLog kTrace "Creating tensor";
       EvCreateBuffer default_usage (Array_size (Tensor_data t)) (handle_at w 0);
       EvCreateBuffer default_usage (Array_size (Tensor_data t)) (handle_at w 1);
       EvQueueWriteBuffer (Context_queue ctx) (handle_at w 0) 0
                          (Array_size (Tensor_data t))].
Proof.
  unfold CreateTensor_data, CreateTensor_ctx, ToGPU.
  change (Z.lor WGPUBufferUsage_Storage
                (Z.lor WGPUBufferUsage_CopyDst WGPUBufferUsage_CopySrc))
    with default_usage.
  pose proof (CreateTensor_run (Context_pool ctx) (Context_device ctx) shape dtype
                default_usage w) as Hrun. cbv zeta in Hrun.
  cbv beta iota delta [mbind M_bind mret M_ret]. rewrite !Hrun.
  destruct w as [tr hs ps pr]. exec.
  split; [reflexivity|].
  eexists _, _, _. split; [reflexivity|].
  cbn [Tensor_data Array_buffer Array_size Context_pool Context_with_pool
       TensorPool_data Context_queue].
  split; [reflexivity|]. split; [reflexivity|].
  split; [apply lookup_insert_eq|]. split; [reflexivity|].
  rewrite <- !app_assoc. reflexivity.
Qed.

(** ** The destructor of Context *)

Lemma Context_destroy_run kDebug be ctx steps tr hs pr :
  pool_keyed (Context_pool ctx) ->
  exists evs,
    Context_destroy kDebug be ctx (mkTeardown steps (mkWorld tr hs [] pr)) =
      (Done (mkContext (Context_instance ctx) (Context_adapter ctx) (Context_device ctx)
                       (Context_queue ctx) (mkPool ∅) ∅),
       mkTeardown (steps ++ teardown_body ctx ++ map Api evs) (mkWorld [] hs [] pr)) /\
    released_buffers evs = List.filter nonnull (pool_keys (Context_pool ctx)) /\
    warnings evs =
      (if decide (nullptr ∈ pool_keys (Context_pool ctx))
       then [null_buffer_warning] else []) /\
    created_buffers evs = [] /\
    pumps evs = 0%nat.
Proof.
  intros Hk.
  destruct (TensorPool_destroy_run (Context_pool ctx) (mkWorld [] hs [] pr) Hk)
    as (evs & Hrun & Hr & _ & _ & Hw & Hc & Hp).
  cbn [w_trace w_handles w_pending w_promise app] in Hrun.
  exists evs. split; [|split; [exact Hr|split; [exact Hw|split; [exact Hc|]]]].
  - unfold Context_destroy, teardown_body, teardown_part, wgpuInstanceProcessEvents.
    destruct (is_set (Context_queue ctx)); destruct (is_set (Context_device ctx));
      destruct (is_set (Context_adapter ctx)); destruct (is_set (Context_instance ctx));
      cbv beta iota zeta delta
        [mbind mret TM_bind TM_ret M_bind M_ret api release td_steps td_world
         emit log take_pending deliver w_trace w_handles w_pending w_promise fst snd];
      cbn [app]; rewrite Hrun;
      cbv beta iota zeta delta [fst snd w_trace w_handles w_pending w_promise];
      cbn [map app]; rewrite <- ?app_assoc; cbn [app]; reflexivity.
  - exact Hp.
Qed.

Lemma events_Api evs : events (map Api evs) = evs.
Proof. induction evs as [|e evs IH]; [reflexivity|]. cbn. unfold events in IH. rewrite IH. reflexivity. Qed.

Lemma releases_Api evs : releases (map Api evs) = [].
Proof. induction evs as [|e evs IH]; [reflexivity | exact IH]. Qed.

Lemma events_app s1 s2 : events (s1 ++ s2) = events s1 ++ events s2.
Proof. apply omap_app. Qed.

Lemma releases_app s1 s2 : releases (s1 ++ s2) = releases s1 ++ releases s2.
Proof. apply omap_app. Qed.

(** X20: The destructor of a Context, run while the API holds no callback, on a
    pool whose entries are stored under their own buffer handles: it returns;
    it releases the queue, the device, the adapter and the instance, in that
    order, each one exactly when its handle is not null; and the buffers of
    the tensors still in the pool are released only after that, by the
    destructor of the pool member, each non-null one once: every buffer
    outlives the device it was created on. Both pools end up empty. *)
Theorem Context_destroy_releases_buffers_last kDebug be ctx s :
  w_pending (td_world s) = [] ->
  pool_keyed (Context_pool ctx) ->
  exists s' evs,
    Context_destroy kDebug be ctx s =
      (Done (mkContext (Context_instance ctx) (Context_adapter ctx) (Context_device ctx)
                       (Context_queue ctx) (mkPool ∅) ∅), s') /\
    td_steps s' = td_steps s ++ teardown_body ctx ++ map Api evs /\
    releases (teardown_body ctx) =
      release_if_set QueueRelease (Context_queue ctx) ++
      release_if_set DeviceRelease (Context_device ctx) ++
      release_if_set AdapterRelease (Context_adapter ctx) ++
      release_if_set InstanceRelease (Context_instance ctx) /\
    released_buffers (events (teardown_body ctx)) = [] /\
    releases (map Api evs) = [] /\
    released_buffers evs = List.filter nonnull (pool_keys (Context_pool ctx)) /\
    created_buffers (events (teardown_body ctx) ++ evs) = [].
Proof.
  destruct s as [steps [tr hs ps pr]]. cbn [td_world td_steps w_pending].
  intros -> Hk.
  destruct (Context_destroy_run kDebug be ctx steps tr hs pr Hk)
    as (evs & Hrun & Hr & _ & Hc & _).
  eexists _, evs. split; [exact Hrun|]. cbn [td_steps].
  split; [reflexivity|].
  split; [|split; [|split; [apply releases_Api|split; [exact Hr|]]]].
  - unfold teardown_body, teardown_part, release_if_set.
    destruct (is_set (Context_queue ctx)); destruct (is_set (Context_device ctx));
      destruct (is_set (Context_adapter ctx)); destruct (is_set (Context_instance ctx));
      reflexivity.
  - unfold teardown_body, teardown_part.
    destruct (is_set (Context_queue ctx)); destruct (is_set (Context_device ctx));
      destruct (is_set (Context_adapter ctx)); destruct (is_set (Context_instance ctx));
      reflexivity.
  - rewrite created_buffers_app, Hc. unfold teardown_body, teardown_part.
    destruct (is_set (Context_queue ctx)); destruct (is_set (Context_device ctx));
      destruct (is_set (Context_adapter ctx)); destruct (is_set (Context_instance ctx));
      reflexivity.
Qed.

Lemma Context_destroy_releases_buffers_last_witness :
  exists s',
    Context_destroy true be_sync
      (mkContext 1 11 12 2 (mkPool {[7 := mkTensor (mkArray 7 0 0) Shape_default]}) ∅)
      (Teardown_init []) =
      (Done (mkContext 1 11 12 2 (mkPool ∅) ∅), s') /\
    releases (td_steps s') =
      [QueueRelease 2; DeviceRelease 12; AdapterRelease 11; InstanceRelease 1] /\
    released_buffers (events (td_steps s')) = [7].
Proof.
  assert (Hk : pool_keyed (mkPool {[7 := mkTensor (mkArray 7 0 0) Shape_default]})).
  { intros k t Hl. cbn [TensorPool_data] in Hl.
    apply lookup_singleton_Some in Hl. destruct Hl as [<- <-]. reflexivity. }
  destruct (Context_destroy_releases_buffers_last true be_sync
              (mkContext 1 11 12 2
                 (mkPool {[7 := mkTensor (mkArray 7 0 0) Shape_default]}) ∅)
              (Teardown_init []) eq_refl Hk)
    as (s' & evs & Hrun & Hst & Hrel & Hnb & Hra & Hrb & _).
  exists s'. split; [exact Hrun|]. rewrite Hst.
  cbn [Teardown_init td_steps app].
  rewrite releases_app, events_app, released_buffers_app, Hrel, Hra, Hnb, events_Api, Hrb.
  split; reflexivity.
Defined.

(** X21: The destructor of a Context with null handles. Its steps are, in
    this order: the first log line; for the queue, then the device, then the
    adapter, either the release of the handle followed at once by one call of
    the event-processing function, or, when the handle is null, its warning
    and nothing else; for the instance, its release, followed by no call of
    the event-processing function, or its warning; the last log line; then
    what the destructor of the pool does, which calls the event-processing
    function never. Each call of the event-processing function is made on the
    instance of the Context, even when that instance is null. *)
Theorem Context_destroy_null_handles kDebug be ctx s :
  w_pending (td_world s) = [] ->
  pool_keyed (Context_pool ctx) ->
  exists s' evs,
    snd (Context_destroy kDebug be ctx s) = s' /\
    td_steps s' =
      td_steps s ++
      [Api (EvLog kInfo "Destroying context")] ++
      (if is_set (Context_queue ctx)
       then [Released (QueueRelease (Context_queue ctx));
             Api (EvProcessEvents (Context_instance ctx))]
       else [Api (EvLog kWarn "Queue is null")]) ++
      (if is_set (Context_device ctx)
       then [Released (DeviceRelease (Context_device ctx));
             Api (EvProcessEvents (Context_instance ctx))]
       else [Api (EvLog kWarn "Device is null")]) ++
      (if is_set (Context_adapter ctx)
       then [Released (AdapterRelease (Context_adapter ctx));
             Api (EvProcessEvents (Context_instance ctx))]
       else [Api (EvLog kWarn "Adapter is null")]) ++
      (if is_set (Context_instance ctx)
       then [Released (InstanceRelease (Context_instance ctx))]
       else [Api (EvLog kWarn "Instance is null")]) ++
      [Api (EvLog kInfo "Destroyed context")] ++
      map Api evs /\
    pumps evs = 0%nat /\
    warnings evs =
      (if decide (nullptr ∈ pool_keys (Context_pool ctx))
       then [null_buffer_warning] else []) /\
    warnings (events (drop (length (td_steps s)) (td_steps s'))) =
      warning_if_null (Context_queue ctx) "Queue is null" ++
      warning_if_null (Context_device ctx) "Device is null" ++
      warning_if_null (Context_adapter ctx) "Adapter is null" ++
      warning_if_null (Context_instance ctx) "Instance is null" ++
      (if decide (nullptr ∈ pool_keys (Context_pool ctx))
       then [null_buffer_warning] else []) /\
    length (releases (drop (length (td_steps s)) (td_steps s'))) =
      count_set [Context_queue ctx; Context_device ctx; Context_adapter ctx;
                 Context_instance ctx] /\
    List.filter is_pump (events (drop (length (td_steps s)) (td_steps s'))) =
      replicate (count_set [Context_queue ctx; Context_device ctx; Context_adapter ctx])
                (EvProcessEvents (Context_instance ctx)).
Proof.
  destruct s as [steps [tr hs ps pr]]. cbn [td_world td_steps w_pending].
  intros -> Hk.
  destruct (Context_destroy_run kDebug be ctx steps tr hs pr Hk)
    as (evs & Hrun & _ & Hw & _ & Hp).
  eexists _, evs. rewrite Hrun. cbn [snd td_steps].
  split; [reflexivity|].
  split.
  { unfold teardown_body, teardown_part. rewrite <- !app_assoc. reflexivity. }
  split; [exact Hp|]. split; [exact Hw|].
  cbn [td_steps]. rewrite drop_app_length.
  rewrite !events_app, !releases_app, events_Api, releases_Api, warnings_app,
    List.filter_app, Hw, app_nil_r.
  assert (Hnp : List.filter is_pump evs = []).
  { unfold pumps in Hp. destruct (List.filter is_pump evs); [reflexivity | discriminate Hp]. }
  rewrite Hnp, app_nil_r.
  unfold teardown_body, teardown_part, warning_if_null, count_set.
  cbn [List.filter].
  destruct (is_set (Context_queue ctx)); destruct (is_set (Context_device ctx));
    destruct (is_set (Context_adapter ctx)); destruct (is_set (Context_instance ctx));
    cbn; (split; [reflexivity|]); split; reflexivity.
Qed.

Lemma Context_destroy_null_handles_witness :
  take 7 (td_steps (snd (Context_destroy false be_sync
                           (mkContext 0 0 0 33 (mkPool ∅) ∅)
                           (Teardown_init [])))) =
    [Api (EvLog kInfo "Destroying context");
     Released (QueueRelease 33);
     Api (EvProcessEvents 0);
     Api (EvLog kWarn "Device is null");
     Api (EvLog kWarn "Adapter is null");
     Api (EvLog kWarn "Instance is null");
     Api (EvLog kInfo "Destroyed context")] /\
  List.filter is_pump
    (events (td_steps (snd (Context_destroy false be_sync
                              (mkContext 0 0 0 33 (mkPool ∅) ∅)
                              (Teardown_init [])))))
    = [EvProcessEvents 0].
Proof.
  assert (Hk : pool_keyed (mkPool ∅)).
  { intros k t Hl. cbn [TensorPool_data] in Hl. rewrite lookup_empty in Hl.
    discriminate Hl. }
  destruct (Context_destroy_null_handles false be_sync (mkContext 0 0 0 33 (mkPool ∅) ∅)
              (Teardown_init []) eq_refl Hk)
    as (s' & evs & Hs & Hst & _ & _ & _ & _ & Hp).
  rewrite Hs. split.
  - rewrite Hst. reflexivity.
  - exact Hp.
Defined.

(** ** What ToCPU writes *)

Lemma filter_pumps_none (f : Event -> bool) instance n :
  f (EvProcessEvents instance) = false ->
  List.filter f (pump_events instance n) = [].
Proof.
  intros Hf. unfold pump_events.
  induction n as [|n IH]; cbn [replicate List.filter]; [reflexivity|].
  rewrite Hf. exact IH.
Qed.

Lemma ToCPU_trace_memcpy kDebug be ctx tensor data bufferSize h0 h1 h2 h3 :
  List.filter is_memcpy (ToCPU_trace kDebug be ctx tensor data bufferSize h0 h1 h2 h3) =
  (if returned (ToCPU_outcome kDebug be)
   then [EvMemcpy data h3 bufferSize] else []).
Proof.
  unfold ToCPU_trace, ToCPU_outcome, ToCPU_stage1, ToCPU_stage2, ToCPU_stage3,
    check_events.
  rewrite !List.filter_app.
  destruct (passes kDebug (be_workdone_status be));
    destruct (passes kDebug (be_map_status be));
    destruct kDebug;
    destruct (be_workdone_status be =? Status_Success);
    destruct (be_map_status be =? Status_Success);
    rewrite ?List.filter_app, ?filter_pumps_none by reflexivity;
    reflexivity.
Qed.

(** X22: [ToCPU] writes to the caller's memory at most once, and exactly once
    when it returns: the only call of [memcpy] copies [bufferSize] bytes from
    the mapped range of the readback buffer to the destination given; in a
    run that the checks end, nothing has been written. *)
Theorem ToCPU_writes_the_destination_once kDebug be fuel ctx tensor data bufferSize w :
  w_pending w = [] ->
  (kDebug = true -> handle_at w 2 <> nullptr) ->
  handle_at w 3 <> nullptr ->
  (be_workdone_delay be + be_map_delay be + 2 <= fuel)%nat ->
  exists o w' tr,
    ToCPU kDebug be fuel ctx tensor data bufferSize w = (o, w') /\
    w_trace w' = w_trace w ++ tr /\
    (returned o = true ->
     List.filter is_memcpy tr = [EvMemcpy data (handle_at w 3) bufferSize] /\
     In (EvGetConstMappedRange (handle_at w 0) (handle_at w 3)) tr /\
     In (EvCreateBuffer (Z.lor WGPUBufferUsage_CopyDst WGPUBufferUsage_MapRead)
                        bufferSize (handle_at w 0)) tr) /\
    (returned o = false -> List.filter is_memcpy tr = [] /\ o = Exited 1).
Proof.
  intros Hp H2 H3 Hfuel.
  destruct (ToCPU_run kDebug be fuel ctx tensor data bufferSize w Hp H2 H3 Hfuel)
    as (w' & Hrun & Htr & _).
  eexists _, w', _. split; [exact Hrun|]. split; [exact Htr|].
  pose proof (ToCPU_trace_memcpy kDebug be ctx tensor data bufferSize
                (handle_at w 0) (handle_at w 1) (handle_at w 2) (handle_at w 3)) as Hm.
  split.
  - intros Hret. rewrite Hret in Hm. split; [exact Hm|].
    unfold ToCPU_outcome in Hret.
    destruct (passes kDebug (be_workdone_status be)) eqn:P1; [|discriminate Hret].
    destruct (passes kDebug (be_map_status be)) eqn:P2; [|discriminate Hret].
    unfold ToCPU_trace, ToCPU_stage1, ToCPU_stage3. rewrite P1, P2. split.
    + apply in_or_app. right. apply in_or_app. right. apply in_or_app. right.
      apply in_or_app. right. apply in_or_app. right. apply in_or_app. right.
      left. reflexivity.
    + apply in_or_app. left. apply in_or_app. left. left. reflexivity.
  - intros Hret. rewrite Hret in Hm. split; [exact Hm|].
    unfold ToCPU_outcome in *.
    destruct (passes kDebug (be_workdone_status be) && passes kDebug (be_map_status be));
      [discriminate Hret | reflexivity].
Qed.

Lemma ToCPU_writes_the_destination_once_witness :
  exists w',
    ToCPU true be_sync 2 ctx_example tensor_example 1000 16
          (World_init [21; 22; 23; 24]) = (Done tt, w') /\
    List.filter is_memcpy (w_trace w') = [EvMemcpy 1000 24 16].
Proof.
  assert (H2 : handle_at (World_init [21; 22; 23; 24]) 2 <> nullptr)
    by (vm_compute; congruence).
  assert (H3 : handle_at (World_init [21; 22; 23; 24]) 3 <> nullptr)
    by (vm_compute; congruence).
  assert (Hf : (be_workdone_delay be_sync + be_map_delay be_sync + 2 <= 2)%nat)
    by (vm_compute; lia).
  destruct (ToCPU_writes_the_destination_once true be_sync 2 ctx_example tensor_example
              1000 16 (World_init [21; 22; 23; 24]) eq_refl (fun _ => H2) H3 Hf)
    as (o & w' & tr & Hrun & Htr & Hret & _).
  assert (Ho : o = Done tt).
  { pose proof Hrun as Hrun'. vm_compute in Hrun'. injection Hrun' as <- _. reflexivity. }
  subst o. exists w'. split; [exact Hrun|].
  rewrite Htr. cbn [World_init w_trace app]. exact (proj1 (Hret eq_refl)).
Defined.

(** ** DispatchKernel and Wait *)

Lemma Wait_future_resolved kDebug be fuel ctx future s :
  future ∈ ds_resolved s ->
  Wait_future kDebug be fuel ctx future s = (Normal (Done tt), s).
Proof.
  intros H. destruct fuel; cbn [Wait_future]; rewrite decide_True by exact H; reflexivity.
Qed.

Lemma Wait_future_step kDebug be fuel ctx future s :
  future ∉ ds_resolved s ->
  Wait_future kDebug be (S fuel) ctx future s =
  (wgpuInstanceProcessEvents_all kDebug be (Context_instance ctx);;
   Wait_future kDebug be fuel ctx future) s.
Proof. intros H. cbn [Wait_future]. rewrite decide_False by exact H. reflexivity. Qed.

Lemma Wait_future_countdown kDebug be ctx future n :
  forall fuel tr hs pr d status promise R,
  future ∉ R ->
  Wait_future kDebug be (n + fuel) ctx future
    (mkDispatch (mkWorld tr hs [] pr) [mkDispatchPending (n + d) status promise] R) =
  Wait_future kDebug be fuel ctx future
    (mkDispatch (mkWorld (tr ++ pump_events (Context_instance ctx) n) hs [] pr)
                [mkDispatchPending d status promise] R).
Proof.
  induction n as [|n IH]; intros fuel tr hs pr d status promise R HR.
  - cbn [Nat.add pump_events replicate]. rewrite app_nil_r. reflexivity.
  - cbn [Nat.add]. rewrite Wait_future_step by exact HR.
    unfold wgpuInstanceProcessEvents_all, wgpuInstanceProcessEvents.
    dexec. cbn [deliver]. dexec. cbn [deliver_dispatch]. dexec. cbn [app].
    rewrite IH by exact HR. unfold pump_events. cbn [replicate].
    rewrite <- app_assoc. reflexivity.
Qed.

Lemma Wait_future_countdown0 kDebug be ctx future d fuel tr hs pr status promise R :
  future ∉ R ->
  Wait_future kDebug be (d + fuel) ctx future
    (mkDispatch (mkWorld tr hs [] pr) [mkDispatchPending d status promise] R) =
  Wait_future kDebug be fuel ctx future
    (mkDispatch (mkWorld (tr ++ pump_events (Context_instance ctx) d) hs [] pr)
                [mkDispatchPending 0 status promise] R).
Proof.
  intros HR.
  rewrite <- (Wait_future_countdown kDebug be ctx future d fuel tr hs pr 0 status
                promise R HR).
  rewrite Nat.add_0_r. reflexivity.
Qed.

Lemma Wait_future_delivers kDebug be ctx fuel tr hs pr status promise R :
  promise ∉ R ->
  Wait_future kDebug be (S fuel) ctx promise
    (mkDispatch (mkWorld tr hs [] pr) [mkDispatchPending 0 status promise] R) =
  (if passes kDebug status then Normal (Done tt) else Normal (Exited 1),
   mkDispatch
     (mkWorld (tr ++ [EvProcessEvents (Context_instance ctx)] ++
               dispatch_done_events kDebug status) hs [] pr)
     []
     (if passes kDebug status then {[promise]} ∪ R else R)).
Proof.
  intros HR. rewrite Wait_future_step by exact HR.
  unfold wgpuInstanceProcessEvents_all, wgpuInstanceProcessEvents,
    dispatch_done_events, passes, check_events.
  dexec. cbn [deliver]. dexec. cbn [deliver_dispatch].
  unfold on_dispatch_done, set_value, check. dexec.
  destruct kDebug; destruct (status =? Status_Success); cbn [negb orb]; dexec;
    unfold exit; dexec;
    rewrite ?decide_False by exact HR; dexec;
    rewrite ?Wait_future_resolved by (cbn [ds_resolved]; set_solver);
    rewrite <- ?app_assoc; reflexivity.
Qed.

Lemma DispatchKernel_run be ctx kernel promise w ps R :
  DispatchKernel be ctx kernel promise (mkDispatch w ps R) =
  (Normal (Done tt),
   mkDispatch
     (mkWorld (w_trace w ++ [EvQueueSubmit (Context_queue ctx) (Kernel_commandBuffer kernel);
                             EvOnSubmittedWorkDone (Context_queue ctx)])
              (w_handles w) (w_pending w) (w_promise w))
     (ps ++ [mkDispatchPending (be_workdone_delay be) (be_workdone_status be) promise])
     R).
Proof.
  destruct w as [tr hs wps pr]. unfold DispatchKernel. dexec.
  rewrite <- app_assoc. reflexivity.
Qed.

(** X24: [DispatchKernel] followed by [Wait] on the future of its promise, when
    the API holds no other callback and the promise has no value yet:
    [DispatchKernel] submits the command buffer of the Kernel and returns
    without a call of the event-processing function; [Wait] then calls it
    once more than the API holds the callback back. In a debug build the run
    returns, with the promise resolved, only if the callback reported
    success, and ends the process otherwise; in a release build it returns
    with the promise resolved whatever the status reported. *)
Theorem DispatchKernel_then_Wait kDebug be fuel ctx kernel promise s :
  w_pending (ds_world s) = [] ->
  ds_pending s = [] ->
  promise ∉ ds_resolved s ->
  (be_workdone_delay be < fuel)%nat ->
  exists s',
    (DispatchKernel be ctx kernel promise;;
     Wait_future kDebug be fuel ctx promise) s =
      (if passes kDebug (be_workdone_status be)
       then Normal (Done tt) else Normal (Exited 1), s') /\
    w_trace (ds_world s') =
      w_trace (ds_world s) ++
      [EvQueueSubmit (Context_queue ctx) (Kernel_commandBuffer kernel);
       EvOnSubmittedWorkDone (Context_queue ctx)] ++
      pump_events (Context_instance ctx) (S (be_workdone_delay be)) ++
      dispatch_done_events kDebug (be_workdone_status be) /\
    (promise ∈ ds_resolved s' <-> passes kDebug (be_workdone_status be) = true) /\
    ds_pending s' = [].
Proof.
  destruct s as [[tr hs wps pr] ps R].
  cbn [ds_world ds_pending ds_resolved w_pending w_trace].
  intros -> -> HR Hfuel.
  assert (Hf : fuel = (be_workdone_delay be + S (fuel - be_workdone_delay be - 1))%nat)
    by lia.
  rewrite Hf. clear Hf Hfuel.
  set (k := (fuel - be_workdone_delay be - 1)%nat). clearbody k.
  unfold mbind at 1, DM_bind at 1. rewrite DispatchKernel_run.
  cbn [app w_trace w_handles w_pending w_promise].
  rewrite Wait_future_countdown0 by exact HR.
  rewrite Wait_future_delivers by exact HR.
  eexists. split; [reflexivity|]. cbn [ds_world ds_pending ds_resolved w_trace].
  split; [|split; [|reflexivity]].
  - rewrite <- !app_assoc. rewrite pump_events_S. reflexivity.
  - destruct (passes kDebug (be_workdone_status be)).
    + split; [reflexivity | intros _; set_solver].
    + split; [intros H; contradiction | discriminate].
Qed.

Lemma DispatchKernel_then_Wait_witness :
  exists s',
    (DispatchKernel be_workdone_failed ctx_example kernel_example 500;;
     Wait_future false be_workdone_failed 1 ctx_example 500)
      (Dispatch_init (World_init [])) = (Normal (Done tt), s') /\
    500 ∈ ds_resolved s' /\
    fst ((DispatchKernel be_workdone_failed ctx_example kernel_example 500;;
          Wait_future true be_workdone_failed 1 ctx_example 500)
           (Dispatch_init (World_init []))) = Normal (Exited 1).
Proof.
  assert (HR : 500 ∉ ds_resolved (Dispatch_init (World_init []))) by set_solver.
  assert (Hf : (be_workdone_delay be_workdone_failed < 1)%nat) by (vm_compute; lia).
  destruct (DispatchKernel_then_Wait false be_workdone_failed 1 ctx_example kernel_example
              500 (Dispatch_init (World_init [])) eq_refl eq_refl HR Hf)
    as (s1 & Hrun1 & _ & Hres1 & _).
  destruct (DispatchKernel_then_Wait true be_workdone_failed 1 ctx_example kernel_example
              500 (Dispatch_init (World_init [])) eq_refl eq_refl HR Hf)
    as (s2 & Hrun2 & _).
  exists s1. split; [exact Hrun1|]. split; [apply Hres1; reflexivity|].
  rewrite Hrun2. reflexivity.
Defined.

Lemma Wait_future_countdown_two kDebug be ctx future n :
  forall fuel tr hs pr d status p1 p2 R,
  future ∉ R ->
  Wait_future kDebug be (n + fuel) ctx future
    (mkDispatch (mkWorld tr hs [] pr)
                [mkDispatchPending (n + d) status p1; mkDispatchPending (n + d) status p2]
                R) =
  Wait_future kDebug be fuel ctx future
    (mkDispatch (mkWorld (tr ++ pump_events (Context_instance ctx) n) hs [] pr)
                [mkDispatchPending d status p1; mkDispatchPending d status p2] R).
Proof.
  induction n as [|n IH]; intros fuel tr hs pr d status p1 p2 R HR.
  - cbn [Nat.add pump_events replicate]. rewrite app_nil_r. reflexivity.
  - cbn [Nat.add]. rewrite Wait_future_step by exact HR.
    unfold wgpuInstanceProcessEvents_all, wgpuInstanceProcessEvents.
    dexec. cbn [deliver]. dexec. cbn [deliver_dispatch]. dexec. cbn [app].
    rewrite IH by exact HR. unfold pump_events. cbn [replicate].
    rewrite <- app_assoc. reflexivity.
Qed.

Lemma Wait_future_countdown0_two kDebug be ctx future d fuel tr hs pr status p1 p2 R :
  future ∉ R ->
  Wait_future kDebug be (d + fuel) ctx future
    (mkDispatch (mkWorld tr hs [] pr)
                [mkDispatchPending d status p1; mkDispatchPending d status p2] R) =
  Wait_future kDebug be fuel ctx future
    (mkDispatch (mkWorld (tr ++ pump_events (Context_instance ctx) d) hs [] pr)
                [mkDispatchPending 0 status p1; mkDispatchPending 0 status p2] R).
Proof.
  intros HR.
  rewrite <- (Wait_future_countdown_two kDebug be ctx future d fuel tr hs pr 0 status
                p1 p2 R HR).
  rewrite Nat.add_0_r. reflexivity.
Qed.

Lemma Wait_future_delivers_two kDebug be ctx fuel tr hs pr status promise R :
  promise ∉ R ->
  passes kDebug status = true ->
  Wait_future kDebug be (S fuel) ctx promise
    (mkDispatch (mkWorld tr hs [] pr)
                [mkDispatchPending 0 status promise; mkDispatchPending 0 status promise]
                R) =
  (FutureError,
   mkDispatch
     (mkWorld (tr ++ [EvProcessEvents (Context_instance ctx)] ++
               dispatch_done_events kDebug status ++
               [EvWorkDoneCallback status] ++
               check_events kDebug (status =? Status_Success) "Queue work done")
              hs [] pr)
     []
     ({[promise]} ∪ R)).
Proof.
  intros HR Hp. rewrite Wait_future_step by exact HR.
  unfold wgpuInstanceProcessEvents_all, wgpuInstanceProcessEvents,
    dispatch_done_events, check_events.
  rewrite Hp. unfold passes in Hp.
  dexec. cbn [deliver]. dexec. cbn [deliver_dispatch].
  unfold on_dispatch_done, set_value, check. dexec.
  assert (Hin : promise ∈ {[promise]} ∪ R) by set_solver.
  destruct kDebug; cbn [negb orb] in Hp; [rewrite Hp|]; cbn [negb]; dexec;
    rewrite decide_False by exact HR; dexec;
    rewrite decide_True by exact Hin;
    rewrite <- ?app_assoc; reflexivity.
Qed.

(** X25: Two calls of [DispatchKernel] with the same Kernel and the same promise,
    then [Wait]: the command buffer of the Kernel is submitted twice as it
    is, and when the callbacks are delivered (and pass the check) the first
    gives the promise its value and the second calls [set_value] on a
    promise that has one, which throws [std::future_error]. *)
Theorem DispatchKernel_twice_on_one_promise kDebug be fuel ctx kernel promise s :
  w_pending (ds_world s) = [] ->
  ds_pending s = [] ->
  promise ∉ ds_resolved s ->
  passes kDebug (be_workdone_status be) = true ->
  (be_workdone_delay be < fuel)%nat ->
  exists s' tr,
    (DispatchKernel be ctx kernel promise;;
     DispatchKernel be ctx kernel promise;;
     Wait_future kDebug be fuel ctx promise) s = (FutureError, s') /\
    w_trace (ds_world s') = w_trace (ds_world s) ++ tr /\
    submitted tr = [Kernel_commandBuffer kernel; Kernel_commandBuffer kernel] /\
    List.filter is_completion tr = [EvPromiseSetValue] /\
    promise ∈ ds_resolved s'.
Proof.
  destruct s as [[tr hs wps pr] ps R].
  cbn [ds_world ds_pending ds_resolved w_pending w_trace].
  intros -> -> HR Hp Hfuel.
  assert (Hf : fuel = (be_workdone_delay be + S (fuel - be_workdone_delay be - 1))%nat)
    by lia.
  rewrite Hf. clear Hf Hfuel.
  set (k := (fuel - be_workdone_delay be - 1)%nat). clearbody k.
  unfold mbind at 1, DM_bind at 1. rewrite DispatchKernel_run.
  unfold mbind at 1, DM_bind at 1. rewrite DispatchKernel_run.
  cbn [app w_trace w_handles w_pending w_promise].
  rewrite Wait_future_countdown0_two by exact HR.
  rewrite Wait_future_delivers_two by assumption.
  eexists _, _. split; [reflexivity|]. cbn [ds_world ds_resolved w_trace].
  split; [rewrite <- !app_assoc; reflexivity|].
  unfold dispatch_done_events, check_events. rewrite Hp.
  rewrite !submitted_app, !List.filter_app.
  rewrite (filter_pumps_none is_completion) by reflexivity.
  assert (Hs : forall n, submitted (pump_events (Context_instance ctx) n) = []).
  { intros n. unfold pump_events. induction n as [|n IH]; [reflexivity | exact IH]. }
  rewrite Hs.
  split; [|split; [|set_solver]];
    destruct kDebug; destruct (be_workdone_status be =? Status_Success); reflexivity.
Qed.

Lemma DispatchKernel_twice_on_one_promise_witness :
  fst ((DispatchKernel be_sync ctx_example kernel_example 500;;
        DispatchKernel be_sync ctx_example kernel_example 500;;
        Wait_future true be_sync 1 ctx_example 500)
         (Dispatch_init (World_init []))) = FutureError.
Proof.
  assert (HR : 500 ∉ ds_resolved (Dispatch_init (World_init []))) by set_solver.
  assert (Hf : (be_workdone_delay be_sync < 1)%nat) by (vm_compute; lia).
  destruct (DispatchKernel_twice_on_one_promise true be_sync 1 ctx_example kernel_example
              500 (Dispatch_init (World_init [])) eq_refl eq_refl HR eq_refl Hf)
    as (s' & tr & Hrun & _).
  rewrite Hrun. reflexivity.
Defined.

(** X26: From [CreateKernel] to the queue: [DispatchKernel] on the Kernel that
    [CreateKernel] returned submits, once, the command buffer that
    [wgpuCommandEncoderFinish] returned after the one dispatch had been
    recorded, whose counts are the workgroup counts computed in [size_t]
    reduced modulo 2^32 (these counts themselves when they are below 2^32);
    nothing was submitted before, and [DispatchKernel] itself returns with
    its callback held by the API. *)
Theorem CreateKernel_then_DispatchKernel kDebug be ctx shader inputs numTensors
    nThreads params paramsSize addr w r w' promise ps R :
  CreateKernel kDebug ctx shader inputs numTensors nThreads params paramsSize addr w
    = (Done r, w') ->
  exists hEnc hPass evs s',
    DispatchKernel be (kr_ctx r) (kr_kernel r) promise (mkDispatch w' ps R)
      = (Normal (Done tt), s') /\
    w_trace (ds_world s') =
      w_trace w ++ evs ++
      [EvQueueSubmit (Context_queue ctx) (Kernel_commandBuffer (kr_kernel r));
       EvOnSubmittedWorkDone (Context_queue ctx)] /\
    List.filter is_dispatch evs =
      [EvDispatchWorkgroups hPass
         (workgroups_of nThreads (ShaderCode_workgroupSize shader) 0 mod 2 ^ 32)
         (workgroups_of nThreads (ShaderCode_workgroupSize shader) 1 mod 2 ^ 32)
         (workgroups_of nThreads (ShaderCode_workgroupSize shader) 2 mod 2 ^ 32)] /\
    ((forall axis, (axis < 3)%nat ->
        0 <= workgroups_of nThreads (ShaderCode_workgroupSize shader) axis < 2 ^ 32) ->
     List.filter is_dispatch evs =
       [EvDispatchWorkgroups hPass
          (workgroups_of nThreads (ShaderCode_workgroupSize shader) 0)
          (workgroups_of nThreads (ShaderCode_workgroupSize shader) 1)
          (workgroups_of nThreads (ShaderCode_workgroupSize shader) 2)]) /\
    In (EvEncoderFinish hEnc (Kernel_commandBuffer (kr_kernel r))) evs /\
    submitted evs = [] /\
    ds_pending s' =
      ps ++ [mkDispatchPending (be_workdone_delay be) (be_workdone_status be) promise] /\
    ds_resolved s' = R.
Proof.
  intros Hrun.
  destruct (CreateKernel_inv _ _ _ _ _ _ _ _ _ _ _ _ Hrun) as (_ & _ & Hwg & _).
  destruct (CreateKernel_inv_full _ _ _ _ _ _ _ _ _ _ _ _ Hrun)
    as (b & hLayout & hEnc & hPass & evs & Htr & _ & Hctx & _ & _ & Hs & _ & _ & Hd
        & _ & _ & Hf & _).
  exists hEnc, hPass, evs. eexists. rewrite DispatchKernel_run.
  split; [reflexivity|]. cbn [ds_world ds_pending ds_resolved w_trace].
  rewrite Hctx, Htr. cbn [Context_with_kernel Context_queue].
  split; [rewrite <- app_assoc; reflexivity|].
  rewrite Hwg in Hd. rewrite !Shape_get_init3 in Hd by lia. cbn [nth] in Hd.
  split; [exact Hd|].
  split.
  { intros Hsmall. rewrite Hd.
    rewrite !to_uint32_small by (apply Hsmall; lia). reflexivity. }
  split; [exact Hf|]. split; [exact Hs|].
  split; reflexivity.
Qed.

Lemma CreateKernel_then_DispatchKernel_witness :
  exists r w' s',
    CreateKernel true ctx_example shader_example [tensor_example] 1
                 (Shape_init [1000; 1; 1]) 0 0 77 (World_init handles_example)
      = (Done r, w') /\
    DispatchKernel be_sync (kr_ctx r) (kr_kernel r) 500 (Dispatch_init w')
      = (Normal (Done tt), s') /\
    submitted (w_trace (ds_world s')) = [28].
Proof.
  destruct (CreateKernel true ctx_example shader_example [tensor_example] 1
              (Shape_init [1000; 1; 1]) 0 0 77 (World_init handles_example))
    as [[r| | | |] w'] eqn:E;
    try (vm_compute in E; discriminate E).
  destruct (CreateKernel_then_DispatchKernel true be_sync _ _ _ _ _ _ _ _ _ _ _ 500 [] ∅ E)
    as (hEnc & hPass & evs & s' & Hrun & Htr & _ & _ & _ & Hs & _).
  exists r, w', s'. split; [reflexivity|]. split; [exact Hrun|].
  rewrite Htr. cbn [World_init w_trace app]. rewrite submitted_app, Hs.
  vm_compute in E. injection E as <- _. reflexivity.
Defined.

(** ** CreateShader with a scalar workgroup size *)

Lemma ToString_Shape_scalar n :
  ToString_Shape (Shape_init [n; 1; 1]) = to_string n ++ list_ascii_of_string ", 1, 1".
Proof.
  unfold ToString_Shape.
  cbn [Shape_init Shape_rank length seq fold_left Nat.sub Nat.ltb Nat.leb app].
  change (Shape_get (Shape_init [n; 1; 1]) 0) with n.
  change (Shape_get (Shape_init [n; 1; 1]) 1) with 1.
  change (Shape_get (Shape_init [n; 1; 1]) 2) with 1.
  change (to_string 1) with (list_ascii_of_string "1").
  rewrite <- !app_assoc. reflexivity.
Qed.

(** X27: [CreateShader] with a scalar workgroup size always returns; the shader
    text has every occurrence of the workgroup-size placeholder replaced by
    the decimal text of the size followed by ", 1, 1", and the workgroup size
    stored is the rank-3 shape {size, 1, 1}. *)
Theorem CreateShader_scalar_workgroup_text template workgroupSize precision w :
  in_size_t workgroupSize ->
  exists code w',
    CreateShader_scalar template workgroupSize precision w = (Done code, w') /\
    ShaderCode_data code =
      substitute_spec (to_string workgroupSize ++ list_ascii_of_string ", 1, 1")
                      (NumType_text precision) template /\
    Shape_rank (ShaderCode_workgroupSize code) = 3%nat /\
    dims (ShaderCode_workgroupSize code) = [workgroupSize; 1; 1].
Proof.
  intros _. unfold CreateShader_scalar.
  destruct (CreateShader_run template (Shape_init [workgroupSize; 1; 1]) precision w)
    as [w' Hrun]; [discriminate|].
  rewrite Hrun. eexists _, _. split; [reflexivity|].
  cbn [ShaderCode_data ShaderCode_workgroupSize].
  rewrite ToString_Shape_scalar. split; [reflexivity|]. split; reflexivity.
Qed.

Lemma CreateShader_scalar_workgroup_text_witness :
  in_size_t 256 /\
  exists code w',
    CreateShader_scalar (list_ascii_of_string "size({{workgroupSize}})") 256 kf32
                        (World_init []) = (Done code, w') /\
    ShaderCode_data code = list_ascii_of_string "size(256, 1, 1)".
Proof.
  assert (H : in_size_t 256) by (vm_compute; split; congruence).
  split; [exact H|].
  destruct (CreateShader_scalar_workgroup_text
              (list_ascii_of_string "size({{workgroupSize}})") 256 kf32 (World_init []) H)
    as (code & w' & Hrun & Hdata & _).
  exists code, w'. split; [exact Hrun|]. rewrite Hdata. vm_compute. reflexivity.
Defined.

(** ** A workgroup size of 0 *)

Lemma nWorkgroups_axis_zero kDebug nThreads workgroupSize axis w :
  (axis < Shape_rank nThreads)%nat -> (axis < Shape_rank workgroupSize)%nat ->
  Shape_get workgroupSize axis = 0 ->
  nWorkgroups_axis kDebug nThreads workgroupSize axis w = (Undefined, w).
Proof.
  intros Hn Hw H0. apply Nat.ltb_lt in Hn, Hw.
  unfold nWorkgroups_axis, Shape_index, size_div.
  destruct kDebug;
    repeat (exec; progress rewrite ?Hn, ?Hw, ?H0); reflexivity.
Qed.

(** X28: [CreateKernel] does not check the workgroup size of the shader: when it
    is 0 on one of the three axes, the count of workgroups is a division by 0
    in [size_t], which is undefined, in the debug build as in the release
    build. By then the bind group, the pipeline and the parameter buffer have
    been created; no dispatch has been recorded. *)
Theorem CreateKernel_zero_workgroup_size kDebug ctx shader inputs numTensors
    nThreads params paramsSize addr w axis :
  Shape_rank nThreads = 3%nat ->
  Shape_rank (ShaderCode_workgroupSize shader) = 3%nat ->
  (axis < 3)%nat ->
  Shape_get (ShaderCode_workgroupSize shader) axis = 0 ->
  exists w' evs,
    CreateKernel kDebug ctx shader inputs numTensors nThreads params paramsSize addr w
      = (Undefined, w') /\
    w_trace w' = w_trace w ++ evs /\
    List.filter is_dispatch evs = [] /\
    created_buffers evs = (if paramsSize >? 0 then [handle_at w 1] else []) /\
    exists hLayout hPipeline hModule h,
      In (EvCreateComputePipeline hLayout hModule "main" hPipeline) evs /\
      In (EvCreateBindGroupLayout (layout_of inputs numTensors paramsSize) h) evs.
Proof.
  intros Hn Hwg Haxis Hzero.
  destruct w as [tr hs ps pr].
  unfold CreateKernel, layout_of, numBindings_of. handles.
  assert (Hlast : Shape_get (ShaderCode_workgroupSize shader) 0 <> 0 ->
                  Shape_get (ShaderCode_workgroupSize shader) 1 <> 0 ->
                  Shape_get (ShaderCode_workgroupSize shader) 2 = 0).
  { intros H0 H1. destruct axis as [|[|[|axis]]]; [contradiction | contradiction | assumption | lia]. }
  destruct (paramsSize >? 0) eqn:Hp; exec; rewrite Hn; cbn [Nat.eqb];
    destruct kDebug; exec.
  all: destruct (Z.eq_dec (Shape_get (ShaderCode_workgroupSize shader) 0) 0) as [H0|H0];
    [rewrite nWorkgroups_axis_zero by (rewrite ?Hn, ?Hwg; auto; lia)
    |rewrite nWorkgroups_axis_run by (rewrite ?Hn, ?Hwg; auto; lia); exec;
     destruct (Z.eq_dec (Shape_get (ShaderCode_workgroupSize shader) 1) 0) as [H1|H1];
     [rewrite nWorkgroups_axis_zero by (rewrite ?Hn, ?Hwg; auto; lia)
     |rewrite nWorkgroups_axis_run by (rewrite ?Hn, ?Hwg; auto; lia); exec;
      rewrite nWorkgroups_axis_zero by (rewrite ?Hn, ?Hwg; auto; lia)]].
  all: exec; eexists _, _; (split; [reflexivity|]); cbn [w_trace].
  all: split; [rewrite <- !app_assoc; reflexivity|].
  all: split; [rewrite !List.filter_app; reflexivity|].
  all: split; [rewrite !created_buffers_app; reflexivity|].
  all: eexists _, _, _, _; split; member.
Qed.

Lemma CreateKernel_zero_workgroup_size_witness :
  fst (CreateKernel true ctx_example (mkShaderCode [] (Shape_init [256; 0; 1]) kf32)
         [tensor_example] 1 (Shape_init [1000; 1; 1]) 0 0 77
         (World_init handles_example)) = Undefined.
Proof.
  destruct (CreateKernel_zero_workgroup_size true ctx_example
              (mkShaderCode [] (Shape_init [256; 0; 1]) kf32) [tensor_example] 1
              (Shape_init [1000; 1; 1]) 0 0 77 (World_init handles_example) 1%nat
              eq_refl eq_refl ltac:(lia) eq_refl) as (w' & evs & Hrun & _).
  rewrite Hrun. reflexivity.
Defined.

(** ** A buffer the API could not create *)

(** X29: [CreateTensor] does not look at the handle [wgpuDeviceCreateBuffer]
    returns: when it is null, a tensor with a null buffer is registered under
    the null key and returned, replacing whatever was under that key and
    leaving the other entries alone; [FreeTensor] on that tensor logs the
    null-buffer warning, releases nothing and removes the entry. *)
Theorem CreateTensor_registers_a_null_buffer pool device shape dtype usage w :
  handle_at w 0 = nullptr ->
  exists t pool1 w1 w2 evs,
    CreateTensor pool device shape dtype usage w = (Done (t, pool1), w1) /\
    Array_buffer (Tensor_data t) = nullptr /\
    TensorPool_data pool1 !! nullptr = Some t /\
    (forall k, k <> nullptr -> TensorPool_data pool1 !! k = TensorPool_data pool !! k) /\
    FreeTensor pool1 t w1 =
      (Done (mkPool (delete nullptr (TensorPool_data pool))), w2) /\
    w_trace w2 = w_trace w1 ++ evs /\
    released_buffers evs = [] /\
    warnings evs = [null_buffer_warning].
Proof.
  intros Hnull.
  eexists _, _, _, _, _. split; [apply CreateTensor_run|].
  cbn [Tensor_data Array_buffer TensorPool_data].
  split; [exact Hnull|]. rewrite Hnull.
  split; [apply lookup_insert_eq|].
  split; [intros k Hk; apply lookup_insert_ne; congruence|].
  rewrite FreeTensor_run.
  cbn [Tensor_data Array_buffer TensorPool_data w_trace w_handles w_pending w_promise].
  rewrite lookup_insert_eq, delete_insert_eq.
  change (nullptr =? nullptr) with true. cbn [app].
  split; [reflexivity|]. split; [reflexivity|]. split; reflexivity.
Qed.

Lemma CreateTensor_registers_a_null_buffer_witness :
  handle_at (World_init []) 0 = nullptr /\
  exists t pool1 w1,
    CreateTensor (mkPool ∅) 12 (Shape_init [2; 3]) kf32 default_usage (World_init [])
      = (Done (t, pool1), w1) /\
    TensorPool_data pool1 !! nullptr = Some t.
Proof.
  split; [reflexivity|].
  destruct (CreateTensor_registers_a_null_buffer (mkPool ∅) 12 (Shape_init [2; 3]) kf32
              default_usage (World_init []) eq_refl)
    as (t & pool1 & w1 & w2 & evs & Hc & _ & Hl & _).
  exists t, pool1, w1. split; [exact Hc | exact Hl].
Defined.

(** ** A request callback delivered after CreateContext has returned *)

Lemma deliver_not_due kDebug be ps : forall tr hs acc pr,
  Forall (fun p => p_delay p <> 0%nat) ps ->
  deliver kDebug be ps (mkWorld tr hs acc pr) =
  (Done tt, mkWorld tr hs (acc ++ map tick ps) pr).
Proof.
  induction ps as [|[d st cb] ps IH]; intros tr hs acc pr Hnd.
  - cbn [deliver map]. rewrite app_nil_r. reflexivity.
  - apply Forall_cons in Hnd. destruct Hnd as [Hd Hnd]. cbn [p_delay] in Hd.
    destruct d as [|d]; [contradiction|].
    cbn [deliver]. exec. rewrite IH by exact Hnd.
    cbn [map tick p_delay p_status p_callback pred].
    rewrite <- app_assoc. reflexivity.
Qed.

Lemma deliver_due_request kDebug be ps1 p ps2 : forall tr hs acc pr,
  Forall (fun q => p_delay q <> 0%nat) ps1 ->
  p_delay p = 0%nat -> is_request p = true ->
  fst (deliver kDebug be (ps1 ++ p :: ps2) (mkWorld tr hs acc pr)) = Undefined.
Proof.
  induction ps1 as [|[d st cb] ps1 IH]; intros tr hs acc pr Hnd Hd Hreq.
  - destruct p as [d st cb]. cbn [p_delay] in Hd. subst d.
    unfold is_request in Hreq. cbn [p_callback] in Hreq.
    cbn [app deliver]. exec.
    destruct cb; try discriminate Hreq; reflexivity.
  - apply Forall_cons in Hnd. destruct Hnd as [Hd1 Hnd]. cbn [p_delay] in Hd1.
    destruct d as [|d]; [contradiction|].
    cbn [app deliver]. exec. apply IH; assumption.
Qed.

Lemma is_request_tick p : is_request (tick p) = is_request p.
Proof. reflexivity. Qed.

Lemma Wait_reaches_request kDebug be c d : forall fuel tr hs ps1 p ps2,
  is_request p = true -> p_delay p = d ->
  Forall (fun q => (d < p_delay q)%nat) ps1 ->
  Forall (fun q => (d <= p_delay q)%nat) ps2 ->
  (d < fuel)%nat ->
  fst (Wait kDebug be fuel c (mkWorld tr hs (ps1 ++ p :: ps2) false)) = Undefined.
Proof.
  induction d as [|d IH]; intros fuel tr hs ps1 p ps2 Hreq Hd H1 H2 Hfuel;
    (destruct fuel as [|fuel]; [lia|]); rewrite Wait_step;
    unfold wgpuInstanceProcessEvents; exec.
  - assert (Hnd : Forall (fun q => p_delay q <> 0%nat) ps1).
    { eapply Forall_impl; [exact H1|]. cbn. intros q Hq. lia. }
    pose proof (deliver_due_request kDebug be ps1 p ps2
                  (tr ++ [EvProcessEvents (Context_instance c)]) hs [] false
                  Hnd Hd Hreq) as Hu.
    destruct (deliver kDebug be (ps1 ++ p :: ps2) _) as [o w1].
    cbn [fst] in Hu. subst o. reflexivity.
  - assert (Hnd : Forall (fun q => p_delay q <> 0%nat) (ps1 ++ p :: ps2)).
    { apply Forall_app. split; [|apply Forall_cons; split].
      - eapply Forall_impl; [exact H1|]. cbn. intros q Hq. lia.
      - lia.
      - eapply Forall_impl; [exact H2|]. cbn. intros q Hq. lia. }
    rewrite deliver_not_due by exact Hnd. cbn [app].
    rewrite map_app. cbn [map].
    apply IH.
    + rewrite is_request_tick. exact Hreq.
    + destruct p as [dp st cb]. cbn [tick p_delay] in *. lia.
    + apply Forall_map. eapply Forall_impl; [exact H1|]. cbn.
      intros [dq st cb]. cbn [tick p_delay]. lia.
    + apply Forall_map. eapply Forall_impl; [exact H2|]. cbn.
      intros [dq st cb]. cbn [tick p_delay]. lia.
    + lia.
Qed.

Lemma Wait_not_yet kDebug be c : forall fuel tr hs ps,
  Forall (fun q => (fuel <= p_delay q)%nat) ps ->
  exists tr' ps',
    Wait kDebug be fuel c (mkWorld tr hs ps false) =
      (OutOfFuel, mkWorld tr' hs ps' false) /\
    map p_callback ps' = map p_callback ps.
Proof.
  induction fuel as [|fuel IH]; intros tr hs ps Hall.
  - exists tr, ps. split; reflexivity.
  - rewrite Wait_step. unfold wgpuInstanceProcessEvents. exec.
    assert (Hnd : Forall (fun q => p_delay q <> 0%nat) ps).
    { eapply Forall_impl; [exact Hall|]. cbn. intros q Hq. lia. }
    rewrite deliver_not_due by exact Hnd. cbn [app].
    destruct (IH (tr ++ [EvProcessEvents (Context_instance c)]) hs (map tick ps))
      as (tr' & ps' & Hrun & Hcb).
    { apply Forall_map. eapply Forall_impl; [exact Hall|]. cbn.
      intros [dq st cb]. cbn [tick p_delay]. lia. }
    exists tr', ps'. split; [exact Hrun|].
    etransitivity; [exact Hcb|]. rewrite map_map. reflexivity.
Qed.

Lemma CreateContext_release_pending be tr hs pr :
  exists ctx tr' hs',
    CreateContext false be (mkWorld tr hs [] pr) =
      (Done ctx,
       mkWorld tr' hs'
         ((if be_adapter_sync be then []
           else [mkPending (be_adapter_delay be) (be_adapter_status be)
                           (OnAdapterRequestEnded (be_adapter be))]) ++
          (if be_device_sync be then []
           else [mkPending (be_device_delay be) (be_device_status be)
                           (OnDeviceRequestEnded (be_device be))]))
         pr).
Proof.
  unfold CreateContext, wgpuInstanceRequestAdapter, wgpuAdapterRequestDevice, check.
  destruct (be_adapter_sync be); destruct (be_device_sync be); exec;
    cbn [app]; eexists _, _, _; reflexivity.
Qed.

Lemma held_split be :
  be_adapter_sync be && be_device_sync be = false ->
  exists ps1 p ps2,
    (if be_adapter_sync be then []
     else [mkPending (be_adapter_delay be) (be_adapter_status be)
                     (OnAdapterRequestEnded (be_adapter be))]) ++
    (if be_device_sync be then []
     else [mkPending (be_device_delay be) (be_device_status be)
                     (OnDeviceRequestEnded (be_device be))])
    = ps1 ++ p :: ps2 /\
    is_request p = true /\ p_delay p = held_soonest be /\
    Forall (fun q => (held_soonest be < p_delay q)%nat) ps1 /\
    Forall (fun q => (held_soonest be <= p_delay q)%nat) ps2 /\
    Forall (fun q => is_request q = true) (ps1 ++ p :: ps2).
Proof.
  unfold held_soonest.
  destruct (be_adapter_sync be); destruct (be_device_sync be); cbn [andb app];
    intros Hs; try discriminate Hs.
  - eexists [], _, []. split; [reflexivity|]. repeat split; repeat constructor.
  - eexists [], _, []. split; [reflexivity|]. repeat split; repeat constructor.
  - destruct (Nat.le_gt_cases (be_adapter_delay be) (be_device_delay be)) as [Hle|Hgt].
    + eexists [], _, [_]. split; [reflexivity|].
      rewrite Nat.min_l by exact Hle. cbn [p_delay].
      split; [reflexivity|]. split; [reflexivity|]. split; [constructor|].
      split; repeat constructor. exact Hle.
    + eexists [_], _, []. split; [reflexivity|].
      rewrite Nat.min_r by lia. cbn [p_delay].
      split; [reflexivity|]. split; [reflexivity|].
      split; [repeat constructor; exact Hgt|]. split; repeat constructor.
Qed.

(** X30: In a release build, when the API holds a request callback back,
    [CreateContext] returns all the same, without a call of the
    event-processing function, and the callback stays with the API, for as
    many calls of the event-processing function as the API decides. Until
    then a [Wait] on a future that is not ready only brings it closer, and
    the callback is still held when the [Wait] is cut short. The call that
    delivers it runs the callback, which writes to a local variable of the
    [CreateContext] call that has returned: that is undefined. A [Wait] on a
    future that is not ready gets there when it is allowed more iterations
    than the callback is held back, and so does a [ToCPU] when the callback
    is not held back longer than the work-done callback of that [ToCPU]. *)
Theorem CreateContext_late_callback_is_undefined be w :
  w_pending w = [] ->
  be_adapter_sync be && be_device_sync be = false ->
  exists ctx w',
    CreateContext false be w = (Done ctx, w') /\
    pumps (w_trace w') = pumps (w_trace w) /\
    w_pending w' <> [] /\
    Forall (fun p => is_request p = true) (w_pending w') /\
    (forall fuel c,
        w_promise w' = false -> (fuel <= held_soonest be)%nat ->
        exists w'',
          Wait false be fuel c w' = (OutOfFuel, w'') /\
          map p_callback (w_pending w'') = map p_callback (w_pending w')) /\
    (forall fuel c,
        w_promise w' = false -> (held_soonest be < fuel)%nat ->
        fst (Wait false be fuel c w') = Undefined) /\
    (forall fuel c tensor data bufferSize,
        (held_soonest be <= be_workdone_delay be)%nat ->
        (held_soonest be < fuel)%nat ->
        fst (ToCPU false be fuel c tensor data bufferSize w') = Undefined).
Proof.
  destruct w as [tr hs ps pr]. cbn [w_pending]. intros -> Hsync.
  destruct (CreateContext_release_pending be tr hs pr) as (ctx & tr' & hs' & Hrun).
  destruct (held_split be Hsync) as (ps1 & p & ps2 & Hsplit & Hreq & Hd & H1 & H2 & Hall).
  rewrite Hsplit in Hrun.
  exists ctx. eexists. split; [exact Hrun|]. cbn [w_pending w_promise w_trace].
  split.
  { pose proof (CreateContext_no_pump false be (mkWorld tr hs [] pr)) as Hp.
    rewrite Hrun in Hp. exact Hp. }
  split; [destruct ps1; discriminate|].
  split; [exact Hall|].
  split; [|split].
  - intros fuel c -> Hfuel.
    destruct (Wait_not_yet false be c fuel tr' hs' (ps1 ++ p :: ps2))
      as (tr'' & ps' & Hw & Hcb).
    { apply Forall_app. split; [|apply Forall_cons; split].
      - eapply Forall_impl; [exact H1|]. cbn. intros q Hq. lia.
      - lia.
      - eapply Forall_impl; [exact H2|]. cbn. intros q Hq. lia. }
    eexists. split; [exact Hw|]. exact Hcb.
  - intros fuel c -> Hfuel.
    apply (Wait_reaches_request false be c (held_soonest be)); assumption.
  - intros fuel c tensor data bufferSize Hwd Hfuel.
    unfold ToCPU, wgpuQueueOnSubmittedWorkDone, check. exec.
    rewrite <- (app_assoc ps1 (p :: ps2)).
    apply (Wait_reaches_request false be c (held_soonest be) fuel _ _ ps1 p (ps2 ++ [_]));
      try assumption.
    apply Forall_app. split; [exact H2|].
    repeat constructor. cbn [p_delay]. exact Hwd.
Qed.

Lemma CreateContext_late_callback_is_undefined_witness :
  (exists ctx w',
     CreateContext false be_adapter_late (World_init [1; 2]) = (Done ctx, w') /\
     held_soonest be_adapter_late = 2%nat /\
     fst (Wait false be_adapter_late 2 ctx w') = OutOfFuel /\
     fst (Wait false be_adapter_late 3 ctx w') = Undefined) /\
  (exists ctx w',
     CreateContext false be_adapter_deferred (World_init [1; 2]) = (Done ctx, w') /\
     fst (ToCPU false be_adapter_deferred 5 ctx tensor_example 1000 16 w') = Undefined).
Proof.
  split.
  - destruct (CreateContext_late_callback_is_undefined be_adapter_late
                (World_init [1; 2]) eq_refl eq_refl)
      as (ctx & w' & Hrun & _ & _ & _ & Hnot & Hyes & _).
    assert (Hpr : w_promise w' = false).
    { pose proof Hrun as Hc. vm_compute in Hc. injection Hc as _ <-. reflexivity. }
    exists ctx, w'. split; [exact Hrun|]. split; [reflexivity|].
    split.
    + destruct (Hnot 2%nat ctx Hpr) as (w'' & Hw & _); [vm_compute; lia|].
      rewrite Hw. reflexivity.
    + apply (Hyes 3%nat ctx Hpr). vm_compute. lia.
  - destruct (CreateContext_late_callback_is_undefined be_adapter_deferred
                (World_init [1; 2]) eq_refl eq_refl)
      as (ctx & w' & Hrun & _ & _ & _ & _ & _ & HT).
    exists ctx, w'. split; [exact Hrun|].
    apply (HT 5%nat); vm_compute; lia.
Defined.
